(** * safeget: a shallow embedding of the verification pipeline

    The program (safeget.py) downloads a target and verifies it with PGP
    signatures, signed hash lists, explicit hashes and a declared size.  The
    functions of the pipeline are embedded as computations in a state and
    exception monad: the state holds the program's module-level globals
    (target_host, localpath_hash_cache) and the parts of the outside world the
    program reads and writes (files, standard output, standard input, the
    number of network requests and of subprocesses so far).  Library and
    operating-system functions the program calls (urlparse, urlopen, hashlib,
    re.findall, subprocess, text decoding, ...) are fields of a [Platform]
    record, over which every statement is universally quantified.

    What the model takes for granted: strings are strings of bytes, and the
    string operations ([lower], [replace], [in], ...) act on them as Python's
    do on ASCII text; a download or a write either happens whole or not at
    all; assertions are enabled; no KeyboardInterrupt arrives. *)

From Stdlib Require Import ZArith Ascii String List DecimalString.
From stdpp Require Import base option gmap strings list.

Local Open Scope string_scope.

(** ** Python string operations *)

Module PyStr.

(** [p] is a prefix of [s] *)
Fixpoint prefix (p s : string) : bool :=
  match p with
  | EmptyString => true
  | String a p' =>
      match s with
      | EmptyString => false
      | String b s' => Ascii.eqb a b && prefix p' s'
      end
  end.

(** [s.startswith(p)] *)
Definition startswith (s p : string) : bool := prefix p s.

(** [needle in hay] *)
Fixpoint contains (needle hay : string) : bool :=
  prefix needle hay ||
  match hay with
  | EmptyString => false
  | String _ hay' => contains needle hay'
  end.

(** [s.replace(old, new)] for a non-empty [old]: occurrences are replaced
    from left to right and do not overlap.  [skip] counts the characters of
    a replaced occurrence that are still to be dropped. *)
Fixpoint replace_from (old new : string) (skip : nat) (s : string) : string :=
  match s with
  | EmptyString => EmptyString
  | String c s' =>
      match skip with
      | S k => replace_from old new k s'
      | O =>
          if prefix old s
          then new +:+ replace_from old new (String.length old - 1) s'
          else String c (replace_from old new 0 s')
      end
  end.

Definition replace (old new s : string) : string := replace_from old new 0 s.

Definition lower_char (c : ascii) : ascii :=
  let n := nat_of_ascii c in
  if (65 <=? n)%nat && (n <=? 90)%nat then ascii_of_nat (n + 32) else c.

(** [s.lower()], on the ASCII letters *)
Fixpoint lower (s : string) : string :=
  match s with
  | EmptyString => EmptyString
  | String c s' => String (lower_char c) (lower s')
  end.

Fixpoint drop (n : nat) (s : string) : string :=
  match n, s with
  | O, _ => s
  | S _, EmptyString => EmptyString
  | S k, String _ s' => drop k s'
  end.

(** [s.partition(sep)] for a non-empty [sep] *)
Fixpoint partition (sep s : string) : string * string * string :=
  if prefix sep s then (EmptyString, sep, drop (String.length sep) s)
  else
    match s with
    | EmptyString => (EmptyString, EmptyString, EmptyString)
    | String c s' =>
        let '(before, found, after) := partition sep s' in
        (String c before, found, after)
    end.

(** [s.split(c)] for a one-character separator *)
Fixpoint split (c : ascii) (s : string) : list string :=
  match s with
  | EmptyString => [EmptyString]
  | String a s' =>
      if Ascii.eqb a c then EmptyString :: split c s'
      else
        match split c s' with
        | piece :: pieces => String a piece :: pieces
        | [] => [String a EmptyString]
        end
  end.

(** [sep.join(l)] *)
Fixpoint join (sep : string) (l : list string) : string :=
  match l with
  | [] => EmptyString
  | [x] => x
  | x :: l' => x +:+ sep +:+ join sep l'
  end.

(** number of occurrences of a character *)
Fixpoint count (c : ascii) (s : string) : nat :=
  match s with
  | EmptyString => 0
  | String a s' => (if Ascii.eqb a c then 1 else 0) + count c s'
  end.

(** the characters before the first occurrence of [c] (all of [s] if none) *)
Fixpoint before (c : ascii) (s : string) : string :=
  match s with
  | EmptyString => EmptyString
  | String a s' => if Ascii.eqb a c then EmptyString else String a (before c s')
  end.

(** [str(n)] for a natural number *)
Definition of_nat (n : nat) : string := NilEmpty.string_of_uint (Nat.to_uint n).

(** [str(z)] for an integer *)
Definition of_Z (z : Z) : string := NilEmpty.string_of_int (Z.to_int z).

(** [os.path.basename] (posix): what follows the last slash *)
Fixpoint basename (s : string) : string :=
  match s with
  | EmptyString => EmptyString
  | String c s' =>
      if Ascii.eqb c "/"%char then basename s'
      else if contains "/" s' then basename s' else s
  end.

Definition is_digit (c : ascii) : bool :=
  let n := nat_of_ascii c in (48 <=? n)%nat && (n <=? 57)%nat.

Fixpoint skip_digits (s : string) : string :=
  match s with
  | String c s' => if is_digit c then skip_digits s' else s
  | EmptyString => EmptyString
  end.

Definition newline : string := String (ascii_of_nat 10) EmptyString.
Definition tab : string := String (ascii_of_nat 9) EmptyString.
Definition backslash : string := String (ascii_of_nat 92) EmptyString.

(** the final group of the pattern below (any characters but a newline, then
    the end of the string): the text up to the end of the string, or up to a
    single newline that ends the string; no match when a newline comes
    earlier *)
Fixpoint dot_star_eol (s : string) : option string :=
  match s with
  | EmptyString => Some EmptyString
  | String c s' =>
      if Ascii.eqb c (ascii_of_nat 10) then
        match s' with EmptyString => Some EmptyString | _ => None end
      else
        match dot_star_eol s' with
        | Some g => Some (String c g)
        | None => None
        end
  end.

(** [re.match] of the pattern in get_details_for_failure (an opening
    bracket, [Errno], a space, one or more digits, a closing bracket, a
    space, and a group that takes the rest of the line): group 1, if the
    string matches *)
Definition match_errno (s : string) : option string :=
  if startswith s "[Errno " then
    let s1 := drop 7 s in
    match s1 with
    | String c _ =>
        if is_digit c then
          let s2 := skip_digits s1 in
          if startswith s2 "] " then dot_star_eol (drop 2 s2) else None
        else None
    | EmptyString => None
    end
  else None.

End PyStr.

(** ** The command line, the platform and the program state *)

(** The namespace [args] that parse_args builds.  A list option that was not
    given (None) and one given without values (the empty list) are both falsy
    and are both the empty list here; [args_size] is the text of --size. *)
Class Args := {
  args_target : string;
  args_size : option string;
  args_hash : list string;
  args_pubkey : list string;
  args_sig : list string;
  args_signedmsg : list string;
  args_signedhash : list string;
  args_after : list string;
  args_run : bool;
  args_tries : Z;
  args_verbose : bool;
  args_debug : bool;
  args_onehost : bool;
  args_overwrite_ok : bool;
  args_app : option string;
  args_noselfcheck : option bool
}.

(** Python exceptions the pipeline raises or meets. *)
Inductive exn : Type :=
| SafegetException (msg : string)
| ValueError (msg : string)
| AssertionError
| UnboundLocalError (name : string)
| UnicodeDecodeError
| FileNotFoundError (path : string)
| CalledProcessError (returncode : Z) (argv : list string)
| EOFError
| TypeError (msg : string)
| OSError (msg : string)
| SystemExit (code : Z).

(** What one call of [urlopen] and the copy of its body give: the body; the
    reason of an HTTPError or URLError; or an exception of another kind (the
    server closed the connection, the read timed out, ...), with what the
    destination holds by then if it was opened. *)
Inductive response : Type :=
| Body (data : string)
| TransportError (reason : string)
| OtherError (msg : string) (written : option string).

(** What [urlparse] gives: the scheme and the network location, or the
    ValueError it raises (a bracket without its pair in the host, ...). *)
Inductive parsed : Type :=
| Parsed (scheme netloc : string)
| Invalid (msg : string).

(** What starting a subprocess gives: the program is missing, or it ran and
    exited, leaving the files as [files]. *)
Inductive process : Type :=
| NoSuchProgram
| Exited (returncode : Z) (stdout_data stderr_data : string)
         (files : gmap string string).

(** Library and operating-system functions.  Calls whose result can change
    from one call to the next take the number of earlier calls of their kind.
    File contents are byte strings; [decode] and [encode] are the reading and
    writing of a file opened in text mode.  [hashlib_new algo] is None when
    hashlib has no such algorithm; the function it gives is the hex digest
    of the data, or None when [hexdigest()] cannot be called without a
    length (the SHAKE algorithms). *)
Class Platform := {
  TMP_DIR : string;
  urlparse : string -> parsed;
  urlopen : nat -> string -> response;
  Popen : nat -> list string -> option string -> gmap string string -> process;
  glob : gmap string string -> string -> list string;
  decode : string -> option string;
  encode : string -> string;
  abspath : string -> string;
  algorithms_available : list string;
  hashlib_new : string -> option (string -> option string);
  findall : string -> string -> list string;
  choice : nat -> string -> ascii;
  int_of_str : string -> option Z;
  str_exn : exn -> string;
  format_exc : exn -> string;
  repr : string -> string
}.

(** The module-level globals and the world the program acts on. *)
Record state : Type := mkState {
  fs : gmap string string;
  target_host : option string;
  localpath_hash_cache : gmap string string;
  gpg_path : string;
  testing : bool;
  stdout : list string;
  stdin : list string;
  requests : nat;
  spawned : nat;
  rng : nat
}.

Definition set_fs (f : gmap string string -> gmap string string) (st : state) : state :=
  mkState (f (fs st)) (target_host st) (localpath_hash_cache st) (gpg_path st)
          (testing st) (stdout st) (stdin st) (requests st) (spawned st) (rng st).

Definition set_target_host (h : option string) (st : state) : state :=
  mkState (fs st) h (localpath_hash_cache st) (gpg_path st)
          (testing st) (stdout st) (stdin st) (requests st) (spawned st) (rng st).

Definition set_cache (f : gmap string string -> gmap string string) (st : state) : state :=
  mkState (fs st) (target_host st) (f (localpath_hash_cache st)) (gpg_path st)
          (testing st) (stdout st) (stdin st) (requests st) (spawned st) (rng st).

Definition set_stdout (f : list string -> list string) (st : state) : state :=
  mkState (fs st) (target_host st) (localpath_hash_cache st) (gpg_path st)
          (testing st) (f (stdout st)) (stdin st) (requests st) (spawned st) (rng st).

Definition set_stdin (l : list string) (st : state) : state :=
  mkState (fs st) (target_host st) (localpath_hash_cache st) (gpg_path st)
          (testing st) (stdout st) l (requests st) (spawned st) (rng st).

Definition set_requests (n : nat) (st : state) : state :=
  mkState (fs st) (target_host st) (localpath_hash_cache st) (gpg_path st)
          (testing st) (stdout st) (stdin st) n (spawned st) (rng st).

Definition set_spawned (n : nat) (st : state) : state :=
  mkState (fs st) (target_host st) (localpath_hash_cache st) (gpg_path st)
          (testing st) (stdout st) (stdin st) (requests st) n (rng st).

Definition set_rng (n : nat) (st : state) : state :=
  mkState (fs st) (target_host st) (localpath_hash_cache st) (gpg_path st)
          (testing st) (stdout st) (stdin st) (requests st) (spawned st) n.

(** ** The monad: state, and an exception or a value *)

Inductive result (A : Type) : Type :=
| Return (a : A)
| Raise (e : exn).
Arguments Return {A} a.
Arguments Raise {A} e.

Definition M (A : Type) : Type := state -> result A * state.

Definition ret {A} (a : A) : M A := fun st => (Return a, st).

Definition bind {A B} (m : M A) (k : A -> M B) : M B :=
  fun st =>
    match m st with
    | (Return a, st') => k a st'
    | (Raise e, st') => (Raise e, st')
    end.

Definition raise {A} (e : exn) : M A := fun st => (Raise e, st).

Definition get : M state := fun st => (Return st, st).

Definition modify (f : state -> state) : M unit := fun st => (Return tt, f st).

(** [try: m  except <the exceptions h handles>: h e] *)
Definition try_except {A} (m : M A) (h : exn -> option (M A)) : M A :=
  fun st =>
    match m st with
    | (Return a, st') => (Return a, st')
    | (Raise e, st') =>
        match h e with
        | Some handler => handler st'
        | None => (Raise e, st')
        end
    end.

Declare Scope py_scope.
Delimit Scope py_scope with py.
Notation "x <- m ;; k" := (bind m (fun x => k))
  (at level 100, m at next level, right associativity) : py_scope.
Notation "m ;; k" := (bind m (fun _ => k))
  (at level 100, k at level 200, right associativity) : py_scope.
Local Open Scope py_scope.

Definition when (b : bool) (m : M unit) : M unit := if b then m else ret tt.

(** [for x in l: acc = body acc x], the variables the loop assigns threaded
    through as [acc] *)
Fixpoint for_fold {A B} (body : B -> A -> M B) (l : list A) (acc : B) : M B :=
  match l with
  | [] => ret acc
  | x :: l' => acc' <- body acc x ;; for_fold body l' acc'
  end.

Definition for_each {A} (body : A -> M unit) (l : list A) : M unit :=
  for_fold (fun _ x => body x) l tt.

(** Functions of the program outside the verification core (finding or
    installing gpg, the check of safeget itself, running the verified file or
    a command after it, removing the temporary directory): any computation. *)
Class Collaborators := {
  install_dependencies : M unit;
  verify_safeget_itself : M unit;
  run_target : M unit;
  run_command_after : list string -> M unit;
  delete_temp_dir : M unit
}.

(** ** The program *)

Section Safeget.

Context {args : Args} {platform : Platform} {others : Collaborators}.

Definition dquote : string := String (ascii_of_nat 34) EmptyString.
Definition nl : string := PyStr.newline.

(** *** Output *)

(** [print(msg)] *)
Definition print (msg : string) : M unit :=
  modify (set_stdout (fun o => (o ++ [msg +:+ nl])%list)).

(** [print(msg, end='', flush=True)] *)
Definition notice (msg : string) : M unit :=
  modify (set_stdout (fun o => (o ++ [msg])%list)).

Definition verbose (msg : string) : M unit :=
  when (args_verbose || args_debug) (print msg).

Definition debug (msg : string) : M unit :=
  when args_debug (print msg).

Definition fail {A} (msg : string) : M A :=
  raise (SafegetException ("Failed: " +:+ msg)).

Definition warn (msg : string) : M unit :=
  print EmptyString ;;
  print ("Warning: " +:+ msg).

Definition more : M unit :=
  print nl ;;
  print "Find more safegets at https://github.com/safeapps/open/safeget/custom/" ;;
  print nl.

(** [str(l)] for a list of strings *)
Definition repr_list (l : list string) : string :=
  "[" +:+ PyStr.join ", " (map repr l) +:+ "]".

(** *** Files *)

Definition exists_ (path : string) : M bool :=
  st <- get ;; ret (bool_decide (is_Some (fs st !! path))).

(** [os.path.getsize(path)] *)
Definition getsize (path : string) : M nat :=
  st <- get ;;
  match fs st !! path with
  | Some data => ret (String.length data)
  | None => raise (FileNotFoundError path)
  end.

(** the bytes of [path], as [open(path, 'rb').read()] gives them *)
Definition read_bytes (path : string) : M string :=
  st <- get ;;
  match fs st !! path with
  | Some data => ret data
  | None => raise (FileNotFoundError path)
  end.

Definition readfile (localpath : string) : M string :=
  data <- read_bytes localpath ;;
  match decode data with
  | Some text => ret text
  | None => raise UnicodeDecodeError
  end.

(** [with open(path, 'w') as f: f.write(text)] *)
Definition write_text (path text : string) : M unit :=
  modify (set_fs (insert path (encode text))).

(** [with open(path, 'wb') as f: f.write(data)] *)
Definition write_bytes (path data : string) : M unit :=
  modify (set_fs (insert path data)).

(** [os.remove(path)] *)
Definition remove (path : string) : M unit :=
  st <- get ;;
  match fs st !! path with
  | Some _ => modify (set_fs (delete path))
  | None => raise (FileNotFoundError path)
  end.

(** [choice(population)] *)
Definition random_choice (population : string) : M ascii :=
  st <- get ;;
  modify (set_rng (S (rng st))) ;;
  ret (choice (rng st) population).

Definition Random_Letters : string :=
  "ABCDEFGHIJKLMNOPQRSTUVWXYZabcdefghijklmnopqrstuvwxyz".
Definition Random_Chars : string := Random_Letters +:+ "0123456789".

Fixpoint random_chars (n : nat) (acc : string) : M string :=
  match n with
  | O => ret acc
  | S k =>
      c <- random_choice Random_Chars ;;
      random_chars k (acc +:+ String c EmptyString)
  end.

Definition get_random_string (digits : nat) : M string :=
  c <- random_choice Random_Letters ;;
  random_string <- random_chars (digits - 2) (String c EmptyString) ;;
  c' <- random_choice Random_Letters ;;
  ret (random_string +:+ String c' EmptyString).

(** [os.path.join(TMP_DIR, get_random_string(8))] *)
Definition get_temp_filename : M string :=
  name <- get_random_string 8 ;;
  ret (TMP_DIR +:+ "/" +:+ name).

(** *** Sources *)

Definition is_url (s : string) : bool := PyStr.contains "://" s.

Definition colon : ascii := ":"%char.

(** [parts = urlparse(url)]: the scheme and the network location *)
Definition urlparse_parts (url : string) : M (string * string) :=
  match urlparse url with
  | Parsed scheme netloc => ret (scheme, netloc)
  | Invalid msg => raise (ValueError msg)
  end.

Definition parse_host (url : string) : M string :=
  parts <- urlparse_parts url ;;
  let netloc := snd parts in
  if PyStr.contains ":" netloc then
    match PyStr.split colon netloc with
    | [host; _] => ret host
    | [] | [_] => raise (ValueError "not enough values to unpack (expected 2, got 1)")
    | _ => raise (ValueError "too many values to unpack (expected 2)")
    end
  else ret netloc.

Definition SAFE_PROTOCOLS : list string := ["https"; "sftp"; "file"].

Definition verify_source (source : string) : M unit :=
  if is_url source then
    parts <- urlparse_parts source ;;
    (if bool_decide (fst parts ∈ SAFE_PROTOCOLS) then ret tt
     else
       let protocols := PyStr.join " or " SAFE_PROTOCOLS in
       fail ("url does not use a safe protocol (" +:+ protocols +:+ "): " +:+ source)) ;;
    host <- parse_host source ;;
    st <- get ;;
    (match target_host st with
     | None =>
         (if bool_decide (source ≠ args_target)
          then fail "safeget error: target source must be verified first"
          else ret tt) ;;
         modify (set_target_host (Some host))
     | Some _ => ret tt
     end) ;;
    if negb args_onehost then
      st <- get ;;
      if bool_decide (source ≠ args_target) && bool_decide (target_host st = Some host)
      then
        when args_debug (print ("target: " +:+ args_target)) ;;
        warn ("url is same host as target: " +:+ source +:+
              ". Use --onehost to skip this warning.")
      else ret tt
    else ret tt
  else
    st <- get ;;
    match target_host st with
    | None => modify (set_target_host (Some args_target))
    | Some _ => ret tt
    end.

(** [input(prompt)] *)
Definition input (prompt : string) : M string :=
  notice prompt ;;
  st <- get ;;
  match stdin st with
  | line :: rest => modify (set_stdin rest) ;; ret line
  | [] => raise EOFError
  end.

Definition ok_to_write (path : string) : M bool :=
  st <- get ;;
  let present := bool_decide (is_Some (fs st !! path)) in
  let nonempty :=
    match fs st !! path with
    | Some data => negb (Nat.eqb (String.length data) 0)
    | None => false
    end in
  if present && nonempty && negb (testing st) then
    verbose (abspath path +:+ " already exists") ;;
    let prompt := nl +:+ "Ok to replace " +:+ abspath path +:+ "? " in
    answer <- input prompt ;;
    let answer := PyStr.lower answer in
    debug ("answered: " +:+ answer) ;;
    let ok := bool_decide (answer ∈ ["y"; "yes"]) in
    (if negb ok then fail ("did not replace " +:+ abspath path) else ret tt) ;;
    ret ok
  else ret true.

(** *** Download *)

Definition download_url (url localpath : string) : M (bool * option string) :=
  st <- get ;;
  modify (set_requests (S (requests st))) ;;
  match urlopen (requests st) url with
  | Body data =>
      write_bytes localpath data ;;
      ret (true, None)
  | TransportError reason =>
      debug reason ;;
      ret (false, Some reason)
  | OtherError msg written =>
      (match written with
       | Some data => write_bytes localpath data
       | None => ret tt
       end) ;;
      raise (OSError msg)
  end.

(** [str(reason)] *)
Definition str_reason (reason : option string) : string :=
  match reason with
  | Some r => r
  | None => "None"
  end.

Definition get_details_for_failure (url : string) (attempts : nat)
    (reason : option string) : M string :=
  debug ("Attempted to download " +:+ PyStr.of_nat attempts +:+ " time(s)") ;;
  let reason :=
    match PyStr.match_errno (str_reason reason) with
    | Some group1 => "Error: " +:+ group1
    | None => str_reason reason
    end in
  let error := "Unable to safely get " +:+ url +:+ "." in
  let suggestions := "Suggestions: Check connections or try again later." in
  let details := error +:+ nl +:+ PyStr.tab +:+ reason +:+ nl +:+ PyStr.tab +:+ suggestions in
  ret details.

(** [while attempts < max_tries and not ok]; [remaining] is
    [max_tries - attempts] *)
Fixpoint download_loop (remaining : nat) (url localpath : string)
    (ok : bool) (reason : option string) (attempts : nat)
    : M (bool * option string * nat) :=
  match remaining with
  | O => ret (ok, reason, attempts)
  | S remaining' =>
      if negb ok then
        r <- download_url url localpath ;;
        download_loop remaining' url localpath (fst r) (snd r) (attempts + 1)
      else ret (ok, reason, attempts)
  end.

Definition download (url localpath : string) : M unit :=
  verbose ("download " +:+ url +:+ " to " +:+ abspath localpath) ;;
  writable <- (if args_overwrite_ok then ret true else ok_to_write localpath) ;;
  if (writable : bool) then
    verify_source url ;;
    let max_tries := args_tries in
    r <- download_loop (Z.to_nat max_tries) url localpath false None 0 ;;
    let '(ok, reason, attempts) := r in
    if negb ok then
      details <- get_details_for_failure url attempts reason ;;
      fail details
    else ret tt
  else ret tt.

(** *** Subprocesses *)

(** [get_run_args]: an argument with a wildcard that is not wrapped in
    quotes is expanded with [glob] *)
Definition get_run_args (files : gmap string string) (command_args : list string)
    : list string :=
  flat_map
    (fun arg =>
       let encased_str :=
         (PyStr.startswith arg dquote && PyStr.startswith (String.rev arg) dquote)
         || (PyStr.startswith arg "'" && PyStr.startswith (String.rev arg) "'") in
       if PyStr.contains "*" arg || PyStr.contains "?" arg then
         if negb encased_str then glob files arg else [arg]
       else [arg])
    command_args.

(** [run] of a command line: [stdin_data] is what the file given as
    standard input holds.  With --debug the child's stderr is echoed. *)
Definition run (command_args : list string) (stdin_data : option string) : M string :=
  debug ("run " +:+ dquote +:+ PyStr.join " " command_args +:+ dquote) ;;
  st <- get ;;
  let proc_args := get_run_args (fs st) command_args in
  modify (set_spawned (S (spawned st))) ;;
  match Popen (spawned st) proc_args stdin_data (fs st) with
  | NoSuchProgram =>
      raise (FileNotFoundError (List.hd EmptyString proc_args))
  | Exited returncode stdout_data stderr_data files =>
      modify (set_fs (fun _ => files)) ;;
      when (args_debug && negb (String.eqb stderr_data EmptyString))
           (notice stderr_data) ;;
      if Z.eqb returncode 0 then ret stdout_data
      else
        let cpe := CalledProcessError returncode command_args in
        debug (str_exn cpe) ;;
        debug ("    returncode: " +:+ PyStr.of_Z returncode) ;;
        when (negb (String.eqb stderr_data EmptyString))
             (debug ("    stderr: " +:+ stderr_data)) ;;
        when (negb (String.eqb stdout_data EmptyString))
             (debug ("    stdout: " +:+ stdout_data)) ;;
        raise cpe
  end.

Definition safeget_run (command_args : list string) (stdin_data : option string)
    : M unit :=
  try_except
    (run command_args stdin_data ;; ret tt)
    (fun e =>
       match e with
       | FileNotFoundError _ =>
           Some (fail ("File not found: " +:+ List.hd EmptyString command_args))
       | _ => None
       end).

(** *** Hashes *)

Definition hash_algorithms : M (list string) :=
  let algos := remove_dups (map PyStr.lower algorithms_available) in
  debug ("hashlib.algorithms_available: {" +:+ PyStr.join ", " (map repr algos) +:+ "}") ;;
  ret algos.

Definition hash_data (algo localpath : string) : M string :=
  let source := algo +:+ ":" +:+ localpath in
  st <- get ;;
  match localpath_hash_cache st !! source with
  | Some digest => ret digest
  | None =>
      match hashlib_new algo with
      | None => raise (ValueError ("unsupported hash type " +:+ algo))
      | Some h =>
          data <- read_bytes localpath ;;
          match h data with
          | None => raise (TypeError "hexdigest() missing required argument 'length' (pos 1)")
          | Some hexdigest =>
              let digest := PyStr.lower hexdigest in
              modify (set_cache (insert source digest)) ;;
              ret digest
          end
      end
  end.

Definition hash_failed (algo expected_hash actual_hash : string) : M unit :=
  debug "only one hash has to match; this one didn't" ;;
  debug ("    expected " +:+ algo +:+ " hash: " +:+ expected_hash) ;;
  debug ("    actual " +:+ algo +:+ " hash: " +:+ actual_hash).

Definition search_for_hash (localpath signed_hash_file algo url_content : string)
    : M bool :=
  debug ("search_for_hash " +:+ algo +:+ ":" +:+ signed_hash_file) ;;
  actual_hash <- hash_data algo localpath ;;
  let ok := PyStr.contains actual_hash url_content in
  (if ok then debug ("verfied " +:+ algo +:+ " hash from url")
   else hash_failed algo ("not found in " +:+ signed_hash_file) actual_hash) ;;
  ret ok.

Definition compare_hashes (algo expected_hash actual_hash : string) : M bool :=
  debug ("compare_hashes " +:+ algo +:+ ":" +:+ expected_hash) ;;
  let ok := String.eqb expected_hash actual_hash in
  (if ok then debug ("verfied explicit " +:+ algo +:+ " hash")
   else hash_failed algo expected_hash actual_hash) ;;
  ret ok.

Definition parse_hash (text : string) : M (string * string) :=
  let '(algo, _, hash_or_url) := PyStr.partition ":" text in
  let algo := PyStr.lower algo in
  (if String.eqb algo EmptyString || String.eqb hash_or_url EmptyString
      || PyStr.startswith hash_or_url "//"
   then fail ("in hash expected " +:+ dquote +:+ "ALGORITHM:..." +:+ dquote +:+
              " e.g. " +:+ dquote +:+ "SHA512:D6E8..." +:+ dquote +:+ " or " +:+
              dquote +:+ "SHA256:https://..." +:+ dquote +:+ ", got " +:+ text)
   else ret tt) ;;
  let hash_or_url :=
    if negb (is_url hash_or_url)
    then PyStr.replace " " EmptyString (PyStr.lower hash_or_url)
    else hash_or_url in
  ret (algo, hash_or_url).

(** *** Armored blocks *)

(** the replacements of clean_gpg_data, in its order *)
Definition normalize (text : string) : string :=
  let text := PyStr.replace "^/s*" EmptyString text in
  let text := PyStr.replace "\n" nl text in
  let text := PyStr.replace "\r" EmptyString text in
  let text := PyStr.replace "<p>" nl text in
  let text := PyStr.replace "</p>" nl text in
  let text := PyStr.replace "<br>" nl text in
  let text := PyStr.replace "<br/>" nl text in
  text.

Definition clean_gpg_data (path : string) : M bool :=
  size <- getsize path ;;
  let ok := (100 <? size)%nat in
  (if ok then
     text <- readfile path ;;
     let text := normalize text in
     (if PyStr.contains "\n" text then raise AssertionError else ret tt) ;;
     write_text path text
   else debug ("gpg data file too short: " +:+ path)) ;;
  ret ok.

Definition extract_patterns (pattern localpath : string) : M (list string) :=
  content <- readfile localpath ;;
  debug ("extract " +:+ pattern +:+ " from " +:+ localpath) ;;
  let matches := findall pattern content in
  match matches with
  | _ :: _ =>
      debug ("matches:" +:+ nl +:+ repr_list matches) ;;
      for_fold
        (fun paths text =>
           path <- get_temp_filename ;;
           write_text path text ;;
           ret (paths ++ [path])%list)
        matches []
  | [] =>
      debug ("pattern not found: " +:+ pattern) ;;
      ret []
  end.

(** the body of the loop of save_patterns; [acc] is [(paths, online_paths)] *)
Definition save_patterns_source (pattern : string)
    (acc : list string * list string) (source : string)
    : M (list string * list string) :=
  let '(paths, online_paths) := acc in
  r <- (if is_url source then
          let url := source in
          verify_source url ;;
          path <- get_temp_filename ;;
          download url path ;;
          debug ("url " +:+ url +:+ " saved in " +:+ path) ;;
          ret (path, (online_paths ++ [path])%list)
        else
          let path := source in
          present <- exists_ path ;;
          (if negb present then fail ("file not found: " +:+ path) else ret tt) ;;
          ret (path, online_paths)) ;;
  let '(path, online_paths) := r in
  paths <- try_except
    (pattern_paths <- extract_patterns pattern path ;;
     (match pattern_paths with
      | [] => fail ("no " +:+ dquote +:+ pattern +:+ dquote +:+ " patterns found: " +:+ path)
      | _ :: _ => ret tt
      end) ;;
     ret (paths ++ pattern_paths)%list)
    (fun e => match e with UnicodeDecodeError => Some (ret paths) | _ => None end) ;;
  ret (paths, online_paths).

Definition save_patterns (pattern : string) (sources : list string)
    : M (list string * list string) :=
  for_fold (save_patterns_source pattern) sources ([], []).

Definition PUBKEY_PATTERN : string :=
  "\-+\s*BEGIN PGP PUBLIC KEY BLOCK\s*\-+.*?\-+\s*END PGP PUBLIC KEY BLOCK\s*\-+\s*".
Definition SIGNED_MESSAGE_PATTERN : string :=
  "\-+\s*BEGIN PGP SIGNED MESSAGE\s*\-+.*?\-+\s*END PGP SIGNATURE\s*\-+\s*".
Definition SIG_PATTERN : string :=
  "\-+\s*BEGIN PGP SIGNATURE\s*\-+.*?\-+\s*END PGP SIGNATURE\s*\-+\s*".

(** [if not args.debug: for path in online: os.remove(path)] *)
Definition remove_online (online : list string) : M unit :=
  if negb args_debug then for_each remove online else ret tt.

(** the body of the loop of get_pubkeys over the extracted blocks *)
Definition import_pubkey (keypath : string) : M unit :=
  debug ("pubkey path: " +:+ keypath) ;;
  ok <- clean_gpg_data keypath ;;
  (if (ok : bool) then
     st <- get ;;
     safeget_run [gpg_path st; "--import"; keypath] None
   else ret tt) ;;
  debug ("imported pgp public key from: " +:+ keypath).

Definition get_pubkeys : M unit :=
  match args_pubkey with
  | [] => ret tt
  | _ :: _ =>
      verbose "get pubkeys" ;;
      r <- save_patterns PUBKEY_PATTERN args_pubkey ;;
      let '(pubkey_paths, online_pubkeys) := r in
      for_each import_pubkey pubkey_paths ;;
      remove_online online_pubkeys
  end.

(** *** The tiers *)

(** the body of the loop of verify_signed_messages over the extracted
    blocks; [verified] is verified_signedmsg_paths *)
Definition verify_signed_message_path (verified : list string)
    (signedmsg_path : string) : M (list string) :=
  ok <- clean_gpg_data signedmsg_path ;;
  if (ok : bool) then
    infile <- read_bytes signedmsg_path ;;
    st <- get ;;
    try_except
      (safeget_run [gpg_path st; "--verify"] (Some infile) ;;
       verbose ("verified pgp signed message: " +:+ signedmsg_path) ;;
       ret (verified ++ [signedmsg_path])%list)
      (fun ex =>
         match ex with
         | SystemExit _ => None
         | _ =>
             Some (debug ("could not verify signed message saved in "
                          +:+ signedmsg_path) ;;
                   debug (str_exn ex) ;;
                   ret verified)
         end)
  else ret verified.

Definition verify_signed_messages (source : string) : M (list string) :=
  verbose ("verify signed message at " +:+ source) ;;
  r <- save_patterns SIGNED_MESSAGE_PATTERN [source] ;;
  let '(signedmsg_paths, online_signed_msgs) := r in
  verified_signedmsg_paths <-
    for_fold verify_signed_message_path signedmsg_paths [] ;;
  remove_online online_signed_msgs ;;
  ret verified_signedmsg_paths.

(** the body of the loop of verify_signatures over the extracted blocks *)
Definition verify_signature_path (local_target sigpath : string) : M unit :=
  ok <- clean_gpg_data sigpath ;;
  if (ok : bool) then
    st <- get ;;
    try_except
      (safeget_run [gpg_path st; "--verify"; sigpath; local_target] None ;;
       verbose ("verified pgp detached signature: " +:+ repr_list args_sig))
      (fun ex =>
         match ex with
         | SystemExit _ => None
         | _ =>
             Some (debug ("could not verify pgp detached signature saved in "
                          +:+ sigpath) ;;
                   debug (str_exn ex))
         end)
  else ret tt.

Definition verify_signatures (local_target : string) : M unit :=
  match args_sig with
  | [] => ret tt
  | _ :: _ =>
      verbose "verify pgp detached signature" ;;
      r <- save_patterns SIG_PATTERN args_sig ;;
      let '(sig_paths, online_sigs) := r in
      for_each (verify_signature_path local_target) sig_paths ;;
      remove_online online_sigs
  end.

Definition check_signed_hash_file (localpath signed_hash_file algo : string) : M bool :=
  ok <- clean_gpg_data signed_hash_file ;;
  if (ok : bool) then
    url_content <- readfile signed_hash_file ;;
    try_except
      (search_for_hash localpath signed_hash_file algo url_content)
      (fun e =>
         match e with
         | SystemExit _ => None
         | _ => Some (debug (str_exn e) ;; debug (format_exc e) ;; ret false)
         end)
  else ret false.

(** the body of the loop over the verified files of one source:
    [if not matched: matched = check_signed_hash_file(...)] *)
Definition match_signed_hash_file (localpath algo : string) (matched : bool)
    (signed_hash_file : string) : M bool :=
  if negb matched then check_signed_hash_file localpath signed_hash_file algo
  else ret matched.

(** the body of the loop of verify_signed_hashes over args.signedhash;
    [matched] is the loop's flag *)
Definition verify_signed_hash_arg (localpath : string) (algos_available : list string)
    (matched : bool) (signed_hash_arg : string) : M bool :=
  r <- parse_hash signed_hash_arg ;;
  let '(algo, source) := r in
  (if negb (bool_decide (algo ∈ algos_available))
   then fail (algo +:+ " not in available hash algorithms: " +:+
              PyStr.join " " algos_available)
   else ret tt) ;;
  signed_data_files <- verify_signed_messages source ;;
  debug (PyStr.of_nat (List.length signed_data_files) +:+ " signed data files") ;;
  for_fold (match_signed_hash_file localpath algo) signed_data_files matched.

Definition verify_signed_hashes (localpath : string) : M unit :=
  algos_available <- hash_algorithms ;;
  match args_signedhash with
  | [] => ret tt
  | _ :: _ =>
      verbose "verify target file matches signed hashes" ;;
      matched <- for_fold (verify_signed_hash_arg localpath algos_available)
                          args_signedhash false ;;
      if negb matched
      then fail ("no matching signed hash found in " +:+ repr_list args_signedhash)
      else ret tt
  end.

(** the body of the loop of verify_explicit_hashes over args.hash.  The
    local variable [actual_hash] is assigned in the branch of a literal hash
    only and keeps its value from one entry to the next: [None] is the
    variable not yet bound. *)
Definition verify_explicit_hash_arg (localpath : string) (algos_available : list string)
    (actual_hash : option string) (hash_arg : string) : M (option string) :=
  r <- parse_hash hash_arg ;;
  let '(algo, hash_or_url) := r in
  (if negb (bool_decide (algo ∈ algos_available))
   then fail (algo +:+ " not in available hash algorithms: " +:+
              PyStr.join " " algos_available)
   else ret tt) ;;
  r <- (if is_url hash_or_url then
          let url := hash_or_url in
          verify_source url ;;
          hashpath <- get_temp_filename ;;
          download url hashpath ;;
          debug ("hash url " +:+ url +:+ " saved in " +:+ hashpath) ;;
          url_content <- readfile hashpath ;;
          matched <- search_for_hash localpath hashpath algo url_content ;;
          ret (matched, actual_hash)
        else
          let expected_hash := hash_or_url in
          debug ("command line arg algo: " +:+ algo +:+ ", expected_hash: "
                 +:+ expected_hash) ;;
          if negb (String.eqb algo EmptyString)
             && negb (String.eqb expected_hash EmptyString)
          then
            actual <- hash_data algo localpath ;;
            matched <- compare_hashes algo expected_hash actual ;;
            ret (matched, Some actual)
          else ret (false, actual_hash)) ;;
  let '(matched, actual_hash) := r in
  (if negb (matched : bool) then
     match actual_hash with
     | Some actual =>
         fail (abspath localpath +:+ " expected hash did not match actual hash "
               +:+ algo +:+ ":" +:+ actual)
     | None => raise (UnboundLocalError "actual_hash")
     end
   else ret tt) ;;
  ret actual_hash.

Definition verify_explicit_hashes (localpath : string) : M unit :=
  algos_available <- hash_algorithms ;;
  match args_hash with
  | [] => ret tt
  | _ :: _ =>
      verbose "verify data file matches explicit hashes" ;;
      for_fold (verify_explicit_hash_arg localpath algos_available) args_hash None ;;
      ret tt
  end.

Definition verify_size (localpath : string) : M unit :=
  match args_size with
  | None => ret tt
  | Some text =>
      if String.eqb text EmptyString then ret tt
      else
        verbose "verify file size" ;;
        match int_of_str (PyStr.replace "," EmptyString text) with
        | None => raise (ValueError "size must be an integer")
        | Some size =>
            actual <- getsize localpath ;;
            if Z.eqb (Z.of_nat actual) size then debug "verified file size"
            else fail ("file size is not " +:+ PyStr.of_Z size)
        end
  end.

Definition verify_file (local_target : string) : M unit :=
  notice "Verify... " ;;
  verbose ("verify target file " +:+ abspath local_target) ;;
  (match args_signedmsg, args_signedhash, args_sig with
   | [], [], [] => ret tt
   | _, _, _ => get_pubkeys
   end) ;;
  verify_signatures local_target ;;
  verify_signed_hashes local_target ;;
  verify_explicit_hashes local_target ;;
  verify_size local_target ;;
  match args_after, args_run with
  | [], false => print ("Verified " +:+ PyStr.basename local_target)
  | _, _ => notice ("Verified " +:+ PyStr.basename local_target +:+ "... ")
  end.

Definition nonempty {A} (l : list A) : bool :=
  match l with [] => false | _ :: _ => true end.

Definition truthy (o : option string) : bool :=
  match o with
  | Some text => negb (String.eqb text EmptyString)
  | None => false
  end.

Definition verify_args : M unit :=
  (if negb (nonempty args_sig || nonempty args_signedhash || nonempty args_hash)
   then fail "File signature, signed hash, or explicit hash required"
   else ret tt) ;;
  (if truthy args_size
      && negb (nonempty args_sig || nonempty args_signedhash || nonempty args_hash)
   then fail "File size alone is not enough verification. File signature, signed hash, or explicit hash required."
   else ret tt) ;;
  (if nonempty args_sig && negb (nonempty args_pubkey)
   then fail "Detached signature found, but required PGP public key not found."
   else ret tt) ;;
  (if nonempty args_signedhash && negb (nonempty args_pubkey)
   then fail "Signed hash found, but required PGP public key not found."
   else ret tt) ;;
  (if nonempty args_pubkey
      && negb (nonempty args_sig || nonempty args_signedmsg || nonempty args_signedhash)
   then fail "PGP public key found, but you also need to include a file signature (--sig), or signed message (--signedmsg), or signed hash (--signedhash)"
   else ret tt) ;;
  verify_source args_target.

(** *** The run *)

Definition start_safeget : M unit :=
  try_except
    (verify_args ;;
     (match args_app with
      | Some app => notice ("Safely get " +:+ app +:+ nl)
      | None => ret tt
      end) ;;
     install_dependencies ;;
     (match args_noselfcheck with
      | Some false => notice "Check... " ;; verify_safeget_itself
      | _ => ret tt
      end) ;;
     local_target <-
       (if is_url args_target then
          let url := args_target in
          let local_target := PyStr.basename url in
          notice "Download... " ;;
          st <- get ;;
          present <- exists_ local_target ;;
          (if testing st && present then ret tt else download url local_target) ;;
          ret local_target
        else
          let local_target := args_target in
          present <- exists_ local_target ;;
          (if negb present
           then fail ("file does not exist: " +:+ abspath local_target)
           else ret tt) ;;
          ret local_target) ;;
     verify_file local_target ;;
     (if args_run then
        notice "Run... " ;; run_target ;; print "Finished."
      else ret tt) ;;
     (if nonempty args_after then run_command_after args_after else ret tt) ;;
     st <- get ;;
     (if negb (testing st) then delete_temp_dir else ret tt) ;;
     more)
    (fun e =>
       match e with
       | SafegetException msg =>
           Some (if args_debug then raise e
                 else
                   print (nl +:+ nl +:+ msg +:+ nl +:+ nl) ;;
                   raise (SystemExit 1))
       | _ => None
       end).

End Safeget.

(** ** Concrete runs

    A small platform on which the program can be run inside Rocq: URLs are
    split at the scheme separator and the first slash, text files are ASCII,
    every armored block fills its file, and the network and gpg follow a
    script. *)

Module Example.

Definition scheme_of (url : string) : string :=
  PyStr.lower (PyStr.before ":"%char url).

Definition netloc_of (url : string) : string :=
  PyStr.before "/"%char (snd (PyStr.partition "://" url)).

Definition pick (n : nat) (population : string) : ascii :=
  match String.get (n mod String.length population) population with
  | Some c => c
  | None => "A"%char
  end.

Definition digest_a : string :=
  "0123456789ABCDEF0123456789abcdef0123456789abcdef0123456789abcdef".

Definition digest_f : string :=
  "ffffffffffffffffffffffffffffffffffffffffffffffffffffffffffffffff".

(** the whole content, if it holds an armor header of the kind the pattern
    asks for *)
Definition whole_file (pattern content : string) : list string :=
  let kind :=
    if PyStr.contains "PUBLIC KEY" pattern then "BEGIN PGP PUBLIC KEY BLOCK"
    else if PyStr.contains "SIGNED MESSAGE" pattern then "BEGIN PGP SIGNED MESSAGE"
    else "BEGIN PGP SIGNATURE" in
  if PyStr.contains kind content then [content] else [].

(** [urlparse]: a bracket without its pair in the network location is
    refused *)
Definition urlparse_of (url : string) : parsed :=
  let netloc := netloc_of url in
  if xorb (PyStr.contains "[" netloc) (PyStr.contains "]" netloc)
  then Invalid "Invalid IPv6 URL"
  else Parsed (scheme_of url) netloc.

(** a stand-in for a hash function: one digest for the bytes of the target
    of the examples, another for any other data *)
Definition fake_digest (data : string) : string :=
  if String.eqb data "payload" then digest_a else digest_f.

(** [int(text)] for an optional sign and decimal digits *)
Definition parse_int (text : string) : option Z :=
  option_map Z.of_int (NilZero.int_of_string text).

Definition show_exn (e : exn) : string :=
  match e with
  | SafegetException msg => msg
  | ValueError msg => msg
  | AssertionError => EmptyString
  | UnboundLocalError name => "local variable '" +:+ name +:+ "' referenced before assignment"
  | UnicodeDecodeError => "invalid start byte"
  | FileNotFoundError path => "No such file or directory: '" +:+ path +:+ "'"
  | CalledProcessError rc _ => "Command returned non-zero exit status " +:+ PyStr.of_Z rc
  | EOFError => "EOF when reading a line"
  | TypeError msg => msg
  | OSError msg => msg
  | SystemExit code => PyStr.of_Z code
  end.

Definition platform (net : nat -> string -> response)
    (proc : nat -> list string -> option string -> gmap string string -> process)
    : Platform :=
  {| TMP_DIR := "/tmp/safeget.k3";
     urlparse := urlparse_of;
     urlopen := net;
     Popen := proc;
     glob := fun _ pattern => [pattern];
     decode := Some;
     encode := fun text => text;
     abspath := fun path => "/home/user/" +:+ path;
     algorithms_available := ["sha256"; "SHA256"; "md5"; "shake_128"];
     hashlib_new := fun algo =>
       if bool_decide (algo ∈ ["sha256"; "md5"]) then Some (fun data => Some (fake_digest data))
       else if String.eqb algo "shake_128" then Some (fun _ => None)
       else None;
     findall := whole_file;
     choice := pick;
     int_of_str := parse_int;
     str_exn := show_exn;
     format_exc := show_exn;
     repr := fun s => "'" +:+ s +:+ "'" |}.

Definition unreachable (n : nat) (url : string) : response :=
  TransportError "timed out".

(** gpg imports any key and rejects every signature *)
Definition gpg_rejects (n : nat) (argv : list string) (stdin_data : option string)
    (files : gmap string string) : process :=
  match argv with
  | [_; "--import"; _] => Exited 0 EmptyString EmptyString files
  | _ => Exited 1 EmptyString "gpg: BAD signature" files
  end.

(** gpg imports any key and accepts every signature *)
Definition gpg_accepts (n : nat) (argv : list string) (stdin_data : option string)
    (files : gmap string string) : process :=
  Exited 0 EmptyString EmptyString files.

Definition no_others : Collaborators :=
  {| install_dependencies := ret tt;
     verify_safeget_itself := ret tt;
     run_target := ret tt;
     run_command_after := fun _ => ret tt;
     delete_temp_dir := ret tt |}.

Definition base_args (target : string) : Args :=
  {| args_target := target;
     args_size := None;
     args_hash := [];
     args_pubkey := [];
     args_sig := [];
     args_signedmsg := [];
     args_signedhash := [];
     args_after := [];
     args_run := false;
     args_tries := 20;
     args_verbose := false;
     args_debug := false;
     args_onehost := false;
     args_overwrite_ok := true;
     args_app := None;
     args_noselfcheck := None |}.

Definition start (files : gmap string string) (answers : list string) : state :=
  {| fs := files;
     target_host := None;
     localpath_hash_cache := ∅;
     gpg_path := "gpg";
     testing := false;
     stdout := [];
     stdin := answers;
     requests := 0;
     spawned := 0;
     rng := 0 |}.

Definition armor_line : string :=
  "iQEzBAABCAAdFiEE0123456789abcdefghijklmnopqrstuvwxyzABCDEFGHIJKLMN".

(** a detached signature block, 137 bytes long *)
Definition signature_block : string :=
  "-----BEGIN PGP SIGNATURE-----" +:+ PyStr.newline +:+ PyStr.newline +:+
  armor_line +:+ PyStr.newline +:+ "=AbCd" +:+ PyStr.newline +:+
  "-----END PGP SIGNATURE-----" +:+ PyStr.newline.

Definition pubkey_block : string :=
  "-----BEGIN PGP PUBLIC KEY BLOCK-----" +:+ PyStr.newline +:+ PyStr.newline +:+
  armor_line +:+ PyStr.newline +:+ "=EfGh" +:+ PyStr.newline +:+
  "-----END PGP PUBLIC KEY BLOCK-----" +:+ PyStr.newline.

(** a signature block whose armor holds two backslashes followed by [rn] *)
Definition escaped_block : string :=
  "-----BEGIN PGP SIGNATURE-----" +:+ PyStr.newline +:+
  armor_line +:+ "\\rn" +:+ armor_line +:+ PyStr.newline +:+
  "-----END PGP SIGNATURE-----" +:+ PyStr.newline.

Definition run_args (target : string) (hashes pubkeys sigs signedhashes : list string)
    (tries : Z) : Args :=
  {| args_target := target;
     args_size := None;
     args_hash := hashes;
     args_pubkey := pubkeys;
     args_sig := sigs;
     args_signedmsg := [];
     args_signedhash := signedhashes;
     args_after := [];
     args_run := false;
     args_tries := tries;
     args_verbose := false;
     args_debug := false;
     args_onehost := false;
     args_overwrite_ok := true;
     args_app := None;
     args_noselfcheck := None |}.

(** safeget app.bin --pubkey key.asc --sig app.sig *)
Definition signature_args : Args :=
  run_args "app.bin" [] ["key.asc"] ["app.sig"] [] 20.

Definition signature_files : gmap string string :=
  <["app.bin" := "payload"]> (<["key.asc" := pubkey_block]>
    (<["app.sig" := signature_block]> ∅)).

(** the same with a signature block that holds the escaped text *)
Definition escaped_files : gmap string string :=
  <["app.bin" := "payload"]> (<["key.asc" := pubkey_block]>
    (<["app.sig" := escaped_block]> ∅)).

(** safeget app.bin --hash sha256:VALUE *)
Definition hash_args (value : string) : Args :=
  run_args "app.bin" ["sha256:" +:+ value] [] [] [] 20.

Definition target_files : gmap string string := <["app.bin" := "payload"]> ∅.

Definition target_url : string := "https://example.org/app.bin".

(** safeget https://example.org/app.bin --hash sha256:VALUE --tries 3 *)
Definition url_args : Args :=
  run_args target_url ["sha256:" +:+ digest_f] [] [] [] 3.

(** the state once the target URL has been validated *)
Definition anchored : state :=
  set_target_host (Some "example.org") (start ∅ []).

(** a signed list of hashes that names the digest of the target *)
Definition signed_sums : string :=
  "-----BEGIN PGP SIGNED MESSAGE-----" +:+ PyStr.newline +:+
  "Hash: SHA256" +:+ PyStr.newline +:+ PyStr.newline +:+
  PyStr.lower digest_a +:+ "  app.bin" +:+ PyStr.newline +:+
  signature_block.

(** safeget app.bin --pubkey key.asc --signedhash sha256:sums.asc *)
Definition signedhash_args : Args :=
  run_args "app.bin" [] ["key.asc"] [] ["sha256:sums.asc"] 20.

Definition signedhash_files : gmap string string :=
  <["app.bin" := "payload"]> (<["key.asc" := pubkey_block]>
    (<["sums.asc" := signed_sums]> ∅)).

(** the third request is the first one that is answered *)
Definition flaky (n : nat) (url : string) : response :=
  if (n <? 2)%nat then TransportError "timed out" else Body "payload".

(** every request is answered with [body] *)
Definition serves (body : string) (n : nat) (url : string) : response := Body body.

(** gpg exits with status 2 whatever it is asked *)
Definition gpg_broken (n : nat) (argv : list string) (stdin_data : option string)
    (files : gmap string string) : process :=
  Exited 2 EmptyString "gpg: no valid OpenPGP data found." files.

(** safeget https://example.org/app.bin --hash sha256:VALUE --tries 0 *)
Definition no_tries_args : Args :=
  run_args target_url ["sha256:" +:+ digest_f] [] [] [] 0.

(** safeget app.bin --hash sha256:VALUE --pubkey key.asc --signedhash sha256:sums.asc *)
Definition both_args : Args :=
  run_args "app.bin" ["sha256:" +:+ digest_a] ["key.asc"] [] ["sha256:sums.asc"] 20.

(** safeget https://example.org/app.bin --hash sha256:https://example.org/app.bin.sha256 *)
Definition hash_url : string := "https://example.org/app.bin.sha256".

Definition hash_url_args : Args :=
  run_args target_url ["sha256:" +:+ hash_url] [] [] [] 3.

(** the target is in place and its URL has been validated *)
Definition anchored_with_target : state :=
  set_target_host (Some "example.org") (start target_files []).

(** the connection is closed while the answer is read: an exception that
    download_url does not trap *)
Definition drops (n : nat) (url : string) : response :=
  OtherError "Connection reset by peer" None.

(** the target and a file that holds its digest *)
Definition sums_files : gmap string string :=
  <["app.bin" := "payload"]> (<["sums.txt" := PyStr.lower digest_a]> ∅).

(** safeget app.bin --pubkey key.asc --signedhash sha256:sums.asc
    --signedhash sha256:gone.asc *)
Definition two_signedhash_args : Args :=
  run_args "app.bin" [] ["key.asc"] [] ["sha256:sums.asc"; "sha256:gone.asc"] 20.

(** a signed list in which two backslashes and two [r] split the digest of
    the target *)
Definition split_sums : string :=
  "-----BEGIN PGP SIGNED MESSAGE-----" +:+ PyStr.newline +:+
  "Hash: SHA256" +:+ PyStr.newline +:+ PyStr.newline +:+
  "0123456789abcdef" +:+ "\\rr" +:+
  "0123456789abcdef0123456789abcdef0123456789abcdef" +:+ "  app.bin" +:+
  PyStr.newline +:+ signature_block.

Definition split_files : gmap string string :=
  <["app.bin" := "payload"]> (<["key.asc" := pubkey_block]>
    (<["sums.asc" := split_sums]> ∅)).

(** gpg imports any key and accepts one text on its standard input, and
    nothing else *)
Definition gpg_accepts_only (msg : string) (n : nat) (argv : list string)
    (stdin_data : option string) (files : gmap string string) : process :=
  match argv with
  | [_; "--import"; _] => Exited 0 EmptyString EmptyString files
  | _ =>
      if bool_decide (stdin_data = Some msg)
      then Exited 0 EmptyString EmptyString files
      else Exited 1 EmptyString "gpg: BAD signature" files
  end.

(** safeget app.bin --hash sha256:VALUE --pubkey key.asc
    --signedhash sha256:sums.asc --size 7 *)
Definition sized_args : Args :=
  {| args_target := "app.bin";
     args_size := Some "7";
     args_hash := ["sha256:" +:+ digest_a];
     args_pubkey := ["key.asc"];
     args_sig := [];
     args_signedmsg := [];
     args_signedhash := ["sha256:sums.asc"];
     args_after := [];
     args_run := false;
     args_tries := 20;
     args_verbose := false;
     args_debug := false;
     args_onehost := false;
     args_overwrite_ok := true;
     args_app := None;
     args_noselfcheck := None |}.

(** safeget https://example.org/app.bin --hash sha256:VALUE --tries 3 --debug *)
Definition debug_args : Args :=
  {| args_target := target_url;
     args_size := None;
     args_hash := ["sha256:" +:+ digest_f];
     args_pubkey := [];
     args_sig := [];
     args_signedmsg := [];
     args_signedhash := [];
     args_after := [];
     args_run := false;
     args_tries := 3;
     args_verbose := false;
     args_debug := true;
     args_onehost := false;
     args_overwrite_ok := true;
     args_app := None;
     args_noselfcheck := None |}.

(** gpg imports any key into its key ring, a file of its own *)
Definition gpg_key_ring (n : nat) (argv : list string) (stdin_data : option string)
    (files : gmap string string) : process :=
  Exited 0 EmptyString EmptyString (<["/home/user/.gnupg/pubring.kbx" := "keys"]> files).

End Example.

(** ** How a run may change the state *)

(** [follows R m]: running [m] takes every state to one related to it by [R],
    whether [m] returns or raises. *)
Definition follows (R : relation state) {A} (m : M A) : Prop :=
  forall st, R st (snd (m st)).

(** every value [m] returns satisfies [Q] *)
Definition returns {A} (Q : A -> Prop) (m : M A) : Prop :=
  forall st a st', m st = (Return a, st') -> Q a.

(** What every function of the pipeline respects: entries of the hash cache
    and a trust anchor, once there, stay as they are; the counters of
    requests and of subprocesses only grow; gpg_path and testing are left
    alone. *)
Record extends (s s' : state) : Prop := {
  ext_cache : forall key digest,
    localpath_hash_cache s !! key = Some digest ->
    localpath_hash_cache s' !! key = Some digest;
  ext_host : forall h, target_host s = Some h -> target_host s' = Some h;
  ext_spawned : (spawned s <= spawned s')%nat;
  ext_requests : (requests s <= requests s')%nat;
  ext_gpg_path : gpg_path s' = gpg_path s;
  ext_testing : testing s' = testing s
}.

Section Renormalized.

Context {platform : Platform}.

(** what clean_gpg_data makes of the bytes of a file that is long enough *)
Definition renormalized (data : string) : string :=
  match decode data with
  | Some text => encode (normalize text)
  | None => data
  end.

(** [path] is in the temporary directory *)
Definition is_tmp (path : string) : bool :=
  PyStr.startswith path (TMP_DIR +:+ "/").

(** every temporary file of [s'] is a file of [s], renormalized some number
    of times: between the two states temporary files were removed or
    cleaned, and none was created or written otherwise *)
Definition only_cleans (s s' : state) : Prop :=
  forall path data',
    is_tmp path = true ->
    fs s' !! path = Some data' ->
    exists data k, fs s !! path = Some data /\ data' = Nat.iter k renormalized data.

(** the subprocesses the program starts leave the files in [kept] as they
    are (gpg reads the file it is given and writes its own key ring) *)
Definition subprocesses_keep (kept : string -> Prop) : Prop :=
  forall n argv stdin_data files returncode out err files',
    Popen n argv stdin_data files = Exited returncode out err files' ->
    forall path, kept path -> files' !! path = files !! path.

(** the files after a subprocess: as it left them, if it was started *)
Definition files_after (p : process) (files : gmap string string)
    : gmap string string :=
  match p with
  | Exited _ _ _ files' => files'
  | NoSuchProgram => files
  end.

(** [digest] is what hash_data computes for [algo] from the bytes [data] *)
Definition is_digest (algo data digest : string) : Prop :=
  exists h hexdigest,
    hashlib_new algo = Some h /\ h data = Some hexdigest /\
    digest = PyStr.lower hexdigest.

(** [digest] is the digest for [algo] of what [localpath] holds in [s] *)
Definition target_digest (localpath : string) (s : state) (algo digest : string)
    : Prop :=
  exists data, fs s !! localpath = Some data /\ is_digest algo data digest.

(** every digest cached for [localpath] is a digest of what it holds *)
Definition cache_sound (localpath : string) (s : state) : Prop :=
  forall algo digest,
    localpath_hash_cache s !! (algo +:+ ":" +:+ localpath) = Some digest ->
    target_digest localpath s algo digest.

(** between [s] and [s'] the file [localpath] was left alone, and what was
    cached for it is a digest of it *)
Definition target_kept (localpath : string) (s s' : state) : Prop :=
  fs s' !! localpath = fs s !! localpath /\
  forall algo digest,
    localpath_hash_cache s' !! (algo +:+ ":" +:+ localpath) = Some digest ->
    localpath_hash_cache s !! (algo +:+ ":" +:+ localpath) = Some digest \/
    target_digest localpath s algo digest.

End Renormalized.

(** ** The vocabulary of the statements *)

Section Statements.

Context {args : Args} {platform : Platform}.

Definition no_tier_message : string :=
  "Failed: File signature, signed hash, or explicit hash required".

Definition unsafe_protocol_message (source : string) : string :=
  "Failed: url does not use a safe protocol (https or sftp or file): " +:+ source.

Definition same_host_warning (source : string) : list string :=
  ((if args_debug then [("target: " +:+ args_target) +:+ nl] else []) ++
   [nl;
    ("Warning: " +:+ "url is same host as target: " +:+ source +:+
     ". Use --onehost to skip this warning.") +:+ nl])%list.

(** the reason as get_details_for_failure writes it *)
Definition shown_reason (reason : string) : string :=
  match PyStr.match_errno reason with
  | Some group1 => "Error: " +:+ group1
  | None => reason
  end.

Definition suggestions : string :=
  "Suggestions: Check connections or try again later.".

Definition prints (m : M unit) : Prop :=
  forall st, exists o, m st = (Return tt, set_stdout (fun _ => o) st).

(** a run of [gpg --verify] on [msg], the [n]-th subprocess for some [n]
    from [lo] up to but not [hi], exited with status 0 *)
Definition accepted (lo hi : nat) (gpg msg : string) : Prop :=
  exists n files out err files',
    (lo <= n < hi)%nat /\
    Popen n (get_run_args files [gpg; "--verify"]) (Some msg) files
    = Exited 0 out err files'.

(** [path] is a temporary file whose content gpg accepted since [s0] as the
    signed message [msg]; if the file is still there in [s], it holds [msg]
    renormalized some number of times *)
Definition verified_file (s0 s : state) (path : string) : Prop :=
  is_tmp path = true /\
  exists msg,
    accepted (spawned s0) (spawned s) (gpg_path s0) msg /\
    forall data,
      fs s !! path = Some data -> exists k, data = Nat.iter k renormalized msg.

(** between [s0] and [s], gpg accepted a signed message whose renormalized
    text holds the digest of the target that is cached for [algo] *)
Definition digest_found (localpath algo : string) (s0 s : state) : Prop :=
  exists msg k text digest,
    accepted (spawned s0) (spawned s) (gpg_path s0) msg /\
    decode (Nat.iter (S k) renormalized msg) = Some text /\
    localpath_hash_cache s !! (algo +:+ ":" +:+ localpath) = Some digest /\
    PyStr.contains digest text = true.

(** the entry [ALGO:SOURCE] of --signedhash for which the digest was found *)
Definition signed_hash_evidence (localpath : string) (s0 s : state)
    (entry : string) : Prop :=
  exists algo source,
    (forall st, parse_hash entry st = (Return (algo, source), st)) /\
    digest_found localpath algo s0 s.

Definition no_match_message : string :=
  "Failed: no matching signed hash found in " +:+ repr_list args_signedhash.

(** the entry [ALGO:VALUE] of --hash matches the target: a literal value
    equals the digest cached for ALGO; for a URL, a request made between
    [s0] and [s] got a body whose text holds that digest *)
Definition explicit_hash_matched (localpath : string) (s0 s : state)
    (entry : string) : Prop :=
  exists algo value digest,
    (forall st, parse_hash entry st = (Return (algo, value), st)) /\
    localpath_hash_cache s !! (algo +:+ ":" +:+ localpath) = Some digest /\
    if is_url value then
      exists i data text,
        (requests s0 <= i < requests s)%nat /\
        urlopen i value = Body data /\ decode data = Some text /\
        PyStr.contains digest text = true
    else value = digest.

Definition mismatch_message (localpath algo actual : string) : string :=
  "Failed: " +:+ abspath localpath +:+ " expected hash did not match actual hash "
  +:+ algo +:+ ":" +:+ actual.

(** the character a Python newline escape stands for *)
Definition newline_char : ascii := ascii_of_nat 10.

(** the files a loop of extract_patterns has written so far *)
Definition extracted (matches : list string) (st0 : state) (paths : list string)
    (st : state) : Prop :=
  (forall p, p ∈ paths ->
             PyStr.startswith p (TMP_DIR +:+ "/") = true /\
             exists text, text ∈ matches /\ fs st !! p = Some (encode text)) /\
  (forall q, q ∉ paths -> fs st !! q = fs st0 !! q).

(** the checks of verify_args on the options pass *)
Definition options_ok : bool :=
  (nonempty args_sig || nonempty args_signedhash || nonempty args_hash)
  && (negb (nonempty args_sig) || nonempty args_pubkey)
  && (negb (nonempty args_signedhash) || nonempty args_pubkey)
  && (negb (nonempty args_pubkey)
      || nonempty args_sig || nonempty args_signedmsg || nonempty args_signedhash).

Definition size_alone_message : string :=
  "Failed: File size alone is not enough verification. File signature, signed hash, or explicit hash required.".

(** the steps of verify_explicit_hashes for an entry whose value is a URL:
    validate it, fetch it to a temporary file and look for the digest *)
Definition fetch_and_search (localpath algo url : string) : M bool :=
  verify_source url ;;
  hashpath <- get_temp_filename ;;
  download url hashpath ;;
  debug ("hash url " +:+ url +:+ " saved in " +:+ hashpath) ;;
  url_content <- readfile hashpath ;;
  search_for_hash localpath hashpath algo url_content.

(** the file that start_safeget verifies: the base name of a URL target, or
    the target itself *)
Definition local_target_of_args : string :=
  if is_url args_target then PyStr.basename args_target else args_target.

(** every digest in the cache is in lower case *)
Definition cache_lower (st : state) : Prop :=
  forall key digest,
    localpath_hash_cache st !! key = Some digest -> PyStr.lower digest = digest.

(** the entry [ALGO:SOURCE] of --signedhash names the target: between [s0]
    and [s] gpg accepted a signed message [msg], and the digest for ALGO of
    what the target holds in [s0] is a substring of the text of [msg] as
    clean_gpg_data renormalized it once more, or more than once, before the
    search *)
Definition signed_digest_of_target (localpath : string) (s0 s : state)
    (entry : string) : Prop :=
  exists algo source msg k text digest,
    (forall st, parse_hash entry st = (Return (algo, source), st)) /\
    accepted (spawned s0) (spawned s) (gpg_path s0) msg /\
    decode (Nat.iter (S k) renormalized msg) = Some text /\
    target_digest localpath s0 algo digest /\
    PyStr.contains digest text = true.

(** the entry [ALGO:VALUE] of --hash matches the target: a value that is not
    a URL (a hex digest, or anything else, a file path included) equals the
    digest for ALGO of what the target holds in [s0]; for a URL, a request
    made between [s0] and [s] got a body whose text holds that digest *)
Definition hash_entry_of_target (localpath : string) (s0 s : state)
    (entry : string) : Prop :=
  exists algo value digest,
    (forall st, parse_hash entry st = (Return (algo, value), st)) /\
    target_digest localpath s0 algo digest /\
    if is_url value then
      exists i data text,
        (requests s0 <= i < requests s)%nat /\
        urlopen i value = Body data /\ decode data = Some text /\
        PyStr.contains digest text = true
    else value = digest.

End Statements.

(** ** The vocabulary of the statements about a whole run *)

Section Run.

Context {args : Args} {platform : Platform} {others : Collaborators}.

(** start_safeget up to the call of verify_file: the checks of the options,
    the dependencies, the check of safeget itself and the local copy of the
    target *)
Definition obtain_local_target : M string :=
  verify_args ;;
  (match args_app with
   | Some app => notice ("Safely get " +:+ app +:+ nl)
   | None => ret tt
   end) ;;
  install_dependencies ;;
  (match args_noselfcheck with
   | Some false => notice "Check... " ;; verify_safeget_itself
   | _ => ret tt
   end) ;;
  (if is_url args_target then
     let url := args_target in
     let local_target := PyStr.basename url in
     notice "Download... " ;;
     st <- get ;;
     present <- exists_ local_target ;;
     (if testing st && present then ret tt else download url local_target) ;;
     ret local_target
   else
     let local_target := args_target in
     present <- exists_ local_target ;;
     (if negb present
      then fail ("file does not exist: " +:+ abspath local_target)
      else ret tt) ;;
     ret local_target).

(** start_safeget after the call of verify_file *)
Definition finish_run : M unit :=
  (if args_run then
     notice "Run... " ;; run_target ;; print "Finished."
   else ret tt) ;;
  (if nonempty args_after then run_command_after args_after else ret tt) ;;
  st <- get ;;
  (if negb (testing st) then delete_temp_dir else ret tt) ;;
  more.

(** no digest is cached for [localpath] *)
Definition uncached (localpath : string) (s : state) : Prop :=
  forall algo, localpath_hash_cache s !! (algo +:+ ":" +:+ localpath) = None.

(** between [s] and [s'] the cache of digests was left as it is *)
Definition same_cache (s s' : state) : Prop :=
  localpath_hash_cache s' = localpath_hash_cache s.

End Run.


(** ** Properties *)

Local Open Scope py_scope.

(** *** Facts about the monad *)

Lemma bind_raise {A B} (m : M A) (k : A -> M B) (st st' : state) (e : exn) :
  m st = (Raise e, st') -> bind m k st = (Raise e, st').
Proof. intros H. unfold bind. now rewrite H. Qed.

Lemma bind_return {A B} (m : M A) (k : A -> M B) (st st' : state) (a : A) :
  m st = (Return a, st') -> bind m k st = k a st'.
Proof. intros H. unfold bind. now rewrite H. Qed.

Lemma bind_inv {A B} (m : M A) (k : A -> M B) (st st' : state) (b : B) :
  bind m k st = (Return b, st') ->
  exists a s, m st = (Return a, s) /\ k a s = (Return b, st').
Proof.
  unfold bind. destruct (m st) as [[a|e] s]; [eauto|discriminate].
Qed.

Lemma follows_run {A} (R : relation state) (m : M A) (st st' : state) (r : result A) :
  follows R m -> m st = (r, st') -> R st st'.
Proof. intros H E. specialize (H st). now rewrite E in H. Qed.

#[export] Instance extends_preorder : PreOrder extends.
Proof.
  split.
  - intros s. split; auto.
  - intros s1 s2 s3 [] []. split; auto; try lia; congruence.
Qed.

Lemma iter_add {A} (f : A -> A) (j k : nat) (x : A) :
  Nat.iter j f (Nat.iter k f x) = Nat.iter (j + k) f x.
Proof. induction j as [|j IH]; simpl; congruence. Qed.

#[export] Instance only_cleans_preorder `{Platform} : PreOrder only_cleans.
Proof.
  split.
  - intros s path data' _ Hd. exists data', 0%nat. auto.
  - intros s1 s2 s3 H12 H23 path data3 Ht H3.
    destruct (H23 _ _ Ht H3) as (data2 & k2 & H2 & ->).
    destruct (H12 _ _ Ht H2) as (data1 & k1 & H1 & ->).
    exists data1, (k2 + k1)%nat. split; [exact H1|]. apply iter_add.
Qed.

Section Follows.

Context (R : relation state) `{!PreOrder R}.

Lemma follows_ret {A} (a : A) : follows R (ret a).
Proof. intros st. reflexivity. Qed.

Lemma follows_raise {A} (e : exn) : follows R (@raise A e).
Proof. intros st. reflexivity. Qed.

Lemma follows_get : follows R get.
Proof. intros st. reflexivity. Qed.

Lemma follows_bind {A B} (m : M A) (k : A -> M B) :
  follows R m -> (forall a, follows R (k a)) -> follows R (bind m k).
Proof.
  intros Hm Hk st. unfold bind. specialize (Hm st).
  destruct (m st) as [[a|e] st1]; simpl in *; [|exact Hm].
  etransitivity; [exact Hm|apply Hk].
Qed.

Lemma follows_try_except {A} (m : M A) (h : exn -> option (M A)) :
  follows R m -> (forall e handler, h e = Some handler -> follows R handler) ->
  follows R (try_except m h).
Proof.
  intros Hm Hh st. unfold try_except. specialize (Hm st).
  destruct (m st) as [[a|e] st1]; simpl in *; [exact Hm|].
  destruct (h e) as [handler|] eqn:He; [|exact Hm].
  etransitivity; [exact Hm|exact (Hh _ _ He st1)].
Qed.

Lemma follows_for_fold {A B} (body : B -> A -> M B) (l : list A) :
  (forall b x, follows R (body b x)) -> forall b, follows R (for_fold body l b).
Proof.
  intros Hbody. induction l as [|x l IH]; intros b; simpl.
  - apply follows_ret.
  - apply follows_bind; [apply Hbody|exact IH].
Qed.

Lemma follows_for_each {A} (body : A -> M unit) (l : list A) :
  (forall x, follows R (body x)) -> follows R (for_each body l).
Proof. intros Hbody. apply follows_for_fold. intros _ x. apply Hbody. Qed.

Lemma follows_modify (f : state -> state) :
  (forall st, R st (f st)) -> follows R (modify f).
Proof. intros Hf st. apply Hf. Qed.

Lemma follows_when (b : bool) (m : M unit) : follows R m -> follows R (when b m).
Proof. intros Hm. destruct b; [exact Hm|apply follows_ret]. Qed.

End Follows.

(** an invariant of a loop that returns *)
Lemma for_fold_invariant {A B} (I : B -> state -> Prop) (body : B -> A -> M B)
    (l : list A) :
  (forall b x st b' st', x ∈ l -> I b st -> body b x st = (Return b', st') -> I b' st') ->
  forall b st b' st',
    I b st -> for_fold body l b st = (Return b', st') -> I b' st'.
Proof.
  induction l as [|x l IH]; intros Hbody b st b' st' HI Hrun; simpl in Hrun.
  - unfold ret in Hrun. congruence.
  - unfold bind in Hrun.
    destruct (body b x st) as [[b1|e] st1] eqn:Hb; [|discriminate].
    apply (IH (fun b0 x0 s0 b0' s0' Hx => Hbody b0 x0 s0 b0' s0' (list_elem_of_further _ _ _ Hx))
              b1 st1 b' st'); [|exact Hrun].
    apply (Hbody b x st b1 st1); [apply list_elem_of_here|exact HI|exact Hb].
Qed.

(** what a loop that returns did for each element: the body returned on it, in
    a state reached from the start, and the end was reached from there *)
Lemma for_fold_each (R : relation state) `{!PreOrder R} {A B}
    (body : B -> A -> M B) (l : list A) :
  (forall b x, follows R (body b x)) ->
  forall b st b' st',
    for_fold body l b st = (Return b', st') ->
    forall x, x ∈ l ->
      exists b1 s1 b2 s2,
        R st s1 /\ body b1 x s1 = (Return b2, s2) /\ R s2 st'.
Proof.
  intros Hbody. induction l as [|y l IH]; intros b st b' st' Hrun x Hx.
  - inversion Hx.
  - simpl in Hrun. unfold bind in Hrun.
    destruct (body b y st) as [[b1|e] s1] eqn:Hy; [|discriminate].
    assert (Hs1 : R st s1).
    { pose proof (Hbody b y st) as H. now rewrite Hy in H. }
    assert (Hs' : R s1 st').
    { pose proof (follows_for_fold R body l Hbody b1 s1) as H. now rewrite Hrun in H. }
    apply elem_of_cons in Hx. destruct Hx as [->|Hx].
    + exists b, st, b1, s1. split; [reflexivity|]. auto.
    + destruct (IH _ _ _ _ Hrun x Hx) as (b2 & s2 & b3 & s3 & H12 & Hb & H3).
      exists b2, s2, b3, s3. split; [etransitivity; eauto|]. auto.
Qed.

Lemma for_fold_app {A B} (body : B -> A -> M B) (l1 l2 : list A) (b : B) :
  forall st b1 st1,
    for_fold body l1 b st = (Return b1, st1) ->
    for_fold body (l1 ++ l2)%list b st = for_fold body l2 b1 st1.
Proof.
  revert b. induction l1 as [|x l1 IH]; intros b st b1 st1 Hrun; simpl in *.
  - unfold ret in Hrun. congruence.
  - unfold bind in *. destruct (body b x st) as [[b'|e] s']; [|discriminate].
    eapply IH, Hrun.
Qed.

(** unfolds the output functions and the operations of the monad *)
Ltac unfold_m :=
  unfold warn, debug, verbose, when, print, notice, fail;
  unfold modify, raise, bind, get, ret.

Ltac unfold_m_in H :=
  unfold warn, debug, verbose, when, print, notice, fail in H;
  unfold modify, raise, bind, get, ret in H.

(** *** Facts about the string operations *)

Lemma contains_char_count (c : ascii) (s : string) :
  PyStr.contains (String c EmptyString) s = negb (Nat.eqb (PyStr.count c s) 0).
Proof.
  induction s as [|a s IH]; [reflexivity|].
  cbn [PyStr.contains PyStr.count PyStr.prefix]. rewrite IH.
  rewrite (Ascii.eqb_sym c a).
  destruct (Ascii.eqb a c); reflexivity.
Qed.

Lemma split_length (c : ascii) (s : string) :
  List.length (PyStr.split c s) = S (PyStr.count c s).
Proof.
  induction s as [|a s IH]; simpl; [reflexivity|].
  destruct (Ascii.eqb a c); simpl; [now rewrite IH|].
  destruct (PyStr.split c s); simpl in *; [discriminate|exact IH].
Qed.

Lemma split_head (c : ascii) (s : string) :
  List.hd EmptyString (PyStr.split c s) = PyStr.before c s.
Proof.
  induction s as [|a s IH]; simpl; [reflexivity|].
  destruct (Ascii.eqb a c); simpl; [reflexivity|].
  pose proof (split_length c s) as L.
  destruct (PyStr.split c s); simpl in *; [discriminate|now rewrite IH].
Qed.

Lemma prefix_append_l (x a b : string) :
  PyStr.prefix x a = true -> PyStr.prefix x (a +:+ b) = true.
Proof.
  revert a. induction x as [|c x IH]; intros a H; [reflexivity|].
  destruct a as [|d a]; simpl in *; [discriminate|].
  apply andb_true_iff in H. destruct H as [H1 H2].
  rewrite H1, (IH _ H2). reflexivity.
Qed.

Lemma prefix_refl (x : string) : PyStr.prefix x x = true.
Proof.
  induction x as [|c x IH]; [reflexivity|].
  simpl. now rewrite Ascii.eqb_refl, IH.
Qed.

Lemma contains_append_l (x a b : string) :
  PyStr.contains x a = true -> PyStr.contains x (a +:+ b) = true.
Proof.
  induction a as [|d a IH]; intros H.
  - destruct x; [destruct b; reflexivity|discriminate].
  - cbn [PyStr.contains] in H. apply orb_true_iff in H. destruct H as [H|H].
    + change (String d a +:+ b) with (String d (a +:+ b)).
      cbn [PyStr.contains].
      change (String d (a +:+ b)) with (String d a +:+ b).
      rewrite (prefix_append_l _ _ _ H). reflexivity.
    + change (String d a +:+ b) with (String d (a +:+ b)).
      cbn [PyStr.contains]. rewrite (IH H). apply orb_true_r.
Qed.

Lemma contains_append_r (x a b : string) :
  PyStr.contains x b = true -> PyStr.contains x (a +:+ b) = true.
Proof.
  induction a as [|d a IH]; intros H; [exact H|].
  change (String d a +:+ b) with (String d (a +:+ b)).
  cbn [PyStr.contains]. rewrite (IH H). apply orb_true_r.
Qed.

Lemma contains_refl (x : string) : PyStr.contains x x = true.
Proof.
  destruct x as [|c x]; [reflexivity|].
  cbn [PyStr.contains]. now rewrite prefix_refl.
Qed.

Section Properties.

Context {args : Args} {platform : Platform} {others : Collaborators}.

(** *** parse_host *)

Lemma parse_host_eq (url : string) (st : state) :
  parse_host url st =
  (match urlparse url with
   | Invalid msg => Raise (ValueError msg)
   | Parsed _ netloc =>
       match PyStr.count colon netloc with
       | 0 => Return netloc
       | 1 => Return (PyStr.before colon netloc)
       | _ => Raise (ValueError "too many values to unpack (expected 2)")
       end
   end, st).
Proof.
  unfold parse_host, urlparse_parts.
  destruct (urlparse url) as [scheme netloc|msg]; [|reflexivity].
  rewrite (bind_return _ _ _ _ _ (eq_refl : ret (scheme, netloc) st = _)).
  cbn [snd].
  change ":" with (String colon EmptyString).
  rewrite contains_char_count.
  pose proof (split_length colon netloc) as L.
  pose proof (split_head colon netloc) as H.
  destruct (PyStr.count colon netloc) as [|[|n]]; simpl.
  - reflexivity.
  - destruct (PyStr.split colon netloc) as [|a [|b [|c l]]];
      simpl in *; try discriminate.
    subst a. reflexivity.
  - destruct (PyStr.split colon netloc) as [|a [|b [|c l]]];
      simpl in *; try discriminate.
    reflexivity.
Qed.

(** C10 (amended): for a URL that urlparse accepts, parse_host returns the
    whole network location when it has no colon, the part before the colon
    when it has exactly one, and raises ValueError (too many values to
    unpack) when it has two or more, for instance for an IPv6 literal with a
    port.  For a URL that urlparse refuses it raises the ValueError of
    urlparse, whatever the number of colons.  It never changes the state. *)
Theorem parse_host_by_colons (url : string) (st : state) :
  parse_host url st =
  (match urlparse url with
   | Invalid msg => Raise (ValueError msg)
   | Parsed _ netloc =>
       match PyStr.count colon netloc with
       | 0 => Return netloc
       | 1 => Return (PyStr.before colon netloc)
       | _ => Raise (ValueError "too many values to unpack (expected 2)")
       end
   end, st).
Proof. exact (parse_host_eq url st). Qed.

(** *** ok_to_write *)

Lemma ok_to_write_returns (path : string) (st : state) (b : bool) (st' : state) :
  ok_to_write path st = (Return b, st') -> b = true.
Proof.
  unfold ok_to_write, bind, get, ret.
  destruct (bool_decide (is_Some (fs st !! path)) && _ && negb (testing st));
    [|congruence].
  unfold verbose, debug, input, notice, when, print, modify, fail, raise, bind, ret, get.
  destruct (args_verbose || args_debug); simpl;
    destruct (stdin st) as [|line rest]; simpl; try discriminate;
    destruct args_debug; simpl;
    try case_bool_decide; simpl; congruence.
Qed.

(** C9: ok_to_write never returns False.  For a path that does not exist
    or is empty it returns True and neither prompts nor changes anything;
    when the user declines to replace an existing non-empty path it raises
    the failure exception. *)
Theorem ok_to_write_never_false (path : string) (st : state) :
  (forall st', ok_to_write path st <> (Return false, st')) /\
  (fs st !! path = None \/ fs st !! path = Some EmptyString ->
   ok_to_write path st = (Return true, st)) /\
  (forall data answer rest,
      fs st !! path = Some data -> data <> EmptyString ->
      testing st = false -> stdin st = answer :: rest ->
      PyStr.lower answer ∉ ["y"; "yes"] ->
      exists st',
        ok_to_write path st =
        (Raise (SafegetException ("Failed: did not replace " +:+ abspath path)), st')).
Proof.
  split; [|split].
  - intros st' H. apply ok_to_write_returns in H. discriminate.
  - intros [H|H]; unfold ok_to_write, bind, get, ret; rewrite H; reflexivity.
  - intros data answer rest Hdata Hne Htest Hin Hno.
    unfold ok_to_write, bind, get, ret. rewrite Hdata, Htest.
    rewrite bool_decide_eq_true_2 by eauto.
    destruct data as [|c data]; [congruence|]. simpl.
    unfold verbose, debug, input, notice, when, print, modify, fail, raise, bind, ret, get.
    destruct (args_verbose || args_debug); simpl; rewrite Hin; simpl;
      destruct args_debug; simpl;
      rewrite bool_decide_eq_false_2 by exact Hno; simpl; eauto.
Qed.

(** *** verify_args *)

(** C2: when --sig, --signedhash and --hash are all empty, verify_args
    fails with a configuration error and leaves the state as it was, so no
    request has been made; start_safeget, which calls it first, ends with
    an exception and has made no request either.  This holds whatever
    --size is, so a size given alone is rejected in the same way. *)
Theorem verify_args_needs_a_tier (st : state) :
  args_sig = [] -> args_signedhash = [] -> args_hash = [] ->
  verify_args st = (Raise (SafegetException no_tier_message), st) /\
  (exists e, fst (start_safeget st) = Raise e) /\
  requests (snd (start_safeget st)) = requests st /\
  fs (snd (start_safeget st)) = fs st.
Proof.
  intros Hsig Hsh Hh.
  assert (Hva : verify_args st = (Raise (SafegetException no_tier_message), st)).
  { unfold verify_args, bind. rewrite Hsig, Hsh, Hh. reflexivity. }
  split; [exact Hva|].
  unfold start_safeget, try_except.
  rewrite (bind_raise _ _ _ _ _ Hva).
  unfold no_tier_message.
  destruct args_debug; simpl; eauto.
Qed.

(** *** verify_source *)

(** C5: a URL whose scheme (as urlparse gives it) is not https, sftp or file
    fails validation, whatever --onehost is.  A URL with an approved scheme
    that is not the target and whose host is the trust anchor is accepted:
    without --onehost a warning is printed, with --onehost nothing is
    printed. *)
Theorem verify_source_scheme_and_host :
  (forall source scheme netloc st,
      is_url source = true -> urlparse source = Parsed scheme netloc ->
      scheme ∉ SAFE_PROTOCOLS ->
      verify_source source st =
      (Raise (SafegetException (unsafe_protocol_message source)), st)) /\
  (forall source scheme netloc host st,
      is_url source = true -> urlparse source = Parsed scheme netloc ->
      scheme ∈ SAFE_PROTOCOLS ->
      source <> args_target ->
      parse_host source st = (Return host, st) ->
      target_host st = Some host ->
      verify_source source st =
      (Return tt,
       if args_onehost then st
       else set_stdout (fun o => (o ++ same_host_warning source)%list) st)).
Proof.
  split.
  - intros source scheme netloc st Hurl Hparse Hscheme.
    unfold verify_source. rewrite Hurl.
    unfold bind at 1. unfold urlparse_parts. rewrite Hparse. unfold ret at 1.
    cbn [fst]. unfold bind at 1.
    rewrite bool_decide_eq_false_2 by exact Hscheme. reflexivity.
  - intros source scheme netloc host st Hurl Hparse Hscheme Hne Hhost Hanchor.
    unfold verify_source. rewrite Hurl.
    unfold bind at 1. unfold urlparse_parts at 1. rewrite Hparse. unfold ret at 1.
    cbn [fst]. unfold bind at 1. unfold bind at 1.
    rewrite bool_decide_eq_true_2 by exact Hscheme.
    unfold ret at 1. unfold bind at 1. rewrite Hhost.
    unfold bind at 1, get at 1. unfold bind at 1. rewrite Hanchor.
    unfold ret at 1.
    destruct args_onehost eqn:Hone; simpl; [reflexivity|].
    unfold bind at 1, get at 1. rewrite Hanchor.
    rewrite !bool_decide_eq_true_2 by (exact Hne || reflexivity). simpl.
    unfold same_host_warning, warn, when, print, modify, bind, ret.
    destruct args_debug; simpl; unfold set_stdout; simpl;
      rewrite <- ?app_assoc; reflexivity.
Qed.

(** *** download *)

Lemma download_url_fails (url localpath : string) (st : state) (r : string) :
  urlopen (requests st) url = TransportError r ->
  exists st',
    download_url url localpath st = (Return (false, Some r), st') /\
    requests st' = S (requests st) /\ fs st' = fs st.
Proof.
  intros H. unfold download_url. unfold_m. rewrite H.
  destruct args_debug; simpl; eauto.
Qed.

Lemma download_loop_all_fail (url localpath : string) (n : nat) :
  forall st reason attempts,
    (forall i, (i < n)%nat -> exists r, urlopen (requests st + i) url = TransportError r) ->
    exists st' reason',
      download_loop n url localpath false reason attempts st =
      (Return (false, reason', (attempts + n)%nat), st') /\
      requests st' = (requests st + n)%nat /\
      fs st' = fs st /\
      match n with
      | O => reason' = reason
      | S m => exists r, urlopen (requests st + m) url = TransportError r /\
                         reason' = Some r
      end.
Proof.
  induction n as [|n IH]; intros st reason attempts Hfail.
  - exists st, reason. simpl. unfold ret.
    rewrite !Nat.add_0_r. auto.
  - destruct (Hfail 0%nat ltac:(lia)) as [r0 Hr0].
    rewrite Nat.add_0_r in Hr0.
    destruct (download_url_fails url localpath st r0 Hr0) as (st1 & Hst1 & Hreq & Hfs).
    cbn [download_loop negb].
    rewrite (bind_return _ _ _ _ _ Hst1). cbn [fst snd].
    destruct (IH st1 (Some r0) (attempts + 1)%nat) as (st' & reason' & Hrun & Hreq' & Hfs' & Hlast).
    { intros i Hi. rewrite Hreq.
      destruct (Hfail (S i) ltac:(lia)) as [r Hr].
      exists r. rewrite <- Hr. f_equal. lia. }
    exists st', reason'. rewrite Hrun. split; [do 3 f_equal; lia|].
    split; [lia|]. split; [congruence|].
    destruct n as [|m].
    + subst reason'. exists r0. split; [|reflexivity].
      rewrite <- Hr0. f_equal. lia.
    + destruct Hlast as (r & Hr & ->). exists r. split; [|reflexivity].
      rewrite <- Hr. f_equal. lia.
Qed.

Lemma download_url_breaks (url localpath : string) (st : state) (msg : string)
    (written : option string) :
  urlopen (requests st) url = OtherError msg written ->
  exists st',
    download_url url localpath st = (Raise (OSError msg), st') /\
    requests st' = S (requests st) /\
    fs st' = match written with
             | Some data => <[localpath:=data]> (fs st)
             | None => fs st
             end.
Proof.
  intros H. unfold download_url, write_bytes. unfold_m. rewrite H.
  destruct written; simpl; eauto.
Qed.

Lemma download_loop_breaks (url localpath : string) (msg : string)
    (written : option string) (k : nat) :
  forall n st reason attempts,
    (k < n)%nat ->
    (forall i, (i < k)%nat -> exists r, urlopen (requests st + i) url = TransportError r) ->
    urlopen (requests st + k) url = OtherError msg written ->
    exists st',
      download_loop n url localpath false reason attempts st =
      (Raise (OSError msg), st') /\
      requests st' = (requests st + S k)%nat /\
      fs st' = match written with
               | Some data => <[localpath:=data]> (fs st)
               | None => fs st
               end.
Proof.
  induction k as [|k IH]; intros n st reason attempts Hk Hfail Hbreak;
    (destruct n as [|n]; [lia|]); cbn [download_loop negb].
  - rewrite Nat.add_0_r in Hbreak.
    destruct (download_url_breaks url localpath st msg written Hbreak)
      as (st' & Hrun & Hreq & Hfs).
    exists st'. rewrite (bind_raise _ _ _ _ _ Hrun).
    split; [reflexivity|]. split; [lia|exact Hfs].
  - destruct (Hfail 0%nat ltac:(lia)) as [r0 Hr0].
    rewrite Nat.add_0_r in Hr0.
    destruct (download_url_fails url localpath st r0 Hr0) as (st1 & Hst1 & Hreq & Hfs).
    rewrite (bind_return _ _ _ _ _ Hst1). cbn [fst snd].
    destruct (IH n st1 (Some r0) (attempts + 1)%nat) as (st' & Hrun & Hreq' & Hfs').
    + lia.
    + intros i Hi. rewrite Hreq.
      destruct (Hfail (S i) ltac:(lia)) as [r Hr].
      exists r. rewrite <- Hr. f_equal. lia.
    + rewrite Hreq. rewrite <- Hbreak. f_equal. lia.
    + exists st'. split; [exact Hrun|]. split; [lia|].
      rewrite Hfs'. rewrite Hfs. reflexivity.
Qed.

(** C6 (amended): when the destination may be written and the URL passes
    verify_source, then: if every attempt ends in an error that download_url
    traps (HTTPError or URLError), download makes exactly args.tries
    requests, writes no file and then fails; the message holds the URL, the
    last reason (with a leading errno tag rewritten) and the suggestion, and
    with --debug the last line printed is the number of attempts, which is
    not part of the message.  If an attempt ends in any other exception (a
    connection closed while the body is read, for instance) after k trapped
    failures, nothing traps it: download ends with that exception after k+1
    requests, whatever args.tries is, leaving what was written of the
    file. *)
Theorem download_exhausts_tries (url localpath : string) (st st_w st1 : state) :
  (1 <= args_tries)%Z ->
  (if args_overwrite_ok then ret true else ok_to_write localpath)
    (snd (verbose ("download " +:+ url +:+ " to " +:+ abspath localpath) st))
  = (Return true, st_w) ->
  verify_source url st_w = (Return tt, st1) ->
  ((forall i, (i < Z.to_nat args_tries)%nat ->
              exists r, urlopen (requests st1 + i) url = TransportError r) ->
   exists st' last msg,
     urlopen (requests st1 + Z.to_nat args_tries - 1) url = TransportError last /\
     msg = ("Unable to safely get " +:+ url +:+ ".") +:+ nl +:+ PyStr.tab +:+
           shown_reason last +:+ nl +:+ PyStr.tab +:+ suggestions /\
     download url localpath st = (Raise (SafegetException ("Failed: " +:+ msg)), st') /\
     requests st' = (requests st1 + Z.to_nat args_tries)%nat /\
     fs st' = fs st1 /\
     PyStr.contains url msg = true /\
     PyStr.contains (shown_reason last) msg = true /\
     PyStr.contains suggestions msg = true /\
     (args_debug = true ->
      exists o,
        stdout st' =
        (o ++ [("Attempted to download " +:+ PyStr.of_nat (Z.to_nat args_tries)
                +:+ " time(s)") +:+ nl])%list)) /\
  (forall k msg written,
      (k < Z.to_nat args_tries)%nat ->
      (forall i, (i < k)%nat ->
                 exists r, urlopen (requests st1 + i) url = TransportError r) ->
      urlopen (requests st1 + k) url = OtherError msg written ->
      exists st',
        download url localpath st = (Raise (OSError msg), st') /\
        requests st' = (requests st1 + S k)%nat /\
        fs st' = match written with
                 | Some data => <[localpath:=data]> (fs st1)
                 | None => fs st1
                 end).
Proof.
  intros Htries Hwrite Hsource.
  assert (Hv : forall m0 s, verbose m0 s = (Return tt, snd (verbose m0 s))).
  { intros. unfold_m. destruct (args_verbose || args_debug); reflexivity. }
  split.
  - intros Hfail.
    destruct (download_loop_all_fail url localpath (Z.to_nat args_tries) st1 None 0%nat Hfail)
      as (st2 & reason' & Hloop & Hreq & Hfs & Hlast).
    destruct (Z.to_nat args_tries) as [|m] eqn:Hm; [lia|].
    destruct Hlast as (last & Hlast & ->).
    set (msg := ("Unable to safely get " +:+ url +:+ ".") +:+ nl +:+ PyStr.tab +:+
                shown_reason last +:+ nl +:+ PyStr.tab +:+ suggestions).
    exists (snd (debug ("Attempted to download " +:+ PyStr.of_nat (0 + S m) +:+ " time(s)") st2)),
           last, msg.
    split; [rewrite <- Hlast; f_equal; lia|].
    split; [reflexivity|].
    split.
    { unfold download.
      rewrite (bind_return _ _ _ _ _ (Hv _ _)).
      rewrite (bind_return _ _ _ _ _ Hwrite).
      rewrite (bind_return _ _ _ _ _ Hsource).
      rewrite Hm.
      rewrite (bind_return _ _ _ _ _ Hloop).
      cbn [negb]. unfold get_details_for_failure, str_reason.
      fold (shown_reason last).
      unfold_m. destruct args_debug; reflexivity. }
    split.
    { unfold_m. destruct args_debug; simpl; lia. }
    split.
    { unfold_m. destruct args_debug; simpl; congruence. }
    subst msg. split; [|split; [|split]].
    + apply contains_append_l, contains_append_r, contains_append_l, contains_refl.
    + do 3 apply contains_append_r. apply contains_append_l, contains_refl.
    + do 6 apply contains_append_r. apply contains_refl.
    + intros Hdebug. unfold_m. rewrite Hdebug. cbn.
      exists (stdout st2). reflexivity.
  - intros k msg written Hk Hfail Hbreak.
    destruct (download_loop_breaks url localpath msg written k (Z.to_nat args_tries)
                st1 None 0%nat Hk Hfail Hbreak) as (st' & Hloop & Hreq & Hfs).
    exists st'. split; [|split; assumption].
    unfold download.
    rewrite (bind_return _ _ _ _ _ (Hv _ _)).
    rewrite (bind_return _ _ _ _ _ Hwrite).
    rewrite (bind_return _ _ _ _ _ Hsource).
    apply bind_raise. exact Hloop.
Qed.

(** *** What the functions of the pipeline leave alone *)

Lemma extends_set_stdout f st : extends st (set_stdout f st).
Proof. split; auto. Qed.

Lemma extends_set_stdin l st : extends st (set_stdin l st).
Proof. split; auto. Qed.

Lemma extends_set_fs f st : extends st (set_fs f st).
Proof. split; auto. Qed.

Lemma extends_set_rng n st : extends st (set_rng n st).
Proof. split; auto. Qed.

Lemma only_cleans_set_stdout f st : only_cleans st (set_stdout f st).
Proof. intros path data' _ H. exists data', 0%nat. auto. Qed.

Lemma only_cleans_same_fs st st' : fs st' = fs st -> only_cleans st st'.
Proof. intros E path data' _ H. rewrite E in H. exists data', 0%nat. auto. Qed.

Create HintDb follows.

Hint Resolve extends_set_stdout extends_set_stdin extends_set_fs extends_set_rng
  only_cleans_set_stdout : follows.

Ltac follows_step :=
  match goal with
  | |- follows _ (bind _ _) => apply follows_bind; [typeclasses eauto| |intros]
  | |- follows _ (ret _) => apply follows_ret; typeclasses eauto
  | |- follows _ (raise _) => apply follows_raise; typeclasses eauto
  | |- follows _ (fail _) => apply follows_raise; typeclasses eauto
  | |- follows _ get => apply follows_get; typeclasses eauto
  | |- follows _ (when _ _) => apply follows_when; [typeclasses eauto|]
  | |- follows _ (modify _) => apply follows_modify; intros; solve [eauto with follows]
  | |- follows _ (for_fold _ _ _) => apply follows_for_fold; [typeclasses eauto|intros]
  | |- follows _ (for_each _ _) => apply follows_for_each; [typeclasses eauto|intros]
  | |- follows _ (try_except _ _) =>
      apply follows_try_except;
      [typeclasses eauto| |
       let e := fresh "e" in let H := fresh "H" in
       intros e ? H; destruct e; simpl in H; try discriminate H;
       injection H as <-]
  | |- follows _ (if ?b then _ else _) => destruct b
  | |- follows _ (match ?x with _ => _ end) => destruct x
  | |- follows _ _ => solve [eauto with follows]
  end.

Ltac follows_tac := repeat follows_step.

Lemma print_extends msg : follows extends (print msg).
Proof. unfold print. follows_tac. Qed.

Lemma notice_extends msg : follows extends (notice msg).
Proof. unfold notice. follows_tac. Qed.

Lemma print_only_cleans msg : follows only_cleans (print msg).
Proof. unfold print. follows_tac. Qed.

Hint Resolve print_extends notice_extends print_only_cleans : follows.

Lemma verbose_extends msg : follows extends (verbose msg).
Proof. unfold verbose. follows_tac. Qed.

Lemma debug_extends msg : follows extends (debug msg).
Proof. unfold debug. follows_tac. Qed.

Lemma verbose_only_cleans msg : follows only_cleans (verbose msg).
Proof. unfold verbose. follows_tac. Qed.

Lemma debug_only_cleans msg : follows only_cleans (debug msg).
Proof. unfold debug. follows_tac. Qed.

Lemma warn_extends msg : follows extends (warn msg).
Proof. unfold warn. follows_tac. Qed.

Hint Resolve verbose_extends debug_extends verbose_only_cleans debug_only_cleans
  warn_extends : follows.

Lemma exists_extends path : follows extends (exists_ path).
Proof. unfold exists_. follows_tac. Qed.

Lemma getsize_follows R `{!PreOrder R} path : follows R (getsize path).
Proof. unfold getsize. follows_tac. Qed.

Lemma read_bytes_follows R `{!PreOrder R} path : follows R (read_bytes path).
Proof. unfold read_bytes. follows_tac. Qed.

Lemma readfile_follows R `{!PreOrder R} path : follows R (readfile path).
Proof.
  unfold readfile. apply follows_bind; [typeclasses eauto|apply read_bytes_follows; typeclasses eauto|].
  intros. follows_tac.
Qed.

Hint Extern 1 (PreOrder _) => typeclasses eauto : follows.
Hint Resolve getsize_follows read_bytes_follows readfile_follows : follows.

Lemma exists_only_cleans path : follows only_cleans (exists_ path).
Proof. unfold exists_. follows_tac. Qed.

Lemma write_text_extends path text : follows extends (write_text path text).
Proof. unfold write_text. follows_tac. Qed.

Lemma write_bytes_extends path data : follows extends (write_bytes path data).
Proof. unfold write_bytes. follows_tac. Qed.

Lemma remove_extends path : follows extends (remove path).
Proof. unfold remove. follows_tac. Qed.

Lemma remove_only_cleans path : follows only_cleans (remove path).
Proof.
  intros st. unfold remove. unfold_m.
  destruct (fs st !! path) eqn:E; simpl; [|reflexivity].
  intros q data' _ H. exists data', 0%nat. split; [|reflexivity].
  cbn [fs set_fs] in H.
  destruct (decide (path = q)) as [->|Hne].
  - rewrite lookup_delete_eq in H. discriminate.
  - rewrite lookup_delete_ne in H by exact Hne. exact H.
Qed.

Hint Resolve exists_extends exists_only_cleans write_text_extends write_bytes_extends
  remove_extends remove_only_cleans : follows.

Lemma random_choice_extends population : follows extends (random_choice population).
Proof. unfold random_choice. follows_tac. Qed.

Hint Resolve random_choice_extends : follows.

Lemma random_chars_extends n : forall acc, follows extends (random_chars n acc).
Proof. induction n as [|n IH]; intros acc; simpl; follows_tac. Qed.

Hint Resolve random_chars_extends : follows.

Lemma get_temp_filename_extends : follows extends get_temp_filename.
Proof. unfold get_temp_filename, get_random_string. follows_tac. Qed.

Lemma parse_host_follows R `{!PreOrder R} url : follows R (parse_host url).
Proof. intros st. rewrite parse_host_eq. reflexivity. Qed.

Lemma verify_source_extends source : follows extends (verify_source source).
Proof.
  intros st. unfold verify_source. unfold_m.
  destruct (is_url source).
  - unfold urlparse_parts.
    destruct (urlparse source) as [scheme netloc|msg] eqn:Hparse; [|reflexivity].
    unfold ret at 1. cbn [fst snd].
    destruct (bool_decide (scheme ∈ SAFE_PROTOCOLS)); simpl;
      [|reflexivity].
    rewrite parse_host_eq, Hparse.
    repeat (case_match; simpl in *; simplify_eq); try reflexivity;
      split; simpl; auto; congruence.
  - destruct (target_host st) eqn:E; simpl; [reflexivity|].
    split; simpl; auto; congruence.
Qed.

Lemma input_extends prompt : follows extends (input prompt).
Proof. unfold input. follows_tac. Qed.

Hint Resolve get_temp_filename_extends parse_host_follows verify_source_extends
  input_extends : follows.

Lemma ok_to_write_extends path : follows extends (ok_to_write path).
Proof. unfold ok_to_write. follows_tac. Qed.

Lemma download_url_extends url localpath : follows extends (download_url url localpath).
Proof.
  intros st. unfold download_url, write_bytes. unfold_m.
  destruct (urlopen (requests st) url) as [data|reason|msg [data|]];
    destruct args_debug; simpl; split; simpl; auto.
Qed.

Lemma get_details_for_failure_extends url attempts reason :
  follows extends (get_details_for_failure url attempts reason).
Proof. unfold get_details_for_failure. follows_tac. Qed.

Hint Resolve ok_to_write_extends download_url_extends
  get_details_for_failure_extends : follows.

Lemma download_loop_extends url localpath n :
  forall ok reason attempts,
    follows extends (download_loop n url localpath ok reason attempts).
Proof. induction n as [|n IH]; intros; simpl; follows_tac. Qed.

Hint Resolve download_loop_extends : follows.

Lemma download_extends url localpath : follows extends (download url localpath).
Proof.
  unfold download. follows_tac.
Qed.

Lemma run_spec argv stdin_data st :
  exists st',
    snd (run argv stdin_data st) = st' /\
    fs st' = files_after (Popen (spawned st) (get_run_args (fs st) argv) stdin_data (fs st))
                         (fs st) /\
    localpath_hash_cache st' = localpath_hash_cache st /\
    target_host st' = target_host st /\ requests st' = requests st /\
    gpg_path st' = gpg_path st /\ testing st' = testing st /\
    spawned st' = S (spawned st) /\
    forall out, fst (run argv stdin_data st) = Return out ->
      exists err files',
        Popen (spawned st) (get_run_args (fs st) argv) stdin_data (fs st)
        = Exited 0 out err files'.
Proof.
  eexists. split; [reflexivity|].
  unfold run. unfold_m.
  destruct args_debug; simpl;
    destruct (Popen _ _ _ _) as [|rc out0 err0 files0] eqn:EP; simpl;
    repeat (split; [reflexivity|]); try (intros; discriminate).
  - destruct (negb (String.eqb err0 EmptyString)); simpl;
      destruct (Z.eqb rc 0) eqn:Erc; simpl;
      repeat (split; [reflexivity|]);
      try (destruct (negb (String.eqb out0 EmptyString)); simpl;
           repeat (split; [reflexivity|]); intros; discriminate).
    all: intros out [= <-]; apply Z.eqb_eq in Erc; subst rc; eauto.
  - destruct (Z.eqb rc 0) eqn:Erc; simpl;
      repeat (split; [reflexivity|]).
    + intros out [= <-]; apply Z.eqb_eq in Erc; subst rc; eauto.
    + destruct (negb (String.eqb err0 EmptyString)); simpl;
      destruct (negb (String.eqb out0 EmptyString)); simpl;
      repeat (split; [reflexivity|]); intros; discriminate.
Qed.

Lemma run_extends argv stdin_data : follows extends (run argv stdin_data).
Proof.
  intros st. destruct (run_spec argv stdin_data st)
    as (st' & -> & Hfs & Hc & Hh & Hr & Hg & Ht & Hs & _).
  split; try congruence; lia.
Qed.

(** a subprocess that leaves [path] alone: run leaves it alone *)
Lemma run_keeps (kept : string -> Prop) argv stdin_data st path :
  subprocesses_keep kept -> kept path ->
  fs (snd (run argv stdin_data st)) !! path = fs st !! path.
Proof.
  intros Hkeep Hpath.
  destruct (run_spec argv stdin_data st) as (st' & -> & Hfs & _).
  rewrite Hfs.
  destruct (Popen (spawned st) (get_run_args (fs st) argv) stdin_data (fs st))
    as [|rc out err files'] eqn:EP; [reflexivity|].
  exact (Hkeep _ _ _ _ _ _ _ _ EP path Hpath).
Qed.

Lemma run_only_cleans argv stdin_data :
  subprocesses_keep (fun path => is_tmp path = true) ->
  follows only_cleans (run argv stdin_data).
Proof.
  intros Hkeep st path data' Htmp H.
  rewrite (run_keeps _ argv stdin_data st path Hkeep Htmp) in H.
  exists data', 0%nat. auto.
Qed.

Hint Resolve download_extends run_extends run_only_cleans : follows.

Lemma safeget_run_extends argv stdin_data : follows extends (safeget_run argv stdin_data).
Proof. unfold safeget_run. follows_tac. Qed.

Lemma safeget_run_only_cleans argv stdin_data :
  subprocesses_keep (fun path => is_tmp path = true) ->
  follows only_cleans (safeget_run argv stdin_data).
Proof. intros Hkeep. unfold safeget_run. follows_tac. Qed.

(** when safeget_run returns, the subprocess ran and exited with status 0 *)
Lemma safeget_run_returns argv stdin_data st st' :
  safeget_run argv stdin_data st = (Return tt, st') ->
  spawned st' = S (spawned st) /\
  exists out err files',
    Popen (spawned st) (get_run_args (fs st) argv) stdin_data (fs st)
    = Exited 0 out err files' /\
    fs st' = files'.
Proof.
  unfold safeget_run, try_except. unfold bind at 1.
  destruct (run_spec argv stdin_data st)
    as (st1 & Hst1 & Hfs & _ & _ & _ & _ & _ & Hs & Hret).
  destruct (run argv stdin_data st) as [[out|e] st2] eqn:Hrun; simpl in *; subst st2.
  - unfold ret. intros [= <-].
    destruct (Hret out eq_refl) as (err & files' & Herr).
    split; [exact Hs|]. exists out, err, files'. split; [exact Herr|].
    rewrite Hfs, Herr. reflexivity.
  - destruct e; try discriminate.
Qed.

Hint Resolve safeget_run_extends safeget_run_only_cleans : follows.

Lemma hash_algorithms_extends : follows extends hash_algorithms.
Proof. unfold hash_algorithms. follows_tac. Qed.

(** hash_data returns the cached digest, or computes it with hashlib from
    the bytes of the file and caches it; an entry of the cache is never
    replaced *)
Lemma hash_data_spec algo localpath st :
  let key := algo +:+ ":" +:+ localpath in
  fs (snd (hash_data algo localpath st)) = fs st /\
  extends st (snd (hash_data algo localpath st)) /\
  forall digest,
    fst (hash_data algo localpath st) = Return digest ->
    localpath_hash_cache (snd (hash_data algo localpath st)) !! key = Some digest /\
    (localpath_hash_cache st !! key = Some digest \/
     (localpath_hash_cache st !! key = None /\
      target_digest localpath st algo digest)).
Proof.
  intros key. unfold hash_data, read_bytes. unfold_m. fold key.
  destruct (localpath_hash_cache st !! key) as [d|] eqn:Ec; simpl.
  - split; [reflexivity|]. split; [reflexivity|].
    intros digest [= <-]. auto.
  - destruct (hashlib_new algo) as [h|] eqn:Eh; simpl.
    + destruct (fs st !! localpath) as [data|] eqn:Ef; simpl.
      * destruct (h data) as [hexdigest|] eqn:Ed; simpl.
        -- split; [reflexivity|]. split.
           { split; simpl; auto. intros k d Hk.
             destruct (decide (key = k)) as [<-|Hne]; [congruence|].
             rewrite lookup_insert_ne by exact Hne. exact Hk. }
           intros digest [= <-]. split; [apply lookup_insert_eq|].
           right. split; [reflexivity|].
           exists data. split; [exact Ef|]. exists h, hexdigest. auto.
        -- split; [reflexivity|]. split; [reflexivity|].
           intros; discriminate.
      * split; [reflexivity|]. split; [reflexivity|].
        intros; discriminate.
    + split; [reflexivity|]. split; [reflexivity|].
      intros; discriminate.
Qed.

(** hash_data changes the cache at its own key only, and only by adding the
    digest of the file *)
Lemma hash_data_cache algo localpath st k d :
  localpath_hash_cache (snd (hash_data algo localpath st)) !! k = Some d ->
  localpath_hash_cache st !! k = Some d \/
  (k = algo +:+ ":" +:+ localpath /\ target_digest localpath st algo d).
Proof.
  unfold hash_data, read_bytes. unfold_m.
  destruct (localpath_hash_cache st !! (algo +:+ ":" +:+ localpath)) as [d0|] eqn:Ec;
    simpl; [auto|].
  destruct (hashlib_new algo) as [h|] eqn:Eh; simpl; [|auto].
  destruct (fs st !! localpath) as [data|] eqn:Ef; simpl; [|auto].
  destruct (h data) as [hexdigest|] eqn:Ed; simpl; [|auto].
  destruct (decide (algo +:+ ":" +:+ localpath = k)) as [<-|Hne].
  - rewrite lookup_insert_eq. intros [= <-]. right. split; [reflexivity|].
    exists data. split; [exact Ef|]. exists h, hexdigest. auto.
  - rewrite lookup_insert_ne by exact Hne. auto.
Qed.

Lemma hash_data_extends algo localpath : follows extends (hash_data algo localpath).
Proof. intros st. apply hash_data_spec. Qed.

Lemma hash_data_only_cleans algo localpath :
  follows only_cleans (hash_data algo localpath).
Proof. intros st. apply only_cleans_same_fs, hash_data_spec. Qed.

Hint Resolve hash_algorithms_extends hash_data_extends hash_data_only_cleans : follows.

Lemma hash_failed_extends a b c : follows extends (hash_failed a b c).
Proof. unfold hash_failed. follows_tac. Qed.

Lemma hash_failed_only_cleans a b c : follows only_cleans (hash_failed a b c).
Proof. unfold hash_failed. follows_tac. Qed.

Hint Resolve hash_failed_extends hash_failed_only_cleans : follows.

Lemma search_for_hash_extends a b c d : follows extends (search_for_hash a b c d).
Proof. unfold search_for_hash. follows_tac. Qed.

Lemma search_for_hash_only_cleans a b c d :
  follows only_cleans (search_for_hash a b c d).
Proof. unfold search_for_hash. follows_tac. Qed.

Lemma compare_hashes_extends a b c : follows extends (compare_hashes a b c).
Proof. unfold compare_hashes. follows_tac. Qed.

Lemma parse_hash_pure text st :
  snd (parse_hash text st) = st /\
  forall st', fst (parse_hash text st') = fst (parse_hash text st).
Proof.
  unfold parse_hash. unfold_m.
  destruct (PyStr.partition ":" text) as [[algo sep] rest].
  destruct (_ || _ || _); simpl; auto.
Qed.

Lemma parse_hash_follows R `{!PreOrder R} text : follows R (parse_hash text).
Proof. intros st. rewrite (proj1 (parse_hash_pure text st)). reflexivity. Qed.

Hint Resolve search_for_hash_extends search_for_hash_only_cleans
  compare_hashes_extends parse_hash_follows : follows.

Lemma clean_gpg_data_extends path : follows extends (clean_gpg_data path).
Proof. unfold clean_gpg_data. follows_tac. Qed.

(** what clean_gpg_data does to the files when it returns *)
Lemma clean_gpg_data_returns path st ok st' :
  clean_gpg_data path st = (Return ok, st') ->
  exists data,
    fs st !! path = Some data /\
    if ok then fs st' = <[path := renormalized data]> (fs st)
    else fs st' = fs st.
Proof.
  unfold clean_gpg_data, getsize, readfile, read_bytes, write_text. unfold_m.
  unfold renormalized.
  destruct (fs st !! path) as [data|] eqn:Ef; simpl; [|discriminate].
  exists data. split; [reflexivity|].
  destruct (100 <? String.length data)%nat; simpl.
  - rewrite Ef in H. simpl in H.
    destruct (decode data) as [text|]; simpl in H; [|discriminate].
    destruct (PyStr.contains "\n" (normalize text)); simpl in H; [discriminate|].
    injection H as <- <-. reflexivity.
  - destruct args_debug; simpl in H; injection H as <- <-; reflexivity.
Qed.

Lemma clean_gpg_data_only_cleans path : follows only_cleans (clean_gpg_data path).
Proof.
  intros st.
  destruct (clean_gpg_data path st) as [[ok|e] st'] eqn:Hrun; simpl.
  - destruct (clean_gpg_data_returns _ _ _ _ Hrun) as (data & Hdata & Hfs).
    destruct ok; [|apply only_cleans_same_fs, Hfs].
    intros q data' _ Hq. rewrite Hfs in Hq.
    destruct (decide (path = q)) as [<-|Hne].
    + rewrite lookup_insert_eq in Hq. injection Hq as <-.
      exists data, 1%nat. auto.
    + rewrite lookup_insert_ne in Hq by exact Hne. exists data', 0%nat. auto.
  - apply only_cleans_same_fs. revert Hrun.
    unfold clean_gpg_data, getsize, readfile, read_bytes, write_text. unfold_m.
    destruct (fs st !! path) as [data|] eqn:Ef; simpl; [|congruence].
    destruct (100 <? String.length data)%nat; simpl.
    + rewrite Ef. simpl.
      destruct (decode data) as [text|]; simpl; [|congruence].
      destruct (PyStr.contains "\n" (normalize text)); simpl; congruence.
    + destruct args_debug; simpl; congruence.
Qed.

Hint Resolve clean_gpg_data_extends clean_gpg_data_only_cleans : follows.

(** *** Functions that only print *)

Lemma prints_ret : prints (ret tt).
Proof. intros st. exists (stdout st). destruct st; reflexivity. Qed.

Lemma prints_print msg : prints (print msg).
Proof. intros st. eexists. reflexivity. Qed.

Lemma prints_notice msg : prints (notice msg).
Proof. intros st. eexists. reflexivity. Qed.

Lemma prints_bind (m k : M unit) : prints m -> prints k -> prints (m ;; k).
Proof.
  intros Hm Hk st. destruct (Hm st) as [o1 H1].
  rewrite (bind_return _ _ _ _ _ H1).
  destruct (Hk (set_stdout (fun _ => o1) st)) as [o2 H2].
  exists o2. rewrite H2. reflexivity.
Qed.

Lemma prints_when b m : prints m -> prints (when b m).
Proof. intros Hm. destruct b; [exact Hm|apply prints_ret]. Qed.

Lemma prints_verbose msg : prints (verbose msg).
Proof. apply prints_when, prints_print. Qed.

Lemma prints_debug msg : prints (debug msg).
Proof. apply prints_when, prints_print. Qed.

Lemma prints_warn msg : prints (warn msg).
Proof. apply prints_bind; apply prints_print. Qed.

Lemma prints_hash_failed a b c : prints (hash_failed a b c).
Proof. repeat apply prints_bind; apply prints_debug. Qed.

Lemma read_bytes_eq path st :
  read_bytes path st =
  (match fs st !! path with
   | Some data => Return data
   | None => Raise (FileNotFoundError path)
   end, st).
Proof. unfold read_bytes. unfold_m. destruct (fs st !! path); reflexivity. Qed.

Lemma readfile_eq path st :
  readfile path st =
  (match fs st !! path with
   | Some data =>
       match decode data with
       | Some text => Return text
       | None => Raise UnicodeDecodeError
       end
   | None => Raise (FileNotFoundError path)
   end, st).
Proof.
  unfold readfile. unfold bind. rewrite read_bytes_eq.
  destruct (fs st !! path) as [data|]; [|reflexivity].
  destruct (decode data); reflexivity.
Qed.

(** *** Temporary files and extraction *)

Lemma append_length (a b : string) :
  String.length (a +:+ b) = (String.length a + String.length b)%nat.
Proof. induction a as [|c a IH]; simpl; [reflexivity|now rewrite IH]. Qed.

Lemma get_append_first (c : ascii) (a b : string) :
  String.get 0 (String c a +:+ b) = Some c.
Proof. reflexivity. Qed.

Lemma get_append_last (a : string) (c : ascii) :
  String.get (String.length a) (a +:+ String c EmptyString) = Some c.
Proof. induction a as [|d a IH]; simpl; [reflexivity|exact IH]. Qed.

Lemma append_empty_r (s : string) : s +:+ EmptyString = s.
Proof.
  induction s as [|c s IH]; [reflexivity|].
  change (String c (s +:+ EmptyString) = String c s). now rewrite IH.
Qed.

Lemma append_assoc (a b c : string) : (a +:+ b) +:+ c = a +:+ (b +:+ c).
Proof.
  induction a as [|d a IH]; [reflexivity|].
  change (String d ((a +:+ b) +:+ c) = String d (a +:+ (b +:+ c))). now rewrite IH.
Qed.

Lemma random_chars_run (n : nat) :
  forall acc st,
    exists w,
      random_chars n acc st = (Return (acc +:+ w), set_rng (rng st + n) st) /\
      String.length w = n.
Proof.
  induction n as [|n IH]; intros acc st.
  - exists EmptyString. simpl. unfold ret. split; [|reflexivity].
    rewrite append_empty_r, Nat.add_0_r. destruct st; reflexivity.
  - simpl. unfold random_choice. unfold_m.
    destruct (IH (acc +:+ String (choice (rng st) Random_Chars) EmptyString)
                 (set_rng (S (rng st)) st)) as (w & Hrun & Hlen).
    exists (String (choice (rng st) Random_Chars) w). split.
    + rewrite Hrun, append_assoc. f_equal.
      unfold set_rng. simpl. f_equal. lia.
    + simpl. now rewrite Hlen.
Qed.

Lemma get_random_string_run (digits : nat) (st : state) :
  exists s,
    get_random_string digits st
    = (Return s, set_rng (rng st + Nat.max 2 digits) st) /\
    String.length s = Nat.max 2 digits /\
    String.get 0 s = Some (choice (rng st) Random_Letters) /\
    String.get (Nat.max 2 digits - 1) s
    = Some (choice (rng st + Nat.max 2 digits - 1) Random_Letters).
Proof.
  unfold get_random_string, random_choice. unfold_m.
  destruct (random_chars_run (digits - 2)
              (String (choice (rng st) Random_Letters) EmptyString)
              (set_rng (S (rng st)) st)) as (w & Hrun & Hlen).
  rewrite Hrun. cbn [rng set_rng].
  assert (Hmax : Nat.max 2 digits = S (S (digits - 2))) by lia.
  eexists. split; [|split; [|split]].
  - f_equal. unfold set_rng. simpl. f_equal. lia.
  - rewrite append_length, append_length. simpl. lia.
  - reflexivity.
  - rewrite Hmax.
    replace (S (S (digits - 2)) - 1)%nat
      with (String.length (String (choice (rng st) Random_Letters) EmptyString +:+ w))
      by (rewrite append_length; simpl; lia).
    rewrite get_append_last. do 2 f_equal. lia.
Qed.

(** X9: get_random_string(digits) draws max(2, digits) characters: the string
    has that length (two characters even when one or none is asked for), its
    first and last characters are drawn from the letters, and nothing but the
    random source is touched. *)
Theorem get_random_string_shape (digits : nat) (st : state) :
  exists s,
    get_random_string digits st
    = (Return s, set_rng (rng st + Nat.max 2 digits) st) /\
    String.length s = Nat.max 2 digits /\
    String.get 0 s = Some (choice (rng st) Random_Letters) /\
    String.get (Nat.max 2 digits - 1) s
    = Some (choice (rng st + Nat.max 2 digits - 1) Random_Letters).
Proof. exact (get_random_string_run digits st). Qed.

Lemma get_temp_filename_run (st : state) :
  exists name,
    get_temp_filename st
    = (Return (TMP_DIR +:+ "/" +:+ name), set_rng (rng st + 8) st) /\
    String.length name = 8%nat.
Proof.
  unfold get_temp_filename.
  destruct (get_random_string_run 8 st) as (name & Hrun & Hlen & _).
  exists name. rewrite (bind_return _ _ _ _ _ Hrun). split; [reflexivity|exact Hlen].
Qed.

Lemma for_fold_length {A B} (body : list B -> A -> M (list B)) (l : list A) :
  (forall b x st b' st',
      body b x st = (Return b', st') -> List.length b' = S (List.length b)) ->
  forall b st b' st',
    for_fold body l b st = (Return b', st') ->
    List.length b' = (List.length b + List.length l)%nat.
Proof.
  intros Hbody. induction l as [|x l IH]; intros b st b' st' Hrun; simpl in Hrun.
  - unfold ret in Hrun. injection Hrun as <- _. simpl. lia.
  - unfold bind in Hrun.
    destruct (body b x st) as [[b1|e] s1] eqn:H1; [|discriminate].
    apply Hbody in H1. apply IH in Hrun. simpl. lia.
Qed.

Lemma extract_patterns_returns (pattern localpath : string) (st : state)
    (paths : list string) (st' : state) :
  extract_patterns pattern localpath st = (Return paths, st') ->
  exists data text,
    fs st !! localpath = Some data /\ decode data = Some text /\
    List.length paths = List.length (findall pattern text) /\
    extracted (findall pattern text) st paths st'.
Proof.
  unfold extract_patterns. unfold bind at 1. rewrite readfile_eq.
  destruct (fs st !! localpath) as [data|] eqn:Hdata; [|discriminate].
  destruct (decode data) as [text|] eqn:Hdec; [|discriminate].
  destruct (prints_debug ("extract " +:+ pattern +:+ " from " +:+ localpath) st) as [o Ho].
  rewrite (bind_return _ _ _ _ _ Ho).
  intros Hrun. exists data, text. split; [reflexivity|]. split; [exact Hdec|].
  destruct (findall pattern text) as [|m ms] eqn:Hm.
  - destruct (prints_debug ("pattern not found: " +:+ pattern)
                (set_stdout (fun _ => o) st)) as [o1 Ho1].
    rewrite (bind_return _ _ _ _ _ Ho1) in Hrun. unfold ret in Hrun.
    injection Hrun as <- <-. split; [reflexivity|]. split.
    + intros p Hp. inversion Hp.
    + intros q _. reflexivity.
  - rewrite <- Hm in *.
    destruct (prints_debug ("matches:" +:+ nl +:+ repr_list (findall pattern text))
                (set_stdout (fun _ => o) st)) as [o1 Ho1].
    rewrite (bind_return _ _ _ _ _ Ho1) in Hrun.
    set (body := fun (paths0 : list string) (text0 : string) =>
                   path <- get_temp_filename ;;
                   write_text path text0 ;; ret (paths0 ++ [path])%list) in Hrun.
    assert (Hstep : forall b x s b' s',
               body b x s = (Return b', s') ->
               exists name,
                 b' = (b ++ [TMP_DIR +:+ "/" +:+ name])%list /\
                 fs s' = <[TMP_DIR +:+ "/" +:+ name := encode x]> (fs s)).
    { intros b x s b' s'. unfold body.
      destruct (get_temp_filename_run s) as (name & Hn & _).
      rewrite (bind_return _ _ _ _ _ Hn). unfold write_text. unfold_m.
      intros [= <- <-]. exists name. split; reflexivity. }
    split.
    + apply (for_fold_length body (findall pattern text)) in Hrun; [exact Hrun|].
      intros b x s b' s' Hb. destruct (Hstep _ _ _ _ _ Hb) as (name & -> & _).
      rewrite length_app. simpl. lia.
    + apply (for_fold_invariant
               (fun b s => extracted (findall pattern text) st b s)
               body (findall pattern text)) with (b := []) (st := set_stdout (fun _ => o1)
                                                              (set_stdout (fun _ => o) st));
        [| |exact Hrun].
      * intros b x s b' s' Hx [Hin Hout] Hb.
        destruct (Hstep _ _ _ _ _ Hb) as (name & -> & Hfs). split.
        -- intros p Hp.
           destruct (decide (p = TMP_DIR +:+ "/" +:+ name)) as [->|Hne].
           ++ split; [unfold PyStr.startswith; rewrite <- append_assoc;
                      apply prefix_append_l, prefix_refl|].
              exists x. split; [exact Hx|]. rewrite Hfs. apply lookup_insert_eq.
           ++ apply elem_of_app in Hp. destruct Hp as [Hp|Hp].
              ** destruct (Hin p Hp) as [Hpre (t & Ht & Hf)].
                 split; [exact Hpre|]. exists t. split; [exact Ht|].
                 rewrite Hfs, lookup_insert_ne by congruence. exact Hf.
              ** apply list_elem_of_singleton in Hp. congruence.
        -- intros q Hq. rewrite Hfs.
           rewrite lookup_insert_ne.
           ++ apply Hout. intros Hb'. apply Hq, elem_of_app. left. exact Hb'.
           ++ intros Heq. subst q. apply Hq, elem_of_app. right.
              apply list_elem_of_singleton. reflexivity.
      * split; [intros p Hp; inversion Hp|intros q _; reflexivity].
Qed.

(** X10: what extract_patterns writes.  When it returns, it has returned one
    path for each match of the pattern in the text of the file; every path
    is in the temporary directory and holds one of the matches; and no other
    file has been touched.  With no match it returns no path and writes
    nothing. *)
Theorem extract_patterns_one_file_per_match (pattern localpath : string) (st : state)
    (paths : list string) (st' : state) :
  extract_patterns pattern localpath st = (Return paths, st') ->
  exists data text,
    fs st !! localpath = Some data /\ decode data = Some text /\
    List.length paths = List.length (findall pattern text) /\
    (forall p, p ∈ paths ->
               PyStr.startswith p (TMP_DIR +:+ "/") = true /\
               exists m, m ∈ findall pattern text /\ fs st' !! p = Some (encode m)) /\
    (forall q, q ∉ paths -> fs st' !! q = fs st !! q).
Proof.
  intros Hrun.
  destruct (extract_patterns_returns _ _ _ _ _ Hrun)
    as (data & text & Hd & Hdec & Hlen & Hin & Hout).
  exists data, text. auto.
Qed.

(** *** The signed-hash tier *)

Lemma search_for_hash_returns localpath file algo content st ok st' :
  search_for_hash localpath file algo content st = (Return ok, st') ->
  fs st' = fs st /\
  exists digest,
    localpath_hash_cache st' !! (algo +:+ ":" +:+ localpath) = Some digest /\
    ok = PyStr.contains digest content.
Proof.
  unfold search_for_hash.
  destruct (prints_debug ("search_for_hash " +:+ algo +:+ ":" +:+ file) st) as [o1 H1].
  rewrite (bind_return _ _ _ _ _ H1).
  pose proof (hash_data_spec algo localpath (set_stdout (fun _ => o1) st)) as (Hfs & _ & Hd).
  unfold bind at 1.
  destruct (hash_data algo localpath _) as [[digest|e] s2]; [|discriminate].
  simpl in Hfs, Hd. destruct (Hd digest eq_refl) as [Hcache _].
  assert (Hp : prints (if PyStr.contains digest content
                       then debug ("verfied " +:+ algo +:+ " hash from url")
                       else hash_failed algo ("not found in " +:+ file) digest)).
  { destruct (PyStr.contains digest content);
      [apply prints_debug|apply prints_hash_failed]. }
  destruct (Hp s2) as [o2 H2].
  rewrite (bind_return _ _ _ _ _ H2). unfold ret. intros [= <- <-].
  split; [simpl; congruence|].
  exists digest. split; [exact Hcache|reflexivity].
Qed.

Lemma check_signed_hash_file_extends a b c :
  follows extends (check_signed_hash_file a b c).
Proof. unfold check_signed_hash_file. follows_tac. Qed.

Lemma check_signed_hash_file_only_cleans a b c :
  follows only_cleans (check_signed_hash_file a b c).
Proof. unfold check_signed_hash_file. follows_tac. Qed.

(** when check_signed_hash_file returns True, the digest of the target is a
    substring of the text of the file, as renormalized by this call *)
Lemma check_signed_hash_file_matched localpath file algo st st' :
  check_signed_hash_file localpath file algo st = (Return true, st') ->
  exists data text digest,
    fs st !! file = Some data /\
    decode (renormalized data) = Some text /\
    localpath_hash_cache st' !! (algo +:+ ":" +:+ localpath) = Some digest /\
    PyStr.contains digest text = true.
Proof.
  unfold check_signed_hash_file. unfold bind at 1.
  destruct (clean_gpg_data file st) as [[ok|e] s1] eqn:Hclean; [|discriminate].
  destruct (clean_gpg_data_returns _ _ _ _ Hclean) as (data & Hdata & Hfs).
  destruct ok; [|discriminate].
  unfold bind at 1. rewrite readfile_eq, Hfs, lookup_insert_eq.
  destruct (decode (renormalized data)) as [text|] eqn:Hdec; [|discriminate].
  unfold try_except.
  destruct (search_for_hash localpath file algo text s1) as [[ok|e] s2] eqn:Hsearch.
  - intros [= -> <-].
    destruct (search_for_hash_returns _ _ _ _ _ _ _ Hsearch) as (_ & digest & Hc & Hok).
    exists data, text, digest. auto.
  - destruct e; unfold_m; destruct args_debug; simpl; discriminate.
Qed.

Lemma accepted_wider lo hi lo' hi' gpg msg :
  (lo' <= lo)%nat -> (hi <= hi')%nat ->
  accepted lo hi gpg msg -> accepted lo' hi' gpg msg.
Proof.
  intros Hlo Hhi (n & files & out & err & files' & Hn & Hp).
  exists n, files, out, err, files'. split; [lia|exact Hp].
Qed.

Lemma verified_file_later s0 s s' path :
  extends s s' -> only_cleans s s' ->
  verified_file s0 s path -> verified_file s0 s' path.
Proof.
  intros He Hc (Htmp & msg & Hacc & Hv).
  split; [exact Htmp|]. exists msg. split.
  - eapply accepted_wider; [| |exact Hacc]; [lia|apply He].
  - intros data' Hd.
    destruct (Hc _ _ Htmp Hd) as (data & k' & Hdata & ->).
    destruct (Hv _ Hdata) as (k & ->).
    exists (k' + k)%nat. apply iter_add.
Qed.

Lemma digest_found_later localpath algo s0 s s' :
  extends s s' -> digest_found localpath algo s0 s -> digest_found localpath algo s0 s'.
Proof.
  intros He (msg & k & text & digest & Hacc & Hdec & Hc & Hin).
  exists msg, k, text, digest. split; [|split; [exact Hdec|split; [|exact Hin]]].
  - eapply accepted_wider; [| |exact Hacc]; [lia|apply He].
  - apply He, Hc.
Qed.

Lemma digest_found_earlier localpath algo s0 s1 s :
  extends s0 s1 -> digest_found localpath algo s1 s -> digest_found localpath algo s0 s.
Proof.
  intros He (msg & k & text & digest & Hacc & Hdec & Hc & Hin).
  exists msg, k, text, digest. split; [|auto].
  rewrite <- (ext_gpg_path _ _ He).
  eapply accepted_wider; [| |exact Hacc]; [apply He|lia].
Qed.

Lemma extract_patterns_extends pattern localpath :
  follows extends (extract_patterns pattern localpath).
Proof. unfold extract_patterns. follows_tac. Qed.

Hint Resolve extract_patterns_extends : follows.

Lemma save_patterns_source_extends pattern acc source :
  follows extends (save_patterns_source pattern acc source).
Proof. unfold save_patterns_source. follows_tac. Qed.

Hint Resolve save_patterns_source_extends : follows.

Lemma save_patterns_extends pattern sources :
  follows extends (save_patterns pattern sources).
Proof. unfold save_patterns. follows_tac. Qed.

Lemma remove_online_extends online : follows extends (remove_online online).
Proof. unfold remove_online. follows_tac. Qed.

Lemma remove_online_only_cleans online : follows only_cleans (remove_online online).
Proof. unfold remove_online. follows_tac. Qed.

Hint Resolve save_patterns_extends remove_online_extends remove_online_only_cleans
  : follows.

Lemma verify_signed_message_path_extends verified path :
  follows extends (verify_signed_message_path verified path).
Proof. unfold verify_signed_message_path. follows_tac. Qed.

Hint Resolve verify_signed_message_path_extends : follows.

Lemma verify_signed_messages_extends source :
  follows extends (verify_signed_messages source).
Proof. unfold verify_signed_messages. follows_tac. Qed.

Hint Resolve verify_signed_messages_extends check_signed_hash_file_extends : follows.

Lemma match_signed_hash_file_extends localpath algo matched file :
  follows extends (match_signed_hash_file localpath algo matched file).
Proof. unfold match_signed_hash_file. follows_tac. Qed.

Hint Resolve match_signed_hash_file_extends : follows.

Lemma verify_signed_hash_arg_extends localpath algos matched entry :
  follows extends (verify_signed_hash_arg localpath algos matched entry).
Proof. unfold verify_signed_hash_arg. follows_tac. Qed.

Hint Resolve verify_signed_hash_arg_extends : follows.

(** *** The explicit-hash tier *)

Lemma download_loop_returns url localpath n :
  forall ok0 reason attempts st reason' attempts' st',
    download_loop n url localpath ok0 reason attempts st
    = (Return (true, reason', attempts'), st') ->
    ok0 = true \/
    exists i data,
      (requests st <= i < requests st')%nat /\
      urlopen i url = Body data /\ fs st' !! localpath = Some data.
Proof.
  induction n as [|n IH]; intros ok0 reason attempts st reason' attempts' st' Hrun.
  - simpl in Hrun. unfold ret in Hrun. left. congruence.
  - simpl in Hrun. destruct ok0; [left; reflexivity|]. right.
    simpl in Hrun.
    destruct (urlopen (requests st) url) as [data|r|msg written] eqn:Hopen.
    3:{ exfalso. revert Hrun. unfold download_url, write_bytes. unfold_m.
        rewrite Hopen. destruct written; discriminate. }
    + assert (Hurl : download_url url localpath st =
                     (Return (true, None),
                      set_fs (insert localpath data) (set_requests (S (requests st)) st))).
      { unfold download_url, write_bytes. unfold_m. now rewrite Hopen. }
      rewrite (bind_return _ _ _ _ _ Hurl) in Hrun. cbn [fst snd] in Hrun.
      destruct n; simpl in Hrun; unfold ret in Hrun; inversion Hrun; subst;
        exists (requests st), data; simpl;
        (split; [lia|]); (split; [exact Hopen|apply lookup_insert_eq]).
    + destruct (download_url_fails url localpath st r Hopen) as (s1 & Hurl & Hreq & _).
      rewrite (bind_return _ _ _ _ _ Hurl) in Hrun. cbn [fst snd] in Hrun.
      destruct (IH _ _ _ _ _ _ _ Hrun) as [H|(i & data & Hi & Hopen' & Hfs)];
        [discriminate|].
      exists i, data. split; [lia|auto].
Qed.

(** when download returns, one of its requests got the body that is now in
    the file *)
Lemma download_returns url localpath st st' :
  download url localpath st = (Return tt, st') ->
  exists i data,
    (requests st <= i < requests st')%nat /\
    urlopen i url = Body data /\ fs st' !! localpath = Some data.
Proof.
  unfold download.
  destruct (prints_verbose ("download " +:+ url +:+ " to " +:+ abspath localpath) st)
    as [o Ho].
  rewrite (bind_return _ _ _ _ _ Ho).
  set (s1 := set_stdout (fun _ => o) st).
  unfold bind at 1.
  destruct ((if args_overwrite_ok then ret true else ok_to_write localpath) s1)
    as [[writable|e] s2] eqn:Hw; [|discriminate].
  assert (writable = true /\ extends s1 s2) as [-> H12].
  { destruct args_overwrite_ok.
    - unfold ret in Hw. injection Hw as <- <-. split; reflexivity.
    - split; [eapply ok_to_write_returns; eauto|].
      pose proof (ok_to_write_extends localpath s1) as H. now rewrite Hw in H. }
  unfold bind at 1.
  destruct (verify_source url s2) as [[[]|e] s3] eqn:Hsrc; [|discriminate].
  assert (H23 : extends s2 s3).
  { pose proof (verify_source_extends url s2) as H. now rewrite Hsrc in H. }
  unfold bind at 1.
  destruct (download_loop (Z.to_nat args_tries) url localpath false None 0 s3)
    as [[[[ok reason] attempts]|e] s4] eqn:Hloop; [|discriminate].
  destruct ok; simpl.
  - unfold ret. intros [= <-].
    destruct (download_loop_returns _ _ _ _ _ _ _ _ _ _ Hloop)
      as [H|(i & data & Hi & Hopen & Hfs)]; [discriminate|].
    exists i, data. split; [|auto].
    pose proof (ext_requests _ _ H12). pose proof (ext_requests _ _ H23).
    subst s1. simpl in *. lia.
  - unfold bind at 1.
    destruct (get_details_for_failure url attempts reason s4) as [[d|e] s5];
      discriminate.
Qed.

Lemma parse_hash_returns text st algo value st' :
  parse_hash text st = (Return (algo, value), st') ->
  algo <> EmptyString /\
  forall s, parse_hash text s = (Return (algo, value), s).
Proof.
  intros Hparse. split.
  - revert Hparse. unfold parse_hash. unfold_m.
    destruct (PyStr.partition ":" text) as [[algo0 sep] rest].
    destruct (String.eqb (PyStr.lower algo0) EmptyString) eqn:Ealgo; simpl;
      [discriminate|].
    destruct (_ || _); simpl; [discriminate|].
    intros [= <- _ _]. intros E. rewrite E in Ealgo. discriminate.
  - intros s. destruct (parse_hash_pure text s) as [H1 H2].
    specialize (H2 st). rewrite Hparse in H2. simpl in H2.
    destruct (parse_hash text s). simpl in *. congruence.
Qed.

Lemma explicit_hash_matched_wider localpath s0 s1 s2 s3 entry :
  extends s0 s1 -> extends s2 s3 ->
  explicit_hash_matched localpath s1 s2 entry ->
  explicit_hash_matched localpath s0 s3 entry.
Proof.
  intros H01 H23 (algo & value & digest & Hparse & Hcache & Hmatch).
  exists algo, value, digest. split; [exact Hparse|].
  split; [apply H23, Hcache|].
  destruct (is_url value); [|exact Hmatch].
  destruct Hmatch as (i & data & text & Hi & Hrest).
  exists i, data, text. split; [|exact Hrest].
  pose proof (ext_requests _ _ H01). pose proof (ext_requests _ _ H23). lia.
Qed.

Lemma compare_hashes_eq algo expected actual st :
  exists o,
    compare_hashes algo expected actual st =
    (Return (String.eqb expected actual), set_stdout (fun _ => o) st).
Proof.
  unfold compare_hashes.
  destruct (prints_debug ("compare_hashes " +:+ algo +:+ ":" +:+ expected) st) as [o1 H1].
  rewrite (bind_return _ _ _ _ _ H1).
  assert (Hp : prints (if String.eqb expected actual
                       then debug ("verfied explicit " +:+ algo +:+ " hash")
                       else hash_failed algo expected actual)).
  { destruct (String.eqb expected actual); [apply prints_debug|apply prints_hash_failed]. }
  destruct (Hp (set_stdout (fun _ => o1) st)) as [o2 H2].
  rewrite (bind_return _ _ _ _ _ H2). exists o2. reflexivity.
Qed.

Lemma verify_explicit_hash_arg_returns localpath algos actual_hash entry s actual_hash' s' :
  verify_explicit_hash_arg localpath algos actual_hash entry s
  = (Return actual_hash', s') ->
  explicit_hash_matched localpath s s' entry.
Proof.
  unfold verify_explicit_hash_arg. unfold bind at 1.
  destruct (parse_hash_pure entry s) as [Hsnd _].
  destruct (parse_hash entry s) as [[[algo value]|e] s0] eqn:Hparse; [|discriminate].
  simpl in Hsnd. subst s0.
  destruct (parse_hash_returns _ _ _ _ _ Hparse) as [Halgo Hpure].
  unfold bind at 1.
  destruct (negb (bool_decide (algo ∈ algos))); [discriminate|].
  unfold ret at 1. unfold bind at 1.
  destruct (is_url value) eqn:Hurl.
  - unfold bind at 1.
    destruct (verify_source value s) as [[[]|e] s1] eqn:Hsrc; [|discriminate].
    assert (H01 : extends s s1).
    { pose proof (verify_source_extends value s) as H. now rewrite Hsrc in H. }
    unfold bind at 1.
    destruct (get_temp_filename s1) as [[hashpath|e] s2] eqn:Htmp; [|discriminate].
    assert (H12 : extends s1 s2).
    { pose proof (get_temp_filename_extends s1) as H. now rewrite Htmp in H. }
    unfold bind at 1.
    destruct (download value hashpath s2) as [[[]|e] s3] eqn:Hdl; [|discriminate].
    destruct (download_returns _ _ _ _ Hdl) as (i & data & Hi & Hopen & Hfs).
    destruct (prints_debug ("hash url " +:+ value +:+ " saved in " +:+ hashpath) s3)
      as [o Ho].
    rewrite (bind_return _ _ _ _ _ Ho).
    unfold bind at 1. rewrite readfile_eq. cbn [fs set_stdout]. rewrite Hfs.
    destruct (decode data) as [text|] eqn:Hdec; [|discriminate].
    unfold bind at 1.
    destruct (search_for_hash localpath hashpath algo text (set_stdout (fun _ => o) s3))
      as [[matched|e] s4] eqn:Hsearch; [|discriminate].
    destruct (search_for_hash_returns _ _ _ _ _ _ _ Hsearch) as (_ & digest & Hc & Hm).
    assert (H34 : extends (set_stdout (fun _ => o) s3) s4).
    { pose proof (search_for_hash_extends localpath hashpath algo text
                    (set_stdout (fun _ => o) s3)) as H.
      now rewrite Hsearch in H. }
    unfold ret at 1. cbn iota beta.
    destruct matched; simpl.
    + unfold bind, ret. intros [= <- <-].
      exists algo, value, digest. split; [exact Hpure|]. split; [exact Hc|].
      rewrite Hurl. exists i, data, text. split; [|auto].
      pose proof (ext_requests _ _ H01). pose proof (ext_requests _ _ H12).
      pose proof (ext_requests _ _ H34). simpl in *. lia.
    + unfold bind at 1. destruct actual_hash; discriminate.
  - destruct (prints_debug ("command line arg algo: " +:+ algo +:+ ", expected_hash: "
                            +:+ value) s) as [o Ho].
    rewrite (bind_return _ _ _ _ _ Ho).
    destruct (String.eqb algo EmptyString) eqn:Ealgo;
      [apply String.eqb_eq in Ealgo; congruence|].
    destruct (String.eqb value EmptyString) eqn:Evalue; simpl.
    { unfold ret at 1. cbn iota beta. unfold bind at 1.
      destruct actual_hash; discriminate. }
    unfold bind at 1.
    pose proof (hash_data_spec algo localpath (set_stdout (fun _ => o) s)) as (_ & _ & Hd).
    destruct (hash_data algo localpath (set_stdout (fun _ => o) s))
      as [[actual|e] s2] eqn:Hhash; [|discriminate].
    simpl in Hd. destruct (Hd actual eq_refl) as [Hcache _].
    destruct (compare_hashes_eq algo value actual s2) as [o2 Ho2].
    rewrite (bind_return _ _ _ _ _ Ho2).
    unfold ret at 1. cbn iota beta.
    destruct (String.eqb value actual) eqn:Eva; simpl.
    + unfold bind, ret. intros [= <- <-].
      apply String.eqb_eq in Eva. subst actual.
      exists algo, value, value. split; [exact Hpure|]. split; [exact Hcache|].
      now rewrite Hurl.
    + unfold bind at 1. discriminate.
Qed.

Lemma verify_explicit_hash_arg_extends localpath algos actual_hash entry :
  follows extends (verify_explicit_hash_arg localpath algos actual_hash entry).
Proof. unfold verify_explicit_hash_arg. follows_tac. Qed.

(** *** The signature tier *)

Lemma safeget_run_raises argv stdin_data st e st' :
  safeget_run argv stdin_data st = (Raise e, st') ->
  (exists msg, e = SafegetException msg) \/
  (exists returncode command, e = CalledProcessError returncode command).
Proof.
  unfold safeget_run, try_except, run. unfold_m.
  destruct args_debug; simpl;
    (destruct (Popen (spawned st) (get_run_args (fs st) argv) stdin_data (fs st))
      as [|rc out err]; simpl;
     [intros [= <- _]; eauto|]);
    repeat (match goal with
            | |- context [if ?b then _ else _] => destruct b; simpl
            end);
    try discriminate; intros [= <- _]; eauto.
Qed.

(** whatever gpg says about a signature, the loop of verify_signatures goes
    on: the verdict is printed (with --verbose or --debug) and dropped *)
Lemma verify_signature_path_drops_verdict local_target sigpath st ok s1 :
  clean_gpg_data sigpath st = (Return ok, s1) ->
  exists st', verify_signature_path local_target sigpath st = (Return tt, st').
Proof.
  intros Hclean. unfold verify_signature_path.
  rewrite (bind_return _ _ _ _ _ Hclean).
  destruct ok; [|eexists; reflexivity].
  unfold bind at 1, get, try_except. unfold bind at 1.
  destruct (safeget_run [gpg_path s1; "--verify"; sigpath; local_target] None s1)
    as [[[]|e] s2] eqn:Hgpg.
  - destruct (prints_verbose ("verified pgp detached signature: " +:+ repr_list args_sig) s2)
      as [o Ho].
    rewrite Ho. eauto.
  - destruct (safeget_run_raises _ _ _ _ _ Hgpg) as [[msg ->]|(rc & cmd & ->)];
      match goal with
      | |- context [bind (debug ?m1) (fun _ => debug ?m2)] =>
          destruct (prints_bind _ _ (prints_debug m1) (prints_debug m2) s2) as [o Ho];
          rewrite Ho; eauto
      end.
Qed.

(** *** The whole of verify_file *)

Lemma import_pubkey_extends keypath : follows extends (import_pubkey keypath).
Proof. unfold import_pubkey. follows_tac. Qed.

Lemma verify_signature_path_extends local_target sigpath :
  follows extends (verify_signature_path local_target sigpath).
Proof. unfold verify_signature_path. follows_tac. Qed.

Hint Resolve import_pubkey_extends verify_signature_path_extends : follows.

Lemma get_pubkeys_extends : follows extends get_pubkeys.
Proof. unfold get_pubkeys. follows_tac. Qed.

Lemma verify_signatures_extends local_target :
  follows extends (verify_signatures local_target).
Proof. unfold verify_signatures. follows_tac. Qed.

Lemma verify_signed_hashes_extends localpath :
  follows extends (verify_signed_hashes localpath).
Proof. unfold verify_signed_hashes. follows_tac. Qed.

Hint Resolve verify_explicit_hash_arg_extends : follows.

Lemma verify_explicit_hashes_extends localpath :
  follows extends (verify_explicit_hashes localpath).
Proof. unfold verify_explicit_hashes. follows_tac. Qed.

Lemma verify_size_extends localpath : follows extends (verify_size localpath).
Proof. unfold verify_size. follows_tac. Qed.

Hint Resolve get_pubkeys_extends verify_signatures_extends verify_signed_hashes_extends
  verify_explicit_hashes_extends verify_size_extends : follows.

(** verify_file as a whole keeps the trust anchor and the entries of the hash
    cache, and only adds requests and subprocesses *)
Lemma verify_file_extends local_target : follows extends (verify_file local_target).
Proof. unfold verify_file. follows_tac. Qed.

(** *** ValueError from parse_host is not caught *)

Lemma verify_source_value_error (url scheme netloc : string) (st : state) :
  is_url url = true -> urlparse url = Parsed scheme netloc ->
  scheme ∈ SAFE_PROTOCOLS ->
  (2 <= PyStr.count colon netloc)%nat ->
  verify_source url st
  = (Raise (ValueError "too many values to unpack (expected 2)"), st).
Proof.
  intros Hurl Hparse Hscheme Hcount. unfold verify_source. rewrite Hurl.
  unfold bind at 1. unfold urlparse_parts at 1. rewrite Hparse. unfold ret at 1.
  cbn [fst]. unfold bind at 1. unfold bind at 1.
  rewrite (bool_decide_eq_true_2 _ Hscheme). unfold ret at 1.
  unfold bind at 1. rewrite parse_host_eq, Hparse.
  destruct (PyStr.count colon netloc) as [|[|n]]; [lia|lia|reflexivity].
Qed.

(** a URL that urlparse refuses: verify_source ends with its ValueError *)
Lemma verify_source_invalid_url (url msg : string) (st : state) :
  is_url url = true -> urlparse url = Invalid msg ->
  verify_source url st = (Raise (ValueError msg), st).
Proof.
  intros Hurl Hparse. unfold verify_source. rewrite Hurl.
  unfold bind at 1. unfold urlparse_parts at 1. rewrite Hparse. reflexivity.
Qed.

Lemma start_safeget_passes_value_error (st st' : state) (msg : string) :
  verify_args st = (Raise (ValueError msg), st') ->
  start_safeget st = (Raise (ValueError msg), st').
Proof.
  intros H. unfold start_safeget, try_except.
  now rewrite (bind_raise _ _ _ _ _ H).
Qed.

(** *** The trust anchor *)

(** C4 (amended): once target_host is set, verify_source never assigns it
    again, and neither does anything else in download or verify_file.  When
    it is not yet set and verify_source returns, it has been
    set from the target: to the host of the target when the source is a
    URL, which then is the target itself, and to the target string when the
    source is a local path.  A URL that is not the target and is validated
    while target_host is not yet set ends with an exception and leaves
    target_host unset. *)
Theorem target_host_set_once :
  (forall source st h,
      target_host st = Some h ->
      target_host (snd (verify_source source st)) = Some h) /\
  (forall source st,
      target_host st = None ->
      fst (verify_source source st) = Return tt ->
      exists anchor,
        target_host (snd (verify_source source st)) = Some anchor /\
        ((is_url source = true /\ source = args_target /\
          parse_host args_target st = (Return anchor, st)) \/
         (is_url source = false /\ anchor = args_target))) /\
  (forall source st,
      target_host st = None -> is_url source = true -> source <> args_target ->
      exists e, verify_source source st = (Raise e, st)) /\
  (forall url localpath local_target st h,
      target_host st = Some h ->
      target_host (snd (download url localpath st)) = Some h /\
      target_host (snd (verify_file local_target st)) = Some h).
Proof.
  split; [|split; [|split]].
  - intros source st h Hset.
    unfold verify_source; unfold_m.
    destruct (is_url source); [|rewrite Hset; exact Hset].
    unfold urlparse_parts.
    destruct (urlparse source) as [scheme netloc|msg] eqn:Hparse; [|exact Hset].
    unfold ret at 1. cbn [fst snd].
    destruct (bool_decide (scheme ∈ SAFE_PROTOCOLS)); simpl;
      [|exact Hset].
    rewrite parse_host_eq, Hparse.
    repeat (case_match; simpl in *; simplify_eq; try rewrite Hset in *; try assumption);
      try reflexivity.
  - intros source st Hunset Hok.
    destruct (is_url source) eqn:Hurl.
    + revert Hok.
      unfold verify_source; unfold_m.
      rewrite Hurl.
      unfold urlparse_parts.
      destruct (urlparse source) as [scheme netloc|msg] eqn:Hparse; [|discriminate].
      unfold ret, raise. cbn [fst snd].
      destruct (bool_decide (scheme ∈ SAFE_PROTOCOLS)); simpl;
        [|discriminate].
      destruct (parse_host source st) as [[host|e] st1] eqn:Hhost; simpl.
      * pose proof Hhost as Hhost'. rewrite parse_host_eq in Hhost'.
        assert (st1 = st) by congruence. subst st1. rewrite Hunset.
        case_bool_decide as Hneq; simpl; [discriminate|].
        assert (source = args_target) by (destruct (decide (source = args_target)); tauto).
        subst source. intros _. exists host. split.
        -- repeat (case_match; simpl in *; simplify_eq); reflexivity.
        -- left. auto.
      * discriminate.
    + exists args_target. split; [|right; auto].
      unfold verify_source, bind, get, ret, modify. rewrite Hurl, Hunset. reflexivity.
  - intros source st Hunset Hurl Hne.
    unfold verify_source; unfold_m.
    rewrite Hurl.
    unfold urlparse_parts.
    destruct (urlparse source) as [scheme netloc|msg] eqn:Hparse; [|eauto].
    unfold ret at 1. cbn [fst snd].
    destruct (bool_decide (scheme ∈ SAFE_PROTOCOLS)); simpl; [|eauto].
    rewrite parse_host_eq, Hparse.
    rewrite (bool_decide_eq_true_2 _ Hne).
    repeat (case_match; simpl in *; simplify_eq); eauto.
  - intros url localpath local_target st h Hset. split.
    + exact (ext_host _ _ (download_extends url localpath st) h Hset).
    + exact (ext_host _ _ (verify_file_extends local_target st) h Hset).
Qed.

(** *** More on hashes *)

Lemma lower_char_idem (c : ascii) :
  PyStr.lower_char (PyStr.lower_char c) = PyStr.lower_char c.
Proof. destruct c as [[] [] [] [] [] [] [] []]; reflexivity. Qed.

Lemma lower_idem (s : string) : PyStr.lower (PyStr.lower s) = PyStr.lower s.
Proof.
  induction s as [|c s IH]; [reflexivity|].
  simpl. now rewrite lower_char_idem, IH.
Qed.

Lemma lower_char_space (c : ascii) :
  Ascii.eqb " "%char (PyStr.lower_char c) = Ascii.eqb " "%char c.
Proof. destruct c as [[] [] [] [] [] [] [] []]; reflexivity. Qed.

Lemma replace_char_cons (c a : ascii) (s : string) :
  PyStr.replace (String c EmptyString) EmptyString (String a s) =
  if Ascii.eqb c a then PyStr.replace (String c EmptyString) EmptyString s
  else String a (PyStr.replace (String c EmptyString) EmptyString s).
Proof.
  unfold PyStr.replace. cbn [PyStr.replace_from PyStr.prefix].
  destruct (Ascii.eqb c a); reflexivity.
Qed.

Lemma count_replace_char (c : ascii) (s : string) :
  PyStr.count c (PyStr.replace (String c EmptyString) EmptyString s) = 0%nat.
Proof.
  induction s as [|a s IH]; [reflexivity|].
  rewrite replace_char_cons. destruct (Ascii.eqb c a) eqn:E; [exact IH|].
  cbn [PyStr.count]. rewrite Ascii.eqb_sym, E, IH. reflexivity.
Qed.

Lemma lower_replace_space (s : string) :
  PyStr.lower (PyStr.replace " " EmptyString s) =
  PyStr.replace " " EmptyString (PyStr.lower s).
Proof.
  induction s as [|a s IH]; [reflexivity|].
  cbn [PyStr.lower]. rewrite !replace_char_cons, lower_char_space.
  destruct (Ascii.eqb " "%char a); [exact IH|].
  cbn [PyStr.lower]. now rewrite IH.
Qed.

Lemma count_before (c : ascii) (s : string) : PyStr.count c (PyStr.before c s) = 0%nat.
Proof.
  induction s as [|a s IH]; [reflexivity|].
  simpl. destruct (Ascii.eqb a c) eqn:E; [reflexivity|].
  simpl. now rewrite E, IH.
Qed.

Lemma count_lower_colon (s : string) :
  PyStr.count colon (PyStr.lower s) = PyStr.count colon s.
Proof.
  induction s as [|a s IH]; [reflexivity|].
  simpl. rewrite IH. f_equal.
  destruct a as [[] [] [] [] [] [] [] []]; reflexivity.
Qed.

(** [partition] at a character: the part before it, and the rest *)
Lemma partition_char (c : ascii) (s : string) :
  exists found rest,
    PyStr.partition (String c EmptyString) s = (PyStr.before c s, found, rest) /\
    ((PyStr.count c s = 0%nat /\ found = EmptyString /\ rest = EmptyString) \/
     (found = String c EmptyString /\ s = PyStr.before c s +:+ String c rest)).
Proof.
  induction s as [|a s IH].
  - exists EmptyString, EmptyString. split; [reflexivity|]. left. auto.
  - cbn [PyStr.partition PyStr.prefix PyStr.before PyStr.count].
    rewrite (Ascii.eqb_sym c a).
    destruct (Ascii.eqb a c) eqn:E.
    + apply Ascii.eqb_eq in E. subst a.
      exists (String c EmptyString), s. split; [reflexivity|]. right. auto.
    + destruct IH as (found & rest & Hp & Hcases). rewrite Hp.
      exists found, rest. split; [reflexivity|].
      destruct Hcases as [(H0 & -> & ->)|(-> & Hs)].
      * left. simpl. auto.
      * right. split; [reflexivity|].
        change (String a s = String a (PyStr.before c s +:+ String c rest)).
        f_equal. exact Hs.
Qed.

(** X1: hash_data memoizes.  Once it has returned a digest for an algorithm
    and a path, every later call for them returns that digest and changes
    nothing, whether or not the file is still there or has changed. *)
Theorem hash_data_memoized (algo localpath : string) (st st1 : state) (digest : string) :
  hash_data algo localpath st = (Return digest, st1) ->
  forall st2, extends st1 st2 ->
              hash_data algo localpath st2 = (Return digest, st2).
Proof.
  intros Hrun st2 Hext.
  pose proof (hash_data_spec algo localpath st) as (_ & _ & Hd).
  rewrite Hrun in Hd. destruct (Hd digest eq_refl) as [Hcache _].
  simpl in Hcache. apply (ext_cache _ _ Hext) in Hcache.
  unfold hash_data, bind, get. rewrite Hcache. reflexivity.
Qed.

(** hash_data on a miss, case by case *)
Lemma hash_data_on_miss (algo localpath : string) (st : state) :
  localpath_hash_cache st !! (algo +:+ ":" +:+ localpath) = None ->
  match hashlib_new algo, fs st !! localpath with
  | None, _ =>
      hash_data algo localpath st
      = (Raise (ValueError ("unsupported hash type " +:+ algo)), st)
  | Some _, None =>
      hash_data algo localpath st = (Raise (FileNotFoundError localpath), st)
  | Some h, Some data =>
      match h data with
      | None =>
          hash_data algo localpath st
          = (Raise (TypeError "hexdigest() missing required argument 'length' (pos 1)"),
             st)
      | Some hexdigest =>
          hash_data algo localpath st
          = (Return (PyStr.lower hexdigest),
             set_cache (insert (algo +:+ ":" +:+ localpath) (PyStr.lower hexdigest)) st) /\
          PyStr.lower (PyStr.lower hexdigest) = PyStr.lower hexdigest
      end
  end.
Proof.
  intros Hmiss. unfold hash_data, read_bytes. unfold_m. rewrite Hmiss.
  destruct (hashlib_new algo) as [h|]; [|reflexivity].
  destruct (fs st !! localpath) as [data|]; [|reflexivity].
  destruct (h data) as [hexdigest|]; [|reflexivity].
  split; [reflexivity|apply lower_idem].
Qed.


(** X3: the algorithms hash_algorithms returns are the lower-cased names of
    hashlib, each once: the lower-case form of every available name is in
    the list, and the files, the cache and the counters are not touched. *)
Theorem hash_algorithms_lower (st : state) :
  exists algos o,
    hash_algorithms st = (Return algos, set_stdout (fun _ => o) st) /\
    NoDup algos /\
    (forall a, a ∈ algorithms_available -> PyStr.lower a ∈ algos) /\
    (forall x, x ∈ algos -> PyStr.lower x = x /\
                            exists a, a ∈ algorithms_available /\ x = PyStr.lower a).
Proof.
  unfold hash_algorithms.
  set (algos := remove_dups (map PyStr.lower algorithms_available)).
  destruct (prints_debug ("hashlib.algorithms_available: {" +:+
                          PyStr.join ", " (map repr algos) +:+ "}") st) as [o Ho].
  exists algos, o. rewrite (bind_return _ _ _ _ _ Ho).
  split; [reflexivity|]. split; [apply NoDup_remove_dups|]. split.
  - intros a Ha. apply elem_of_remove_dups, list_elem_of_fmap. eauto.
  - intros x Hx. apply elem_of_remove_dups, list_elem_of_fmap in Hx.
    destruct Hx as (a & -> & Ha). split; [apply lower_idem|eauto].
Qed.

(** X4: what parse_hash accepts and returns.  It changes nothing.  When it
    returns [(algo, value)], the text is [A:REST] with [algo] the
    lower-cased [A], which is not empty and has no colon; [REST] is not
    empty and does not start with two slashes; a [REST] that is a URL is
    returned as it is, and for any other [REST] the value is [REST]
    lower-cased and with its space characters removed, a text in lower case
    without spaces.  It fails when the text has no colon. *)
Theorem parse_hash_normalizes (text : string) (st : state) :
  snd (parse_hash text st) = st /\
  (forall algo value,
      fst (parse_hash text st) = Return (algo, value) ->
      exists rest,
        text = PyStr.before colon text +:+ String colon rest /\
        algo = PyStr.lower (PyStr.before colon text) /\
        algo <> EmptyString /\ PyStr.count colon algo = 0%nat /\
        PyStr.lower algo = algo /\
        rest <> EmptyString /\ PyStr.startswith rest "//" = false /\
        if is_url rest then value = rest
        else value = PyStr.replace " " EmptyString (PyStr.lower rest) /\
             PyStr.lower value = value /\ PyStr.count " "%char value = 0%nat) /\
  (PyStr.count colon text = 0%nat ->
   exists msg, fst (parse_hash text st) = Raise (SafegetException msg)).
Proof.
  split; [apply parse_hash_pure|].
  unfold parse_hash. change ":" with (String colon EmptyString).
  destruct (partition_char colon text) as (found & rest & Hp & Hcases).
  rewrite Hp. unfold_m.
  split.
  - intros algo value.
    destruct (String.eqb (PyStr.lower (PyStr.before colon text)) EmptyString) eqn:Ea;
      cbn [orb fst]; [discriminate|].
    destruct (String.eqb rest EmptyString) eqn:Er; cbn [orb fst]; [discriminate|].
    destruct (PyStr.startswith rest "//") eqn:Es; cbn [orb fst]; [discriminate|].
    intros [= <- <-].
    apply String.eqb_neq in Ea, Er.
    destruct Hcases as [(_ & _ & ->)|(_ & Htext)]; [congruence|].
    exists rest. split; [exact Htext|]. split; [reflexivity|].
    split; [exact Ea|]. split; [now rewrite count_lower_colon, count_before|].
    split; [apply lower_idem|]. split; [exact Er|]. split; [exact Es|].
    destruct (is_url rest); cbn [negb]; [reflexivity|].
    split; [reflexivity|]. split.
    + now rewrite lower_replace_space, lower_idem.
    + apply count_replace_char.
  - intros H0. destruct Hcases as [(_ & _ & ->)|(_ & Htext)].
    + rewrite String.eqb_refl, orb_true_r. cbn [orb fst]. eauto.
    + exfalso. rewrite Htext in H0. clear -H0.
      induction (PyStr.before colon text) as [|a b IH].
      * simpl in H0. discriminate.
      * apply IH. simpl in H0.
        destruct (Ascii.eqb a colon); [discriminate|exact H0].
Qed.

(** *** More on subprocesses *)

(** X5: get_run_args leaves a command line alone unless an argument has a
    wildcard: when every argument is free of [*] and [?], or is wrapped in
    quotes, the arguments are passed on as they are. *)
Theorem get_run_args_plain (files : gmap string string) (command_args : list string) :
  Forall (fun arg =>
            (PyStr.contains "*" arg = false /\ PyStr.contains "?" arg = false) \/
            (PyStr.startswith arg dquote && PyStr.startswith (String.rev arg) dquote
             || PyStr.startswith arg "'" && PyStr.startswith (String.rev arg) "'") = true)
         command_args ->
  get_run_args files command_args = command_args.
Proof.
  unfold get_run_args. induction 1 as [|arg l Harg _ IH]; [reflexivity|].
  cbn [flat_map]. rewrite IH.
  destruct Harg as [[H1 H2]|H].
  - rewrite H1, H2. reflexivity.
  - rewrite H. cbn [negb].
    destruct (PyStr.contains "*" arg || PyStr.contains "?" arg); reflexivity.
Qed.

(** X6: the outcomes of safeget_run.  It starts exactly one subprocess, and
    the files afterwards are the files as that subprocess left them (as they
    were, if the program could not be started): safeget_run writes none
    itself.  A missing program is turned into the failure
    [File not found: PROGRAM]; exit status 0 makes it return; any other exit
    status raises CalledProcessError, which safeget_run does not turn into a
    failure. *)
Theorem safeget_run_outcomes (command_args : list string) (stdin_data : option string)
    (st : state) :
  fst (safeget_run command_args stdin_data st) =
  match Popen (spawned st) (get_run_args (fs st) command_args) stdin_data (fs st) with
  | NoSuchProgram =>
      Raise (SafegetException
               ("Failed: File not found: " +:+ List.hd EmptyString command_args))
  | Exited returncode _ _ _ =>
      if Z.eqb returncode 0 then Return tt
      else Raise (CalledProcessError returncode command_args)
  end /\
  spawned (snd (safeget_run command_args stdin_data st)) = S (spawned st) /\
  fs (snd (safeget_run command_args stdin_data st)) =
  files_after (Popen (spawned st) (get_run_args (fs st) command_args) stdin_data (fs st))
              (fs st).
Proof.
  unfold safeget_run, try_except, run. unfold_m.
  destruct args_debug; simpl;
    (destruct (Popen (spawned st) (get_run_args (fs st) command_args) stdin_data (fs st))
      as [|rc out err files']; simpl; [auto|]);
    repeat (match goal with
            | |- context [if ?b then _ else _] => destruct b; simpl
            end);
    auto.
Qed.

(** *** What the replacements of clean_gpg_data leave *)

Lemma replace_from_unfold (old new : string) (c : ascii) (s : string) :
  PyStr.replace_from old new 0 (String c s) =
  if PyStr.prefix old (String c s)
  then new +:+ PyStr.replace_from old new (String.length old - 1) s
  else String c (PyStr.replace_from old new 0 s).
Proof. reflexivity. Qed.

Lemma nl_append (r : string) : nl +:+ r = String newline_char r.
Proof. reflexivity. Qed.

(** replacing by a newline never completes an occurrence of a text that has no
    newline *)
Lemma prefix_replace_newline (old x : string) :
  PyStr.count newline_char x = 0%nat ->
  forall s, PyStr.prefix x (PyStr.replace_from old nl 0 s) = true ->
            PyStr.prefix x s = true.
Proof.
  induction x as [|a x IH]; intros Hx s Hp; [reflexivity|].
  cbn [PyStr.count] in Hx.
  destruct (Ascii.eqb a newline_char) eqn:Ea; [discriminate|].
  destruct s as [|c s]; [discriminate|].
  rewrite replace_from_unfold in Hp.
  destruct (PyStr.prefix old (String c s)).
  - rewrite nl_append in Hp. cbn [PyStr.prefix] in Hp.
    rewrite Ea in Hp. discriminate.
  - cbn [PyStr.prefix] in *. apply andb_true_iff in Hp. destruct Hp as [H1 H2].
    rewrite H1. apply IH; [exact Hx|exact H2].
Qed.

Lemma contains_replace_newline (old x : string) :
  PyStr.count newline_char x = 0%nat ->
  forall s k, PyStr.contains x (PyStr.replace_from old nl k s) = true ->
              PyStr.contains x s = true.
Proof.
  intros Hx. induction s as [|c s IH]; intros k Hc; [exact Hc|].
  destruct k as [|k].
  - pose proof (prefix_replace_newline old x Hx (String c s)) as Hp.
    rewrite replace_from_unfold in Hc, Hp.
    destruct (PyStr.prefix old (String c s)).
    + rewrite nl_append in Hc.
      cbn [PyStr.contains] in Hc. apply orb_true_iff in Hc.
      cbn [PyStr.contains]. destruct Hc as [Hc|Hc].
      * destruct x as [|a x]; [reflexivity|].
        cbn [PyStr.prefix PyStr.count] in Hc, Hx.
        destruct (Ascii.eqb a newline_char); [discriminate|discriminate].
      * rewrite (IH _ Hc). apply orb_true_r.
    + cbn [PyStr.contains] in Hc. apply orb_true_iff in Hc.
      cbn [PyStr.contains]. destruct Hc as [Hc|Hc].
      * rewrite (Hp Hc). reflexivity.
      * rewrite (IH _ Hc). apply orb_true_r.
  - cbn [PyStr.replace_from] in Hc. cbn [PyStr.contains].
    rewrite (IH _ Hc). apply orb_true_r.
Qed.

(** after a text without newline has been replaced by a newline, it does not
    occur any more *)
Lemma contains_replaced (old : string) :
  old <> EmptyString -> PyStr.count newline_char old = 0%nat ->
  forall s k, PyStr.contains old (PyStr.replace_from old nl k s) = false.
Proof.
  intros Hne Hold. induction s as [|c s IH]; intros k.
  - destruct old; [congruence|reflexivity].
  - destruct k as [|k]; [|apply IH].
    pose proof (prefix_replace_newline old old Hold (String c s)) as Hp.
    rewrite replace_from_unfold in *.
    destruct (PyStr.prefix old (String c s)) eqn:E.
    + rewrite nl_append.
      cbn [PyStr.contains]. rewrite IH, orb_false_r.
      destruct old as [|a old]; [congruence|].
      cbn [PyStr.prefix PyStr.count] in *.
      destruct (Ascii.eqb a newline_char); [discriminate|reflexivity].
    + cbn [PyStr.contains]. rewrite IH, orb_false_r.
      destruct (PyStr.prefix old (String c (PyStr.replace_from old nl 0 s))) eqn:E';
        [|reflexivity].
      specialize (Hp eq_refl). congruence.
Qed.

Lemma contains_kept_out (old x s : string) :
  PyStr.count newline_char x = 0%nat ->
  PyStr.contains x s = false ->
  PyStr.contains x (PyStr.replace old nl s) = false.
Proof.
  intros Hx Hs. destruct (PyStr.contains x (PyStr.replace old nl s)) eqn:E; [|reflexivity].
  apply (contains_replace_newline old x Hx) in E. congruence.
Qed.

Lemma normalize_leaves_no_markup_all (text : string) :
  PyStr.contains "<p>" (normalize text) = false /\
  PyStr.contains "</p>" (normalize text) = false /\
  PyStr.contains "<br>" (normalize text) = false /\
  PyStr.contains "<br/>" (normalize text) = false.
Proof.
  unfold normalize.
  set (t3 := PyStr.replace "\r" EmptyString _).
  repeat split.
  - do 3 (apply contains_kept_out; [reflexivity|]).
    apply contains_replaced; [discriminate|reflexivity].
  - do 2 (apply contains_kept_out; [reflexivity|]).
    apply contains_replaced; [discriminate|reflexivity].
  - apply contains_kept_out; [reflexivity|].
    apply contains_replaced; [discriminate|reflexivity].
  - apply contains_replaced; [discriminate|reflexivity].
Qed.

(** X7: the text clean_gpg_data writes has no HTML paragraph or line-break
    markup left: whatever the input, none of the four tags it replaces
    occurs in the result of its replacements. *)
Theorem normalize_leaves_no_markup (text : string) :
  PyStr.contains "<p>" (normalize text) = false /\
  PyStr.contains "</p>" (normalize text) = false /\
  PyStr.contains "<br>" (normalize text) = false /\
  PyStr.contains "<br/>" (normalize text) = false.
Proof. exact (normalize_leaves_no_markup_all text). Qed.

(** X8: what clean_gpg_data does to a file.  A file of at most 100 bytes is
    reported as not ok and is left as it is.  When a longer file is reported
    ok, it has been rewritten with the normalized text, in which neither an
    escaped newline nor a paragraph or line-break opening tag occurs, and no
    other file has changed. *)
Theorem clean_gpg_data_result (path : string) (st : state) (ok : bool) (st' : state) :
  clean_gpg_data path st = (Return ok, st') ->
  exists data,
    fs st !! path = Some data /\
    ok = (100 <? String.length data)%nat /\
    if ok then
      exists text,
        decode data = Some text /\
        fs st' = <[path := encode (normalize text)]> (fs st) /\
        PyStr.contains "\n" (normalize text) = false /\
        PyStr.contains "<p>" (normalize text) = false /\
        PyStr.contains "<br>" (normalize text) = false
    else fs st' = fs st.
Proof.
  unfold clean_gpg_data, getsize, readfile, read_bytes, write_text. unfold_m.
  destruct (fs st !! path) as [data|] eqn:Ef; simpl; [|discriminate].
  intros Hrun. exists data. split; [reflexivity|].
  destruct (100 <? String.length data)%nat; simpl in Hrun.
  - rewrite Ef in Hrun. simpl in Hrun.
    destruct (decode data) as [text|]; simpl in Hrun; [|discriminate].
    destruct (PyStr.contains "\n" (normalize text)) eqn:En; simpl in Hrun; [discriminate|].
    injection Hrun as <- <-. split; [reflexivity|].
    exists text. split; [reflexivity|]. split; [reflexivity|]. split; [exact En|].
    split; apply normalize_leaves_no_markup_all.
  - destruct args_debug; simpl in Hrun; injection Hrun as <- <-; auto.
Qed.


(** *** save_patterns *)

(** X11: how save_patterns treats a local source.  A missing file is a
    failure, and so is a file in whose text the pattern does not occur; but a
    file that cannot be decoded as text is passed over in silence: the lists
    come back as they were and nothing has changed. *)
Theorem save_patterns_source_local (pattern source : string)
    (paths online_paths : list string) (st : state) :
  is_url source = false ->
  match fs st !! source with
  | None =>
      save_patterns_source pattern (paths, online_paths) source st
      = (Raise (SafegetException ("Failed: file not found: " +:+ source)), st)
  | Some data =>
      match decode data with
      | None =>
          save_patterns_source pattern (paths, online_paths) source st
          = (Return (paths, online_paths), st)
      | Some text =>
          findall pattern text = [] ->
          fst (save_patterns_source pattern (paths, online_paths) source st)
          = Raise (SafegetException
                     ("Failed: no " +:+ dquote +:+ pattern +:+ dquote +:+
                      " patterns found: " +:+ source)) /\
          fs (snd (save_patterns_source pattern (paths, online_paths) source st)) = fs st
      end
  end.
Proof.
  intros Hurl. unfold save_patterns_source. rewrite Hurl.
  destruct (fs st !! source) as [data|] eqn:Hdata.
  - assert (Hinner :
      (present <- exists_ source ;;
       (if negb present then fail ("file not found: " +:+ source) else ret tt) ;;
       ret (source, online_paths)) st = (Return (source, online_paths), st)).
    { unfold exists_. unfold_m. rewrite Hdata.
      rewrite bool_decide_eq_true_2 by eauto. reflexivity. }
    rewrite (bind_return _ _ _ _ _ Hinner). cbn iota beta.
    destruct (decode data) as [text|] eqn:Hdec.
    + intros Hnone.
      assert (Hext : exists o, extract_patterns pattern source st
                               = (Return [], set_stdout (fun _ => o) st)).
      { unfold extract_patterns. unfold bind at 1. rewrite readfile_eq, Hdata, Hdec.
        destruct (prints_debug ("extract " +:+ pattern +:+ " from " +:+ source) st)
          as [o Ho].
        rewrite (bind_return _ _ _ _ _ Ho), Hnone.
        destruct (prints_debug ("pattern not found: " +:+ pattern)
                    (set_stdout (fun _ => o) st)) as [o1 Ho1].
        rewrite (bind_return _ _ _ _ _ Ho1). exists o1. reflexivity. }
      destruct Hext as [o Hext].
      match goal with
      | |- context [bind (try_except ?b ?h) ?k st] =>
          assert (Htry : exists e, try_except b h st
                                   = (Raise (SafegetException e), set_stdout (fun _ => o) st)
                                   /\ e = "Failed: no " +:+ dquote +:+ pattern +:+ dquote
                                          +:+ " patterns found: " +:+ source)
      end.
      { unfold try_except. rewrite (bind_return _ _ _ _ _ Hext). eexists.
        split; reflexivity. }
      destruct Htry as (e & Htry & ->).
      rewrite (bind_raise _ _ _ _ _ Htry). split; reflexivity.
    + assert (Hext : extract_patterns pattern source st = (Raise UnicodeDecodeError, st)).
      { unfold extract_patterns. unfold bind at 1.
        now rewrite readfile_eq, Hdata, Hdec. }
      match goal with
      | |- context [bind (try_except ?b ?h) ?k st] =>
          assert (Htry : try_except b h st = (Return paths, st))
      end.
      { unfold try_except. rewrite (bind_raise _ _ _ _ _ Hext). reflexivity. }
      rewrite (bind_return _ _ _ _ _ Htry). reflexivity.
  - assert (Hinner :
      (present <- exists_ source ;;
       (if negb present then fail ("file not found: " +:+ source) else ret tt) ;;
       ret (source, online_paths)) st
      = (Raise (SafegetException ("Failed: file not found: " +:+ source)), st)).
    { unfold exists_. unfold_m. rewrite Hdata.
      rewrite bool_decide_eq_false_2 by (intros [x Hx]; discriminate). reflexivity. }
    rewrite (bind_raise _ _ _ _ _ Hinner). reflexivity.
Qed.


(** *** More on verify_args *)

Lemma verify_source_never_size_alone (source : string) (st : state) (msg : string) :
  fst (verify_source source st) = Raise (SafegetException msg) ->
  msg <> size_alone_message.
Proof.
  unfold verify_source, size_alone_message.
  destruct (is_url source).
  - unfold bind at 1. unfold urlparse_parts at 1.
    destruct (urlparse source) as [scheme netloc|umsg] eqn:Hparse;
      [|cbn; discriminate].
    unfold ret at 1. cbn [fst snd].
    destruct (bool_decide (scheme ∈ SAFE_PROTOCOLS)).
    + unfold bind at 1. unfold ret at 1. cbn iota beta.
      unfold bind at 1. rewrite parse_host_eq, Hparse.
      destruct (PyStr.count colon netloc) as [|[|n]];
        cbn iota beta; try (cbn; discriminate).
      all: unfold_m; cbn iota beta.
      all: destruct (target_host st); cbn;
        repeat (case_match; cbn in *; simplify_eq);
        try discriminate; intros [= <-]; discriminate.
    + unfold_m. cbn. intros [= <-]. discriminate.
  - unfold_m. destruct (target_host st); cbn; discriminate.
Qed.

(** X12: which option sets verify_args accepts.  It goes on to validate the
    target exactly when a tier is given (--sig, --signedhash or --hash), --sig
    and --signedhash come with --pubkey, and --pubkey comes with --sig,
    --signedmsg or --signedhash; otherwise it fails and changes nothing.  The
    message about a file size given alone is never the one it fails with:
    the check before it has already failed. *)
Theorem verify_args_accepts (st : state) :
  (options_ok = true -> verify_args st = verify_source args_target st) /\
  (options_ok = false ->
   exists msg, verify_args st = (Raise (SafegetException msg), st)) /\
  (forall msg,
      fst (verify_args st) = Raise (SafegetException msg) -> msg <> size_alone_message).
Proof.
  pose proof (verify_source_never_size_alone args_target st) as Hsrc.
  unfold options_ok, verify_args, truthy.
  destruct (nonempty args_sig), (nonempty args_signedhash), (nonempty args_hash),
    (nonempty args_pubkey), (nonempty args_signedmsg);
    cbn [orb andb negb];
    rewrite ?andb_false_r; unfold fail, bind, raise, ret; cbn iota beta.
  all: split; [intros H; try discriminate H; try reflexivity
              |split; [intros H; try discriminate H; try (eexists; reflexivity)|]].
  all: try exact Hsrc.
  all: try (cbn [fst]; intros msg [= <-]; unfold size_alone_message; discriminate).
Qed.


(** *** More on download *)

Lemma download_loop_done (n : nat) (url localpath : string) (reason : option string)
    (attempts : nat) (st : state) :
  download_loop n url localpath true reason attempts st
  = (Return (true, reason, attempts), st).
Proof. destruct n; reflexivity. Qed.

Lemma download_url_succeeds (url localpath : string) (st : state) (data : string) :
  urlopen (requests st) url = Body data ->
  download_url url localpath st =
  (Return (true, None),
   set_fs (insert localpath data) (set_requests (S (requests st)) st)).
Proof.
  intros H. unfold download_url, write_bytes. unfold_m. now rewrite H.
Qed.

Lemma download_loop_first_success (url localpath : string) (data : string) (n : nat) :
  forall k st reason attempts,
    (k < n)%nat ->
    (forall i, (i < k)%nat -> exists r, urlopen (requests st + i) url = TransportError r) ->
    urlopen (requests st + k) url = Body data ->
    exists st',
      download_loop n url localpath false reason attempts st =
      (Return (true, None, (attempts + k + 1)%nat), st') /\
      requests st' = (requests st + k + 1)%nat /\
      fs st' = <[localpath := data]> (fs st).
Proof.
  induction n as [|n IH]; intros k st reason attempts Hk Hfail Hok; [lia|].
  cbn [download_loop negb].
  destruct k as [|k].
  - rewrite Nat.add_0_r in Hok.
    rewrite (bind_return _ _ _ _ _ (download_url_succeeds url localpath st data Hok)).
    cbn [fst snd]. rewrite download_loop_done.
    eexists. split; [do 3 f_equal; lia|]. simpl. split; [lia|reflexivity].
  - destruct (Hfail 0%nat ltac:(lia)) as [r0 Hr0].
    rewrite Nat.add_0_r in Hr0.
    destruct (download_url_fails url localpath st r0 Hr0) as (st1 & Hst1 & Hreq & Hfs).
    rewrite (bind_return _ _ _ _ _ Hst1). cbn [fst snd].
    destruct (IH k st1 (Some r0) (attempts + 1)%nat) as (st' & Hrun & Hreq' & Hfs').
    + lia.
    + intros i Hi. rewrite Hreq.
      destruct (Hfail (S i) ltac:(lia)) as [r Hr].
      exists r. rewrite <- Hr. f_equal. lia.
    + rewrite Hreq. rewrite <- Hok. f_equal. lia.
    + exists st'. rewrite Hrun. split; [do 3 f_equal; lia|].
      split; [lia|]. rewrite Hfs', Hfs. reflexivity.
Qed.

Lemma verbose_returns (msg : string) (st : state) :
  verbose msg st = (Return tt, snd (verbose msg st)).
Proof. unfold_m. destruct (args_verbose || args_debug); reflexivity. Qed.

(** X13: download stops at the first attempt that succeeds.  When the
    destination may be written, the URL passes verify_source, the first k
    attempts (k less than args.tries) end in a transport error and the next
    one gets a body, download returns after exactly k+1 requests and the
    destination holds that body; no other file changes. *)
Theorem download_stops_at_first_success (url localpath : string)
    (st st_w st1 : state) (k : nat) (data : string) :
  (if args_overwrite_ok then ret true else ok_to_write localpath)
    (snd (verbose ("download " +:+ url +:+ " to " +:+ abspath localpath) st))
  = (Return true, st_w) ->
  verify_source url st_w = (Return tt, st1) ->
  (k < Z.to_nat args_tries)%nat ->
  (forall i, (i < k)%nat -> exists r, urlopen (requests st1 + i) url = TransportError r) ->
  urlopen (requests st1 + k) url = Body data ->
  exists st',
    download url localpath st = (Return tt, st') /\
    requests st' = (requests st1 + k + 1)%nat /\
    fs st' = <[localpath := data]> (fs st1).
Proof.
  intros Hwrite Hsource Hk Hfail Hok.
  destruct (download_loop_first_success url localpath data (Z.to_nat args_tries)
              k st1 None 0%nat Hk Hfail Hok) as (st' & Hloop & Hreq & Hfs).
  exists st'. split; [|split; assumption].
  unfold download.
  rewrite (bind_return _ _ _ _ _ (verbose_returns _ _)).
  rewrite (bind_return _ _ _ _ _ Hwrite).
  rewrite (bind_return _ _ _ _ _ Hsource).
  rewrite (bind_return _ _ _ _ _ Hloop).
  reflexivity.
Qed.

(** X14: with a number of tries that is zero or negative download makes no
    request at all and fails; the reason shown in the message is the text
    None, the string of the reason that was never assigned. *)
Theorem download_without_tries (url localpath : string) (st st_w st1 : state) :
  (args_tries <= 0)%Z ->
  (if args_overwrite_ok then ret true else ok_to_write localpath)
    (snd (verbose ("download " +:+ url +:+ " to " +:+ abspath localpath) st))
  = (Return true, st_w) ->
  verify_source url st_w = (Return tt, st1) ->
  exists st',
    download url localpath st =
    (Raise (SafegetException
              ("Failed: " +:+ ("Unable to safely get " +:+ url +:+ ".") +:+ nl +:+
               PyStr.tab +:+ "None" +:+ nl +:+ PyStr.tab +:+ suggestions)), st') /\
    requests st' = requests st1 /\ fs st' = fs st1.
Proof.
  intros Htries Hwrite Hsource.
  exists (snd (debug ("Attempted to download " +:+ PyStr.of_nat 0 +:+ " time(s)") st1)).
  split.
  - unfold download.
    rewrite (bind_return _ _ _ _ _ (verbose_returns _ _)).
    rewrite (bind_return _ _ _ _ _ Hwrite).
    rewrite (bind_return _ _ _ _ _ Hsource).
    replace (Z.to_nat args_tries) with 0%nat by lia.
    cbn [download_loop]. unfold get_details_for_failure, str_reason.
    unfold_m. destruct args_debug; reflexivity.
  - unfold_m. destruct args_debug; split; reflexivity.
Qed.

(** *** The reason shown by get_details_for_failure *)

Lemma skip_digits_app (digits : string) (c : ascii) (rest : string) :
  forallb PyStr.is_digit (list_ascii_of_string digits) = true ->
  PyStr.is_digit c = false ->
  PyStr.skip_digits (digits +:+ String c rest) = String c rest.
Proof.
  intros Hd Hc. induction digits as [|d digits IH].
  - change (EmptyString +:+ String c rest) with (String c rest).
    cbn [PyStr.skip_digits]. rewrite Hc. reflexivity.
  - cbn [list_ascii_of_string forallb] in Hd. apply andb_true_iff in Hd as [Hd1 Hd2].
    change (String d digits +:+ String c rest) with (String d (digits +:+ String c rest)).
    cbn [PyStr.skip_digits]. rewrite Hd1. auto.
Qed.

Lemma dot_star_eol_line (text : string) :
  PyStr.contains nl text = false -> PyStr.dot_star_eol text = Some text.
Proof.
  induction text as [|c text IH]; [reflexivity|].
  cbn [PyStr.contains PyStr.prefix nl PyStr.newline PyStr.dot_star_eol].
  intros H. apply orb_false_iff in H as [H1 H2].
  rewrite andb_true_r in H1. rewrite Ascii.eqb_sym, H1.
  rewrite (IH H2). reflexivity.
Qed.

Lemma match_errno_tagged (digits text : string) :
  digits <> EmptyString ->
  forallb PyStr.is_digit (list_ascii_of_string digits) = true ->
  PyStr.contains nl text = false ->
  PyStr.match_errno ("[Errno " +:+ digits +:+ "] " +:+ text) = Some text.
Proof.
  intros Hne Hd Hnl. unfold PyStr.match_errno.
  change (PyStr.startswith ("[Errno " +:+ digits +:+ "] " +:+ text) "[Errno ") with true.
  cbn iota.
  change (PyStr.drop 7 ("[Errno " +:+ digits +:+ "] " +:+ text))
    with (digits +:+ String "]" (String " " text)).
  destruct digits as [|d digits]; [congruence|].
  change (String d digits +:+ String "]" (String " " text))
    with (String d (digits +:+ String "]" (String " " text))).
  cbn zeta.
  pose proof Hd as Hd'. cbn [list_ascii_of_string forallb] in Hd'.
  apply andb_true_iff in Hd' as [Hd1 _].
  rewrite Hd1.
  change (String d (digits +:+ String "]" (String " " text)))
    with (String d digits +:+ String "]" (String " " text)).
  rewrite (skip_digits_app _ _ _ Hd) by reflexivity.
  change (PyStr.startswith (String "]" (String " " text)) "] ") with true.
  cbn iota.
  change (PyStr.drop 2 (String "]" (String " " text))) with text.
  apply dot_star_eol_line, Hnl.
Qed.

(** X15: the reason in the failure details.  A reason of the form of an
    errno tag (an opening bracket, Errno, digits, a closing bracket, a space)
    followed by one line of text is shown as Error: and that text; a reason
    that does not start with the tag is shown as it is. *)
Theorem get_details_for_failure_reason (url : string) (attempts : nat) (st : state) :
  (forall digits text,
      digits <> EmptyString ->
      forallb PyStr.is_digit (list_ascii_of_string digits) = true ->
      PyStr.contains nl text = false ->
      fst (get_details_for_failure url attempts
             (Some ("[Errno " +:+ digits +:+ "] " +:+ text)) st)
      = Return (("Unable to safely get " +:+ url +:+ ".") +:+ nl +:+ PyStr.tab +:+
                ("Error: " +:+ text) +:+ nl +:+ PyStr.tab +:+ suggestions)) /\
  (forall reason,
      PyStr.startswith reason "[Errno " = false ->
      fst (get_details_for_failure url attempts (Some reason) st)
      = Return (("Unable to safely get " +:+ url +:+ ".") +:+ nl +:+ PyStr.tab +:+
                reason +:+ nl +:+ PyStr.tab +:+ suggestions)).
Proof.
  split.
  - intros digits text Hne Hd Hnl.
    unfold get_details_for_failure, str_reason.
    rewrite (match_errno_tagged digits text Hne Hd Hnl).
    unfold_m. destruct args_debug; reflexivity.
  - intros reason Hno.
    unfold get_details_for_failure, str_reason, PyStr.match_errno.
    rewrite Hno.
    unfold_m. destruct args_debug; reflexivity.
Qed.

(** *** The prompt of ok_to_write *)

(** X16: when the path holds a non-empty file (and the run is not a test),
    ok_to_write reads exactly one line of the input and changes no file: it
    returns True when the line, in lower case, is y or yes, raises the failure
    otherwise, and raises EOFError when the input is at its end. *)
Theorem ok_to_write_prompts (path : string) (st : state) (data : string) :
  fs st !! path = Some data -> data <> EmptyString -> testing st = false ->
  exists st',
    ok_to_write path st =
    (match stdin st with
     | [] => Raise EOFError
     | answer :: _ =>
         if bool_decide (PyStr.lower answer ∈ ["y"; "yes"]) then Return true
         else Raise (SafegetException ("Failed: did not replace " +:+ abspath path))
     end, st') /\
    stdin st' = tail (stdin st) /\ fs st' = fs st.
Proof.
  intros Hdata Hne Htest.
  unfold ok_to_write, bind, get, ret. rewrite Hdata, Htest.
  rewrite bool_decide_eq_true_2 by eauto.
  destruct data as [|c data]; [congruence|]. simpl.
  unfold verbose, debug, input, notice, when, print, modify, fail, raise, bind, ret, get.
  destruct (args_verbose || args_debug); simpl;
    destruct (stdin st) as [|answer rest] eqn:Hin; simpl;
    destruct args_debug; simpl;
    try case_bool_decide; simpl; eauto.
Qed.


(** *** A --hash entry with a URL that does not hold the digest *)

(** X18: when the value of a --hash entry is a URL and the text fetched from
    it does not hold the digest of the target, the failure message is built
    from a variable that this branch never assigns: the run ends with
    UnboundLocalError if no literal entry came before, and otherwise with a
    mismatch message that shows the digest computed for that earlier entry. *)
Theorem verify_explicit_hash_arg_url_mismatch (localpath : string)
    (algos : list string) (actual_hash : option string) (entry : string)
    (s s' : state) (algo url : string) :
  parse_hash entry s = (Return (algo, url), s) ->
  algo ∈ algos -> is_url url = true ->
  fetch_and_search localpath algo url s = (Return false, s') ->
  verify_explicit_hash_arg localpath algos actual_hash entry s =
  (Raise (match actual_hash with
          | None => UnboundLocalError "actual_hash"
          | Some earlier => SafegetException (mismatch_message localpath algo earlier)
          end), s').
Proof.
  intros Hparse Hin Hurl Hfs.
  unfold fetch_and_search in Hfs.
  apply bind_inv in Hfs as ([] & a1 & F1 & Hfs).
  apply bind_inv in Hfs as (hashpath & a2 & F2 & Hfs).
  apply bind_inv in Hfs as ([] & a3 & F3 & Hfs).
  apply bind_inv in Hfs as ([] & a4 & F4 & Hfs).
  apply bind_inv in Hfs as (content & a5 & F5 & F6).
  unfold verify_explicit_hash_arg.
  rewrite (bind_return _ _ _ _ _ Hparse).
  rewrite (bool_decide_eq_true_2 _ Hin). cbn [negb].
  unfold ret at 1. unfold bind at 1. rewrite Hurl.
  unfold bind at 1.
  rewrite (bind_return _ _ _ _ _ F1).
  rewrite (bind_return _ _ _ _ _ F2).
  rewrite (bind_return _ _ _ _ _ F3).
  rewrite (bind_return _ _ _ _ _ F4).
  rewrite (bind_return _ _ _ _ _ F5).
  rewrite (bind_return _ _ _ _ _ F6).
  unfold ret at 1. cbn [negb].
  destruct actual_hash; reflexivity.
Qed.

(** *** Signed messages and signatures *)

Lemma safeget_run_state (command_args : list string) (stdin_data : option string)
    (st : state) :
  spawned (snd (safeget_run command_args stdin_data st)) = S (spawned st) /\
  fs (snd (safeget_run command_args stdin_data st)) =
  files_after (Popen (spawned st) (get_run_args (fs st) command_args) stdin_data (fs st))
              (fs st).
Proof.
  unfold safeget_run, try_except, run. unfold_m.
  destruct args_debug; simpl;
    (destruct (Popen (spawned st) (get_run_args (fs st) command_args) stdin_data (fs st))
      as [|rc out err files']; simpl; [auto|]);
    repeat (match goal with
            | |- context [if ?b then _ else _] => destruct b; simpl
            end);
    auto.
Qed.

(** X20: the step of verify_signatures for one extracted signature never
    fails on the verdict of gpg.  Once clean_gpg_data has returned, the step
    returns whether gpg accepts the signature, rejects it or cannot be
    started; it starts gpg once if the block was long enough and not at all
    otherwise, and the files afterwards are as that run of gpg left them:
    the step writes none itself. *)
Theorem verify_signature_path_ignores_verdict (local_target sigpath : string)
    (st : state) (ok : bool) (s1 : state) :
  clean_gpg_data sigpath st = (Return ok, s1) ->
  exists st',
    verify_signature_path local_target sigpath st = (Return tt, st') /\
    spawned st' = (if ok then S (spawned s1) else spawned s1) /\
    fs st' =
    if ok then
      files_after
        (Popen (spawned s1)
           (get_run_args (fs s1) [gpg_path s1; "--verify"; sigpath; local_target])
           None (fs s1))
        (fs s1)
    else fs s1.
Proof.
  intros Hclean. unfold verify_signature_path.
  rewrite (bind_return _ _ _ _ _ Hclean).
  destruct ok; [|eexists; split; [reflexivity|split; reflexivity]].
  unfold bind at 1, get, try_except. unfold bind at 1.
  destruct (safeget_run_state [gpg_path s1; "--verify"; sigpath; local_target] None s1)
    as [Hsp Hfs].
  destruct (safeget_run [gpg_path s1; "--verify"; sigpath; local_target] None s1)
    as [[[]|e] s2] eqn:Hgpg; cbn [snd] in Hsp, Hfs.
  - destruct (prints_verbose ("verified pgp detached signature: " +:+ repr_list args_sig) s2)
      as [o Ho].
    rewrite Ho. eexists. split; [reflexivity|]. split; assumption.
  - destruct (safeget_run_raises _ _ _ _ _ Hgpg) as [[msg ->]|(rc & cmd & ->)];
      match goal with
      | |- context [bind (debug ?m1) (fun _ => debug ?m2)] =>
          destruct (prints_bind _ _ (prints_debug m1) (prints_debug m2) s2) as [o Ho];
          rewrite Ho; eexists; (split; [reflexivity|]); split; assumption
      end.
Qed.

(** *** Removing the downloaded copies *)

Lemma for_each_remove (online : list string) :
  forall st,
    NoDup online -> (forall p, p ∈ online -> is_Some (fs st !! p)) ->
    exists st',
      for_each remove online st = (Return tt, st') /\
      (forall q, fs st' !! q = if bool_decide (q ∈ online) then None else fs st !! q) /\
      stdout st' = stdout st.
Proof.
  unfold for_each.
  induction online as [|p online IH]; intros st Hnd Hall.
  - exists st. split; [reflexivity|]. split; [|reflexivity].
    intros q. rewrite bool_decide_eq_false_2; [reflexivity|]. apply not_elem_of_nil.
  - apply NoDup_cons in Hnd as [Hp Hnd].
    destruct (Hall p ltac:(left)) as [data Hdata].
    cbn [for_fold].
    assert (Hrm : remove p st = (Return tt, set_fs (delete p) st)).
    { unfold remove. unfold_m. rewrite Hdata. reflexivity. }
    rewrite (bind_return _ _ _ _ _ Hrm).
    destruct (IH (set_fs (delete p) st) Hnd) as (st' & Hrun & Hfs & Hout).
    { intros q Hq. simpl. rewrite lookup_delete_ne; [apply Hall; now right|].
      intros ->. contradiction. }
    exists st'. split; [exact Hrun|]. split; [|exact Hout].
    intros q. rewrite Hfs. simpl.
    destruct (decide (q = p)) as [->|Hqp].
    + rewrite (bool_decide_eq_false_2 _ Hp).
      rewrite bool_decide_eq_true_2 by left.
      apply lookup_delete_eq.
    + rewrite lookup_delete_ne by congruence.
      destruct (decide (q ∈ online)) as [Hq|Hq].
      * rewrite !bool_decide_eq_true_2; [reflexivity|now right|exact Hq].
      * rewrite !bool_decide_eq_false_2; [reflexivity| |exact Hq].
        intros Hc. apply elem_of_cons in Hc as [?|?]; contradiction.
Qed.

(** X21: remove_online keeps the downloaded copies with --debug and removes
    them otherwise.  With --debug nothing changes; without it, for distinct
    paths that all exist, exactly those files are gone afterwards; and a path
    that does not exist, met first, ends the loop with FileNotFoundError. *)
Theorem remove_online_removes (online : list string) (st : state) :
  (args_debug = true -> remove_online online st = (Return tt, st)) /\
  (args_debug = false ->
   NoDup online -> (forall p, p ∈ online -> is_Some (fs st !! p)) ->
   exists st',
     remove_online online st = (Return tt, st') /\
     forall q, fs st' !! q = if bool_decide (q ∈ online) then None else fs st !! q) /\
  (args_debug = false ->
   forall p rest, online = p :: rest -> fs st !! p = None ->
   remove_online online st = (Raise (FileNotFoundError p), st)).
Proof.
  unfold remove_online. split; [|split].
  - intros ->. reflexivity.
  - intros -> Hnd Hall. cbn [negb].
    destruct (for_each_remove online st Hnd Hall) as (st' & Hrun & Hfs & _).
    eauto.
  - intros -> p rest -> Hp. cbn [negb]. unfold for_each. cbn [for_fold].
    unfold remove. unfold_m. rewrite Hp. reflexivity.
Qed.


(** *** Importing the public keys *)

Lemma safeget_run_result (command_args : list string) (stdin_data : option string)
    (st : state) :
  fst (safeget_run command_args stdin_data st) =
  match Popen (spawned st) (get_run_args (fs st) command_args) stdin_data (fs st) with
  | NoSuchProgram =>
      Raise (SafegetException
               ("Failed: File not found: " +:+ List.hd EmptyString command_args))
  | Exited returncode _ _ _ =>
      if Z.eqb returncode 0 then Return tt
      else Raise (CalledProcessError returncode command_args)
  end.
Proof.
  unfold safeget_run, try_except, run. unfold_m.
  destruct args_debug; simpl;
    (destruct (Popen (spawned st) (get_run_args (fs st) command_args) stdin_data (fs st))
      as [|rc out err files']; simpl; [auto|]);
    repeat (match goal with
            | |- context [if ?b then _ else _] => destruct b; simpl
            end);
    auto.
Qed.

(** X22: the step of get_pubkeys for one extracted key block, once
    clean_gpg_data has returned.  A block of at most 100 bytes is skipped
    without an error; otherwise gpg --import is run once, and unlike the
    verdict on a signature its failure is not caught: a missing gpg is a
    failure of the run and a non-zero exit status leaves as
    CalledProcessError.  The files afterwards are as that run of gpg left
    them. *)
Theorem import_pubkey_outcomes (keypath : string) (st : state) (ok : bool) (s1 : state) :
  clean_gpg_data keypath (snd (debug ("pubkey path: " +:+ keypath) st)) = (Return ok, s1) ->
  exists st',
    import_pubkey keypath st =
    (if ok then
       match Popen (spawned s1)
               (get_run_args (fs s1) [gpg_path s1; "--import"; keypath]) None (fs s1) with
       | NoSuchProgram =>
           Raise (SafegetException ("Failed: File not found: " +:+ gpg_path s1))
       | Exited returncode _ _ _ =>
           if Z.eqb returncode 0 then Return tt
           else Raise (CalledProcessError returncode [gpg_path s1; "--import"; keypath])
       end
     else Return tt, st') /\
    spawned st' = (if ok then S (spawned s1) else spawned s1) /\
    fs st' =
    if ok then
      files_after
        (Popen (spawned s1)
           (get_run_args (fs s1) [gpg_path s1; "--import"; keypath]) None (fs s1))
        (fs s1)
    else fs s1.
Proof.
  intros Hclean. unfold import_pubkey.
  destruct (prints_debug ("pubkey path: " +:+ keypath) st) as [o Ho].
  rewrite Ho in Hclean. cbn [snd] in Hclean.
  rewrite (bind_return _ _ _ _ _ Ho).
  rewrite (bind_return _ _ _ _ _ Hclean).
  destruct ok.
  - unfold bind at 1. unfold bind at 1. unfold get at 1.
    pose proof (safeget_run_result [gpg_path s1; "--import"; keypath] None s1) as Hres.
    destruct (safeget_run_state [gpg_path s1; "--import"; keypath] None s1) as [Hsp Hfs].
    destruct (safeget_run [gpg_path s1; "--import"; keypath] None s1) as [r s2].
    cbn [fst snd] in Hres, Hsp, Hfs. cbn [hd] in Hres. rewrite <- Hres.
    destruct r as [[]|e].
    + destruct (prints_debug ("imported pgp public key from: " +:+ keypath) s2) as [o2 Ho2].
      rewrite Ho2. eexists. split; [reflexivity|]. split; assumption.
    + eexists. split; [reflexivity|]. split; assumption.
  - unfold ret at 1. unfold bind at 1.
    destruct (prints_debug ("imported pgp public key from: " +:+ keypath) s1) as [o2 Ho2].
    rewrite Ho2. eexists. split; [reflexivity|]. split; reflexivity.
Qed.

(** *** What a function returns *)

Lemma returns_any {A} (m : M A) : returns (fun _ => True) m.
Proof. intros st a st' _. exact I. Qed.

Lemma returns_ret {A} (Q : A -> Prop) (a : A) : Q a -> returns Q (ret a).
Proof. intros H st a' st' [= <- _]. exact H. Qed.

Lemma returns_raise {A} (Q : A -> Prop) (e : exn) : returns Q (@raise A e).
Proof. intros st a st' H. discriminate H. Qed.

Lemma returns_bind {A B} (Q : A -> Prop) (Q' : B -> Prop) (m : M A) (k : A -> M B) :
  returns Q m -> (forall a, Q a -> returns Q' (k a)) -> returns Q' (bind m k).
Proof.
  intros Hm Hk st b st' Hrun.
  apply bind_inv in Hrun as (a & s & Ha & Hb).
  exact (Hk a (Hm _ _ _ Ha) _ _ _ Hb).
Qed.

Lemma returns_try_except {A} (Q : A -> Prop) (m : M A) (h : exn -> option (M A)) :
  returns Q m -> (forall e handler, h e = Some handler -> returns Q handler) ->
  returns Q (try_except m h).
Proof.
  intros Hm Hh st a st'. unfold try_except.
  destruct (m st) as [[a0|e] s] eqn:Hrun.
  - intros [= <- _]. exact (Hm _ _ _ Hrun).
  - destruct (h e) as [handler|] eqn:He; [|discriminate].
    apply (Hh _ _ He).
Qed.

Lemma returns_for_fold {A B} (I : B -> Prop) (P : A -> Prop) (body : B -> A -> M B)
    (l : list A) :
  Forall P l -> (forall b x, P x -> I b -> returns I (body b x)) ->
  forall b, I b -> returns I (for_fold body l b).
Proof.
  intros Hl Hbody. induction Hl as [|x l Hx Hl IH]; intros b Hb; simpl.
  - apply returns_ret, Hb.
  - eapply returns_bind; [exact (Hbody b x Hx Hb)|]. intros b' Hb'. exact (IH b' Hb').
Qed.

Section Frames.

Context (R : relation state) `{!PreOrder R}.

(** sequencing, when what the first part returns is known to satisfy [Q] *)
Lemma follows_bind_returns {A B} (Q : A -> Prop) (m : M A) (k : A -> M B) :
  returns Q m -> follows R m -> (forall a, Q a -> follows R (k a)) ->
  follows R (bind m k).
Proof.
  intros HQ Hm Hk st. unfold bind. specialize (Hm st).
  destruct (m st) as [[a|e] s] eqn:Hrun; simpl in *; [|exact Hm].
  etransitivity; [exact Hm|]. exact (Hk a (HQ _ _ _ Hrun) s).
Qed.

Lemma follows_for_fold_forall {A B} (P : A -> Prop) (body : B -> A -> M B)
    (l : list A) :
  Forall P l -> (forall b x, P x -> follows R (body b x)) ->
  forall b, follows R (for_fold body l b).
Proof.
  intros Hl Hbody. induction Hl as [|x l Hx Hl IH]; intros b; simpl.
  - apply follows_ret. exact _.
  - apply follows_bind; [exact _|exact (Hbody b x Hx)|exact IH].
Qed.

End Frames.

Ltac frame_step :=
  match goal with
  | H : _ /\ _ |- _ => destruct H
  | H : context [fst (_, _)] |- _ => cbn [fst snd] in H
  | H : context [snd (_, _)] |- _ => cbn [fst snd] in H
  | |- follows _ (bind _ _) =>
      first [ eapply follows_bind_returns;
              [typeclasses eauto|solve [eauto with returns]| |intros ? ?]
            | apply follows_bind; [typeclasses eauto| |intros] ]
  | |- follows _ (for_each _ _) => unfold for_each
  | |- follows _ (for_fold _ _ _) =>
      first [ eapply follows_for_fold_forall; [typeclasses eauto|eassumption|intros ? ? ?]
            | apply follows_for_fold; [typeclasses eauto|intros] ]
  | _ => follows_step
  end.

Ltac frame_tac := repeat frame_step.

Ltac returns_step :=
  match goal with
  | H : _ /\ _ |- _ => destruct H
  | H : context [fst (_, _)] |- _ => cbn [fst snd] in H
  | H : context [snd (_, _)] |- _ => cbn [fst snd] in H
  | |- returns _ (bind _ _) =>
      eapply returns_bind;
      [first [solve [eauto with returns]|apply returns_any]|intros ? ?]
  | |- returns _ (ret _) => apply returns_ret
  | |- returns _ (raise _) => apply returns_raise
  | |- returns _ (fail _) => apply returns_raise
  | |- returns _ (try_except _ _) =>
      apply returns_try_except;
      [|let e := fresh "e" in let H := fresh "H" in
        intros e ? H; destruct e; simpl in H; try discriminate H;
        injection H as <-]
  | |- returns _ (if ?b then _ else _) => destruct b
  | |- returns _ (match ?x with _ => _ end) => destruct x
  end.

Ltac returns_tac := repeat returns_step.

(** *** Paths in the temporary directory *)

Lemma get_temp_filename_returns :
  returns (fun path => is_tmp path = true) get_temp_filename.
Proof.
  intros st path st' Hrun.
  destruct (get_temp_filename_run st) as (name & Hname & _).
  rewrite Hname in Hrun. injection Hrun as <- _.
  unfold is_tmp, PyStr.startswith.
  rewrite <- append_assoc. apply prefix_append_l, prefix_refl.
Qed.

Create HintDb returns.

Hint Resolve get_temp_filename_returns : returns.

Lemma extract_patterns_tmp (pattern localpath : string) :
  returns (Forall (fun path => is_tmp path = true)) (extract_patterns pattern localpath).
Proof.
  intros st paths st' Hrun.
  destruct (extract_patterns_returns _ _ _ _ _ Hrun) as (data & text & _ & _ & _ & Hex & _).
  apply Forall_forall. intros p Hp. exact (proj1 (Hex p Hp)).
Qed.

Hint Resolve extract_patterns_tmp : returns.

Lemma save_patterns_source_tmp (pattern : string) (acc : list string * list string)
    (source : string) :
  Forall (fun path => is_tmp path = true) (fst acc) /\
  Forall (fun path => is_tmp path = true) (snd acc) ->
  returns (fun r => Forall (fun path => is_tmp path = true) (fst r) /\
                    Forall (fun path => is_tmp path = true) (snd r))
          (save_patterns_source pattern acc source).
Proof.
  intros [Hp Ho]. destruct acc as [paths online]. cbn [fst snd] in Hp, Ho.
  unfold save_patterns_source.
  eapply (returns_bind
            (fun r : string * list string =>
               Forall (fun path => is_tmp path = true) (snd r))).
  - destruct (is_url source).
    + returns_tac. cbn [snd]. apply Forall_app. split; [exact Ho|].
      constructor; [assumption|constructor].
    + returns_tac; exact Ho.
  - intros [path online'] Ho'. cbn [snd] in Ho'.
    eapply (returns_bind (Forall (fun path => is_tmp path = true))).
    + returns_tac; try exact Hp.
      all: apply Forall_app; split; [exact Hp|assumption].
    + intros paths' Hp'. apply returns_ret. split; assumption.
Qed.

Lemma save_patterns_tmp (pattern : string) (sources : list string) :
  returns (fun r => Forall (fun path => is_tmp path = true) (fst r) /\
                    Forall (fun path => is_tmp path = true) (snd r))
          (save_patterns pattern sources).
Proof.
  unfold save_patterns.
  apply (returns_for_fold _ (fun _ => True)).
  - apply Forall_forall. auto.
  - intros acc source _ Hacc. apply save_patterns_source_tmp, Hacc.
  - split; constructor.
Qed.

Hint Resolve save_patterns_tmp : returns.

Lemma verify_signed_message_path_tmp (verified : list string) (path : string) :
  Forall (fun p => is_tmp p = true) verified -> is_tmp path = true ->
  returns (Forall (fun p => is_tmp p = true)) (verify_signed_message_path verified path).
Proof.
  intros Hv Hp. unfold verify_signed_message_path.
  returns_tac; try exact Hv.
  apply Forall_app. split; [exact Hv|]. constructor; [exact Hp|constructor].
Qed.

Lemma verify_signed_messages_tmp (source : string) :
  returns (Forall (fun p => is_tmp p = true)) (verify_signed_messages source).
Proof.
  unfold verify_signed_messages.
  eapply returns_bind; [apply returns_any|]. intros _ _.
  eapply returns_bind; [apply save_patterns_tmp|]. intros [paths online] [Hp Ho].
  cbn [fst snd] in Hp, Ho.
  eapply returns_bind.
  - apply (returns_for_fold (Forall (fun p => is_tmp p = true))
                            (fun p => is_tmp p = true)); [exact Hp| |constructor].
    intros b x Hx Hb. apply verify_signed_message_path_tmp; assumption.
  - intros verified Hv. returns_tac. exact Hv.
Qed.

Hint Resolve verify_signed_messages_tmp : returns.


(** *** The target during verification *)

Instance target_kept_preorder (localpath : string) : PreOrder (target_kept localpath).
Proof.
  split.
  - intros s. split; [reflexivity|]. auto.
  - intros s1 s2 s3 [Hf12 Hc12] [Hf23 Hc23]. split; [congruence|].
    intros algo digest H3.
    destruct (Hc23 _ _ H3) as [H2|(data & Hdata & Hd)].
    + exact (Hc12 _ _ H2).
    + right. exists data. split; [congruence|exact Hd].
Qed.

Lemma append_cancel_r (a b c : string) : a +:+ c = b +:+ c -> a = b.
Proof.
  revert b. induction a as [|x a IH]; intros [|y b] H.
  - reflexivity.
  - exfalso. apply (f_equal String.length) in H.
    rewrite !append_length in H. simpl in H. lia.
  - exfalso. apply (f_equal String.length) in H.
    rewrite !append_length in H. simpl in H. lia.
  - change (String x (a +:+ c) = String y (b +:+ c)) in H.
    injection H as -> H. f_equal. exact (IH _ H).
Qed.

Section Target.

Variable localpath : string.

(** the target is not in the temporary directory, and the subprocesses leave
    it and the temporary files as they are *)
Hypothesis target_outside : is_tmp localpath = false.
Hypothesis tmp_files_kept : subprocesses_keep (fun path => is_tmp path = true).
Hypothesis target_file_kept : subprocesses_keep (fun path => path = localpath).

Lemma target_kept_same st st' :
  fs st' !! localpath = fs st !! localpath ->
  localpath_hash_cache st' = localpath_hash_cache st ->
  target_kept localpath st st'.
Proof. intros Hf Hc. split; [exact Hf|]. intros algo digest H. left. congruence. Qed.

Lemma target_kept_set_stdout f st : target_kept localpath st (set_stdout f st).
Proof. apply target_kept_same; reflexivity. Qed.

Lemma target_kept_set_stdin l st : target_kept localpath st (set_stdin l st).
Proof. apply target_kept_same; reflexivity. Qed.

Lemma target_kept_set_rng n st : target_kept localpath st (set_rng n st).
Proof. apply target_kept_same; reflexivity. Qed.

Lemma tmp_is_not_target path : is_tmp path = true -> path <> localpath.
Proof. intros H ->. congruence. Qed.

Lemma target_kept_insert path data st :
  is_tmp path = true -> target_kept localpath st (set_fs (insert path data) st).
Proof.
  intros H. apply target_kept_same; [|reflexivity].
  cbn. apply lookup_insert_ne. apply tmp_is_not_target, H.
Qed.

Lemma target_kept_delete path st :
  is_tmp path = true -> target_kept localpath st (set_fs (delete path) st).
Proof.
  intros H. apply target_kept_same; [|reflexivity].
  cbn. apply lookup_delete_ne. apply tmp_is_not_target, H.
Qed.

Hint Resolve target_kept_set_stdout target_kept_set_stdin target_kept_set_rng
  target_kept_insert target_kept_delete : follows.

Lemma print_kept msg : follows (target_kept localpath) (print msg).
Proof. unfold print. follows_tac. Qed.

Lemma notice_kept msg : follows (target_kept localpath) (notice msg).
Proof. unfold notice. follows_tac. Qed.

Hint Resolve print_kept notice_kept : follows.

Lemma verbose_kept msg : follows (target_kept localpath) (verbose msg).
Proof. unfold verbose. follows_tac. Qed.

Lemma debug_kept msg : follows (target_kept localpath) (debug msg).
Proof. unfold debug. follows_tac. Qed.

Lemma warn_kept msg : follows (target_kept localpath) (warn msg).
Proof. unfold warn. follows_tac. Qed.

Lemma exists_kept path : follows (target_kept localpath) (exists_ path).
Proof. unfold exists_. follows_tac. Qed.

Lemma write_text_kept path text :
  is_tmp path = true -> follows (target_kept localpath) (write_text path text).
Proof. intros H. unfold write_text. follows_tac. Qed.

Lemma write_bytes_kept path data :
  is_tmp path = true -> follows (target_kept localpath) (write_bytes path data).
Proof. intros H. unfold write_bytes. follows_tac. Qed.

Lemma remove_kept path :
  is_tmp path = true -> follows (target_kept localpath) (remove path).
Proof. intros H. unfold remove. follows_tac. Qed.

Hint Resolve verbose_kept debug_kept warn_kept exists_kept write_text_kept
  write_bytes_kept remove_kept : follows.

Lemma random_choice_kept population :
  follows (target_kept localpath) (random_choice population).
Proof. unfold random_choice. follows_tac. Qed.

Hint Resolve random_choice_kept : follows.

Lemma random_chars_kept n :
  forall acc, follows (target_kept localpath) (random_chars n acc).
Proof. induction n as [|n IH]; intros acc; simpl; follows_tac. Qed.

Hint Resolve random_chars_kept : follows.

Lemma get_temp_filename_kept : follows (target_kept localpath) get_temp_filename.
Proof. unfold get_temp_filename, get_random_string. follows_tac. Qed.

Lemma verify_source_kept source : follows (target_kept localpath) (verify_source source).
Proof.
  intros st. apply target_kept_same.
  - unfold verify_source. unfold_m.
    destruct (is_url source).
    + unfold urlparse_parts.
      destruct (urlparse source) as [scheme netloc|msg] eqn:Hparse; [|reflexivity].
      unfold ret at 1. cbn [fst snd].
      destruct (bool_decide (scheme ∈ SAFE_PROTOCOLS)); simpl; [|reflexivity].
      rewrite parse_host_eq, Hparse.
      repeat (case_match; simpl in *; simplify_eq); reflexivity.
    + destruct (target_host st) eqn:E; reflexivity.
  - unfold verify_source. unfold_m.
    destruct (is_url source).
    + unfold urlparse_parts.
      destruct (urlparse source) as [scheme netloc|msg] eqn:Hparse; [|reflexivity].
      unfold ret at 1. cbn [fst snd].
      destruct (bool_decide (scheme ∈ SAFE_PROTOCOLS)); simpl; [|reflexivity].
      rewrite parse_host_eq, Hparse.
      repeat (case_match; simpl in *; simplify_eq); reflexivity.
    + destruct (target_host st) eqn:E; reflexivity.
Qed.

Lemma input_kept prompt : follows (target_kept localpath) (input prompt).
Proof. unfold input. follows_tac. Qed.

Hint Resolve get_temp_filename_kept verify_source_kept input_kept : follows.

Lemma ok_to_write_kept path : follows (target_kept localpath) (ok_to_write path).
Proof. unfold ok_to_write. follows_tac. Qed.

Lemma download_url_kept url path :
  is_tmp path = true -> follows (target_kept localpath) (download_url url path).
Proof.
  intros H st. pose proof (tmp_is_not_target path H) as Hne.
  unfold download_url, write_bytes. unfold_m.
  destruct (urlopen (requests st) url) as [data|reason|msg [data|]];
    destruct args_debug; simpl; apply target_kept_same; simpl;
    try reflexivity; apply lookup_insert_ne; exact Hne.
Qed.

Lemma get_details_for_failure_kept url attempts reason :
  follows (target_kept localpath) (get_details_for_failure url attempts reason).
Proof. unfold get_details_for_failure. follows_tac. Qed.

Hint Resolve ok_to_write_kept download_url_kept get_details_for_failure_kept : follows.

Lemma download_loop_kept url path n :
  is_tmp path = true ->
  forall ok reason attempts,
    follows (target_kept localpath) (download_loop n url path ok reason attempts).
Proof. intros H. induction n as [|n IH]; intros; simpl; follows_tac. Qed.

Hint Resolve download_loop_kept : follows.

Lemma download_kept url path :
  is_tmp path = true -> follows (target_kept localpath) (download url path).
Proof. intros H. unfold download. follows_tac. Qed.

Lemma run_kept argv stdin_data : follows (target_kept localpath) (run argv stdin_data).
Proof.
  intros st. apply target_kept_same.
  - exact (run_keeps _ argv stdin_data st localpath target_file_kept eq_refl).
  - destruct (run_spec argv stdin_data st) as (st' & -> & _ & Hc & _). exact Hc.
Qed.

Hint Resolve download_kept run_kept : follows.

Lemma safeget_run_kept argv stdin_data :
  follows (target_kept localpath) (safeget_run argv stdin_data).
Proof. unfold safeget_run. follows_tac. Qed.

Lemma hash_algorithms_kept : follows (target_kept localpath) hash_algorithms.
Proof. unfold hash_algorithms. follows_tac. Qed.

Lemma hash_data_kept algo : follows (target_kept localpath) (hash_data algo localpath).
Proof.
  intros st. split.
  - now rewrite (proj1 (hash_data_spec algo localpath st)).
  - intros algo' digest H.
    apply hash_data_cache in H as [H|[Hkey Hd]]; [left; exact H|right].
    apply append_cancel_r in Hkey. subst algo'. exact Hd.
Qed.

Hint Resolve safeget_run_kept hash_algorithms_kept hash_data_kept : follows.

Lemma hash_failed_kept a b c : follows (target_kept localpath) (hash_failed a b c).
Proof. unfold hash_failed. follows_tac. Qed.

Hint Resolve hash_failed_kept : follows.

Lemma search_for_hash_kept file algo content :
  follows (target_kept localpath) (search_for_hash localpath file algo content).
Proof. unfold search_for_hash. follows_tac. Qed.

Lemma compare_hashes_kept a b c : follows (target_kept localpath) (compare_hashes a b c).
Proof. unfold compare_hashes. follows_tac. Qed.

Lemma clean_gpg_data_kept path :
  is_tmp path = true -> follows (target_kept localpath) (clean_gpg_data path).
Proof. intros H. unfold clean_gpg_data. follows_tac. Qed.

Hint Resolve search_for_hash_kept compare_hashes_kept clean_gpg_data_kept : follows.

Lemma extract_patterns_kept pattern path :
  follows (target_kept localpath) (extract_patterns pattern path).
Proof. unfold extract_patterns. frame_tac. Qed.

Hint Resolve extract_patterns_kept : follows.

Lemma save_patterns_source_kept pattern acc source :
  follows (target_kept localpath) (save_patterns_source pattern acc source).
Proof. unfold save_patterns_source. frame_tac. Qed.

Hint Resolve save_patterns_source_kept : follows.

Lemma save_patterns_kept pattern sources :
  follows (target_kept localpath) (save_patterns pattern sources).
Proof. unfold save_patterns. follows_tac. Qed.

Lemma remove_online_kept online :
  Forall (fun path => is_tmp path = true) online ->
  follows (target_kept localpath) (remove_online online).
Proof. intros H. unfold remove_online. frame_tac. Qed.

Hint Resolve save_patterns_kept remove_online_kept : follows.

Lemma verify_signed_message_path_kept verified path :
  is_tmp path = true ->
  follows (target_kept localpath) (verify_signed_message_path verified path).
Proof. intros H. unfold verify_signed_message_path. follows_tac. Qed.

Hint Resolve verify_signed_message_path_kept : follows.

Lemma verify_signed_messages_kept source :
  follows (target_kept localpath) (verify_signed_messages source).
Proof. unfold verify_signed_messages. frame_tac. Qed.

Lemma check_signed_hash_file_kept file algo :
  is_tmp file = true ->
  follows (target_kept localpath) (check_signed_hash_file localpath file algo).
Proof. intros H. unfold check_signed_hash_file. follows_tac. Qed.

Hint Resolve verify_signed_messages_kept check_signed_hash_file_kept : follows.

Lemma match_signed_hash_file_kept algo matched file :
  is_tmp file = true ->
  follows (target_kept localpath) (match_signed_hash_file localpath algo matched file).
Proof. intros H. unfold match_signed_hash_file. follows_tac. Qed.

Hint Resolve match_signed_hash_file_kept : follows.

Lemma verify_signed_hash_arg_kept algos matched entry :
  follows (target_kept localpath) (verify_signed_hash_arg localpath algos matched entry).
Proof. unfold verify_signed_hash_arg. frame_tac. Qed.

Hint Resolve verify_signed_hash_arg_kept : follows.

Lemma verify_signed_hashes_kept :
  follows (target_kept localpath) (verify_signed_hashes localpath).
Proof. unfold verify_signed_hashes. follows_tac. Qed.

Lemma verify_explicit_hash_arg_kept algos actual_hash entry :
  follows (target_kept localpath)
          (verify_explicit_hash_arg localpath algos actual_hash entry).
Proof. unfold verify_explicit_hash_arg. frame_tac. Qed.

Hint Resolve verify_explicit_hash_arg_kept : follows.

Lemma verify_explicit_hashes_kept :
  follows (target_kept localpath) (verify_explicit_hashes localpath).
Proof. unfold verify_explicit_hashes. follows_tac. Qed.

Lemma import_pubkey_kept keypath :
  is_tmp keypath = true -> follows (target_kept localpath) (import_pubkey keypath).
Proof. intros H. unfold import_pubkey. follows_tac. Qed.

Lemma verify_signature_path_kept sigpath :
  is_tmp sigpath = true ->
  follows (target_kept localpath) (verify_signature_path localpath sigpath).
Proof. intros H. unfold verify_signature_path. follows_tac. Qed.

Hint Resolve import_pubkey_kept verify_signature_path_kept : follows.

Lemma get_pubkeys_kept : follows (target_kept localpath) get_pubkeys.
Proof. unfold get_pubkeys. frame_tac. Qed.

Lemma verify_signatures_kept :
  follows (target_kept localpath) (verify_signatures localpath).
Proof. unfold verify_signatures. frame_tac. Qed.

Lemma verify_size_kept : follows (target_kept localpath) (verify_size localpath).
Proof. unfold verify_size. follows_tac. Qed.

Hint Resolve get_pubkeys_kept verify_signatures_kept verify_signed_hashes_kept
  verify_explicit_hashes_kept verify_size_kept : follows.

(** verify_file leaves the target alone, and caches for it only digests of
    what it holds *)
Lemma verify_file_kept : follows (target_kept localpath) (verify_file localpath).
Proof. unfold verify_file. follows_tac. Qed.

(** what is cached for the target after a step that keeps it, from a cache
    that was sound, is a digest of the target *)
Lemma cache_sound_kept st st' algo digest :
  cache_sound localpath st -> target_kept localpath st st' ->
  localpath_hash_cache st' !! (algo +:+ ":" +:+ localpath) = Some digest ->
  target_digest localpath st algo digest.
Proof.
  intros Hs [_ Hc] H. destruct (Hc _ _ H) as [H0|Hd]; [exact (Hs _ _ H0)|exact Hd].
Qed.

(** *** The signed-hash tier: what gpg verified and what is searched *)

Lemma verify_signed_message_path_only_cleans verified path :
  follows only_cleans (verify_signed_message_path verified path).
Proof. unfold verify_signed_message_path. follows_tac. Qed.

Lemma verify_signed_message_path_step s0 verified path s verified' s' :
  extends s0 s -> is_tmp path = true ->
  Forall (verified_file s0 s) verified ->
  verify_signed_message_path verified path s = (Return verified', s') ->
  Forall (verified_file s0 s') verified'.
Proof.
  intros He0 Htmp Hold Hrun.
  assert (He : extends s s')
    by exact (follows_run _ _ _ _ _ (verify_signed_message_path_extends verified path) Hrun).
  assert (Hc : only_cleans s s')
    by exact (follows_run _ _ _ _ _
                (verify_signed_message_path_only_cleans verified path) Hrun).
  assert (Hold' : Forall (verified_file s0 s') verified).
  { eapply Forall_impl; [exact Hold|].
    intros p Hp. eapply verified_file_later; eauto. }
  revert Hrun. unfold verify_signed_message_path. unfold bind at 1.
  destruct (clean_gpg_data path s) as [[ok|e] s1] eqn:Hclean; [|discriminate].
  destruct (clean_gpg_data_returns _ _ _ _ Hclean) as (data & Hdata & Hfs).
  assert (He1 : extends s s1)
    by exact (follows_run _ _ _ _ _ (clean_gpg_data_extends path) Hclean).
  destruct ok; [|unfold ret; intros [= <- <-]; exact Hold'].
  unfold bind at 1. rewrite read_bytes_eq, Hfs, lookup_insert_eq.
  unfold bind at 1, get, try_except. unfold bind at 1.
  destruct (safeget_run [gpg_path s1; "--verify"] (Some (renormalized data)) s1)
    as [[[]|e] s2] eqn:Hgpg.
  - destruct (safeget_run_returns _ _ _ _ Hgpg) as (Hsp & out & err & files' & Hp & Hfs2).
    destruct (prints_verbose ("verified pgp signed message: " +:+ path) s2) as [o Ho].
    rewrite (bind_return _ _ _ _ _ Ho). unfold ret. intros [= <- <-].
    apply Forall_app. split; [exact Hold'|].
    apply Forall_cons. split; [|constructor].
    split; [exact Htmp|].
    exists (renormalized data). split.
    + exists (spawned s1), (fs s1), out, err, files'. split.
      * cbn [spawned set_stdout]. rewrite Hsp.
        pose proof (ext_spawned _ _ He0). pose proof (ext_spawned _ _ He1). lia.
      * rewrite <- (ext_gpg_path _ _ He0), <- (ext_gpg_path _ _ He1). exact Hp.
    + intros d Hd. cbn [fs set_stdout] in Hd.
      rewrite Hfs2 in Hd.
      rewrite (tmp_files_kept _ _ _ _ _ _ _ _ Hp path Htmp) in Hd.
      rewrite Hfs, lookup_insert_eq in Hd. injection Hd as <-.
      exists 0%nat. reflexivity.
  - destruct e; try discriminate;
      match goal with
      | |- context [debug ?m] =>
          destruct (prints_debug m s2) as [o1 Ho1];
          rewrite (bind_return _ _ _ _ _ Ho1)
      end;
      match goal with
      | |- context [debug ?m] =>
          destruct (prints_debug m (set_stdout (fun _ => o1) s2)) as [o2 Ho2];
          rewrite (bind_return _ _ _ _ _ Ho2)
      end;
      unfold ret; intros [= <- <-]; exact Hold'.
Qed.

(** every path verify_signed_messages returns is a temporary file on which
    gpg --verify succeeded *)
Lemma verify_signed_messages_verified source st files st' :
  verify_signed_messages source st = (Return files, st') ->
  Forall (verified_file st st') files.
Proof.
  unfold verify_signed_messages.
  destruct (prints_verbose ("verify signed message at " +:+ source) st) as [o Ho].
  rewrite (bind_return _ _ _ _ _ Ho).
  set (s1 := set_stdout (fun _ => o) st).
  assert (H01 : extends st s1) by (split; auto).
  unfold bind at 1.
  destruct (save_patterns SIGNED_MESSAGE_PATTERN [source] s1)
    as [[[paths online]|e] s2] eqn:Hsave; [|discriminate].
  assert (H12 : extends s1 s2)
    by exact (follows_run _ _ _ _ _ (save_patterns_extends _ _) Hsave).
  destruct (save_patterns_tmp _ _ _ _ _ Hsave) as [Hpaths Honline].
  cbn [fst snd] in Hpaths, Honline. rewrite Forall_forall in Hpaths.
  unfold bind at 1.
  destruct (for_fold verify_signed_message_path paths [] s2)
    as [[verified|e] s3] eqn:Hloop; [|discriminate].
  assert (H02 : extends st s2) by (etransitivity; eauto).
  assert (Hinv : extends st s3 /\ Forall (verified_file st s3) verified).
  { apply (for_fold_invariant
             (fun b s => extends st s /\ Forall (verified_file st s) b)
             verify_signed_message_path paths) with (b := []) (st := s2);
      [|split; [exact H02|constructor]|exact Hloop].
    intros b x sa b' sb Hx [Hea Hva] Hstep. split.
    - etransitivity; [exact Hea|].
      exact (follows_run _ _ _ _ _ (verify_signed_message_path_extends b x) Hstep).
    - eapply verify_signed_message_path_step; eauto. }
  destruct Hinv as [H03 Hver].
  unfold bind at 1.
  destruct (remove_online online s3) as [[[]|e] s4] eqn:Hrm; [|discriminate].
  unfold ret. intros [= <- <-].
  eapply Forall_impl; [exact Hver|].
  intros p Hp. eapply verified_file_later; [| |exact Hp].
  - exact (follows_run _ _ _ _ _ (remove_online_extends online) Hrm).
  - exact (follows_run _ _ _ _ _ (remove_online_only_cleans online) Hrm).
Qed.

(** X19: every path that verify_signed_messages returns is a temporary file
    whose content a run of gpg --verify started during the call accepted
    (exit status 0) as a signed message; the file, if it is still there,
    holds that message, renormalized if clean_gpg_data went over it
    again. *)
Theorem verify_signed_messages_only_accepted (source : string) (st : state)
    (files : list string) (st' : state) :
  verify_signed_messages source st = (Return files, st') ->
  forall path, path ∈ files -> verified_file st st' path.
Proof.
  intros Hrun path Hin.
  pose proof (verify_signed_messages_verified _ _ _ _ Hrun) as Hall.
  rewrite Forall_forall in Hall. apply Hall, Hin.
Qed.

Lemma match_signed_hash_file_step target algo s0 files matched m file sx m' sx' :
  file ∈ files ->
  Forall (verified_file s0 sx) files /\
  (matched = true -> m = true) /\
  (m = true -> matched = true \/ digest_found target algo s0 sx) ->
  match_signed_hash_file target algo m file sx = (Return m', sx') ->
  Forall (verified_file s0 sx') files /\
  (matched = true -> m' = true) /\
  (m' = true -> matched = true \/ digest_found target algo s0 sx').
Proof.
  intros Hin (Hver & Hsticky & Hfound). unfold match_signed_hash_file.
  destruct m; simpl.
  - unfold ret. intros [= <- <-]. auto.
  - intros Hcheck.
    assert (He : extends sx sx')
      by exact (follows_run _ _ _ _ _ (check_signed_hash_file_extends target file algo)
                  Hcheck).
    assert (Hc : only_cleans sx sx')
      by exact (follows_run _ _ _ _ _
                  (check_signed_hash_file_only_cleans target file algo) Hcheck).
    split; [|split].
    + eapply Forall_impl; [exact Hver|].
      intros p Hp. eapply verified_file_later; eauto.
    + intros Hm. specialize (Hsticky Hm). discriminate.
    + intros ->. right.
      destruct (check_signed_hash_file_matched _ _ _ _ _ Hcheck)
        as (data & text & digest & Hdata & Hdec & Hcache & Hcontains).
      rewrite Forall_forall in Hver.
      destruct (Hver file Hin) as (_ & msg & Hacc & Hcontent).
      destruct (Hcontent data Hdata) as [k ->].
      exists msg, k, text, digest. split; [|auto].
      eapply accepted_wider; [| |exact Hacc]; [lia|apply He].
Qed.

Lemma verify_signed_hash_arg_step target algos matched entry s b s' :
  verify_signed_hash_arg target algos matched entry s = (Return b, s') ->
  (matched = true -> b = true) /\
  (b = true -> matched = true \/ signed_hash_evidence target s s' entry).
Proof.
  unfold verify_signed_hash_arg. unfold bind at 1.
  destruct (parse_hash_pure entry s) as [Hsnd Hfst].
  destruct (parse_hash entry s) as [[[algo source]|e] s1] eqn:Hparse; [|discriminate].
  simpl in Hsnd. subst s1.
  assert (Hpure : forall st, parse_hash entry st = (Return (algo, source), st)).
  { intros st. destruct (parse_hash_pure entry st) as [H1 _].
    specialize (Hfst st). simpl in Hfst.
    destruct (parse_hash entry st). simpl in *. congruence. }
  unfold bind at 1.
  destruct (negb (bool_decide (algo ∈ algos))); [discriminate|].
  unfold ret at 1. unfold bind at 1.
  destruct (verify_signed_messages source s) as [[files|e] s2] eqn:Hmsgs; [|discriminate].
  pose proof (verify_signed_messages_verified _ _ _ _ Hmsgs) as Hver.
  destruct (prints_debug (PyStr.of_nat (List.length files) +:+ " signed data files") s2)
    as [o Ho].
  rewrite (bind_return _ _ _ _ _ Ho).
  set (s3 := set_stdout (fun _ => o) s2).
  intros Hloop.
  assert (Hinv :
    Forall (verified_file s s') files /\
    (matched = true -> b = true) /\
    (b = true -> matched = true \/ digest_found target algo s s')).
  { apply (for_fold_invariant
             (fun m sx =>
                Forall (verified_file s sx) files /\
                (matched = true -> m = true) /\
                (m = true -> matched = true \/ digest_found target algo s sx))
             (match_signed_hash_file target algo) files)
      with (b := matched) (st := s3); [| |exact Hloop].
    - intros m x sa m' sb Hx Hinv Hstep.
      eapply match_signed_hash_file_step; eauto.
    - split; [|split; auto].
      eapply Forall_impl; [exact Hver|].
      intros p Hp. eapply verified_file_later; [| |exact Hp].
      + subst s3. split; auto.
      + apply only_cleans_set_stdout. }
  destruct Hinv as (_ & Hsticky & Hfound).
  split; [exact Hsticky|].
  intros Hb. destruct (Hfound Hb) as [Hm|Hd]; [left; exact Hm|].
  right. exists algo, source. auto.
Qed.

(** when verify_signed_hashes returns, an entry has its digest, as cached,
    in the text of a signed message that gpg accepted *)
Lemma verify_signed_hashes_evidence (target : string) (st st' : state) :
  args_signedhash <> [] ->
  verify_signed_hashes target st = (Return tt, st') ->
  exists entry,
    entry ∈ args_signedhash /\ signed_hash_evidence target st st' entry.
Proof.
  intros Hne. unfold verify_signed_hashes. unfold bind at 1.
  destruct (hash_algorithms st) as [[algos|e] s1] eqn:Halgos; [|discriminate].
  assert (H01 : extends st s1) by exact (follows_run _ _ _ _ _ hash_algorithms_extends Halgos).
  destruct args_signedhash as [|e0 l0] eqn:Hlist; [congruence|].
  rewrite <- Hlist.
  destruct (prints_verbose "verify target file matches signed hashes" s1) as [o Ho].
  rewrite (bind_return _ _ _ _ _ Ho).
  set (s2 := set_stdout (fun _ => o) s1).
  assert (H02 : extends st s2).
  { etransitivity; [exact H01|]. subst s2. split; auto. }
  unfold bind at 1.
  destruct (for_fold (verify_signed_hash_arg target algos) args_signedhash false s2)
    as [[matched|e] s3] eqn:Hloop; [|discriminate].
  destruct matched; simpl; [|discriminate].
  unfold ret. intros [= <-].
  assert (Hinv :
    extends st s3 /\
    (true = true ->
     exists entry, entry ∈ args_signedhash /\ signed_hash_evidence target st s3 entry)).
  { apply (for_fold_invariant
             (fun m sx =>
                extends st sx /\
                (m = true ->
                 exists entry,
                   entry ∈ args_signedhash /\
                   signed_hash_evidence target st sx entry))
             (verify_signed_hash_arg target algos) args_signedhash)
      with (b := false) (st := s2); [|split; [exact H02|discriminate]|exact Hloop].
    intros m x sa m' sb Hx [Hea Hev] Hstep.
    assert (Hab : extends sa sb)
      by exact (follows_run _ _ _ _ _
                  (verify_signed_hash_arg_extends target algos m x) Hstep).
    split; [etransitivity; eauto|].
    intros Hm'.
    destruct (verify_signed_hash_arg_step _ _ _ _ _ _ _ Hstep) as [_ Hfound].
    destruct (Hfound Hm') as [Hm|(algo & source & Hparse & Hd)].
    - destruct (Hev Hm) as (entry & Hin & algo & source & Hparse & Hd).
      exists entry. split; [exact Hin|]. exists algo, source.
      split; [exact Hparse|]. eapply digest_found_later; eauto.
    - exists x. split; [exact Hx|]. exists algo, source.
      split; [exact Hparse|]. eapply digest_found_earlier; eauto. }
  destruct Hinv as [_ Hev]. exact (Hev eq_refl).
Qed.

(** the digest that was found is the digest of the target *)
Lemma signed_hash_evidence_of_target (st s st' : state) (entry : string) :
  cache_sound localpath st -> target_kept localpath st st' ->
  signed_hash_evidence localpath st st' entry ->
  signed_digest_of_target localpath st st' entry.
Proof.
  intros Hsound Hkept (algo & source & Hparse & msg & k & text & digest &
                       Hacc & Hdec & Hcache & Hin).
  exists algo, source, msg, k, text, digest.
  split; [exact Hparse|]. split; [exact Hacc|]. split; [exact Hdec|].
  split; [|exact Hin].
  exact (cache_sound_kept _ _ _ _ Hsound Hkept Hcache).
Qed.



(** *** The explicit-hash tier *)

(** the digest that an entry of --hash was compared with is the digest of
    the target *)
Lemma explicit_hash_matched_of_target (st st' : state) (entry : string) :
  cache_sound localpath st -> target_kept localpath st st' ->
  explicit_hash_matched localpath st st' entry ->
  hash_entry_of_target localpath st st' entry.
Proof.
  intros Hsound Hkept (algo & value & digest & Hparse & Hcache & Hmatch).
  exists algo, value, digest. split; [exact Hparse|].
  split; [|exact Hmatch].
  exact (cache_sound_kept _ _ _ _ Hsound Hkept Hcache).
Qed.

Lemma verify_explicit_hashes_matched (target : string) (st st' : state) :
  verify_explicit_hashes target st = (Return tt, st') ->
  forall entry, entry ∈ args_hash -> explicit_hash_matched target st st' entry.
Proof.
  unfold verify_explicit_hashes. unfold bind at 1.
  destruct (hash_algorithms st) as [[algos|e] s1] eqn:Halgos; [|discriminate].
  assert (H01 : extends st s1) by exact (follows_run _ _ _ _ _ hash_algorithms_extends Halgos).
  destruct args_hash as [|e0 l0] eqn:Hlist.
  { intros _ entry Hin. inversion Hin. }
  rewrite <- Hlist.
  destruct (prints_verbose "verify data file matches explicit hashes" s1) as [o Ho].
  rewrite (bind_return _ _ _ _ _ Ho).
  set (s2 := set_stdout (fun _ => o) s1).
  assert (H02 : extends st s2).
  { etransitivity; [exact H01|]. subst s2. split; auto. }
  unfold bind at 1.
  destruct (for_fold (verify_explicit_hash_arg target algos) args_hash None s2)
    as [[ah|e] s3] eqn:Hloop; [|discriminate].
  unfold ret. intros [= <-] entry Hin.
  destruct (for_fold_each extends _ _ (verify_explicit_hash_arg_extends target algos)
              _ _ _ _ Hloop entry Hin)
    as (b1 & sa & b2 & sb & Ha & Hbody & Hb).
  eapply explicit_hash_matched_wider;
    [etransitivity; [exact H02|exact Ha]|exact Hb|].
  eapply verify_explicit_hash_arg_returns, Hbody.
Qed.

(** the loop of verify_explicit_hashes up to an entry keeps the target *)
Lemma verify_explicit_hashes_prefix_kept (st : state) algos s1 pre actual_hash s :
  hash_algorithms st = (Return algos, s1) ->
  for_fold (verify_explicit_hash_arg localpath algos) pre None
           (snd (verbose "verify data file matches explicit hashes" s1))
  = (Return actual_hash, s) ->
  target_kept localpath st s.
Proof.
  intros Halgos Hpre.
  transitivity s1; [exact (follows_run _ _ _ _ _ hash_algorithms_kept Halgos)|].
  transitivity (snd (verbose "verify data file matches explicit hashes" s1));
    [apply verbose_kept|].
  refine (follows_run _ _ _ _ _ _ Hpre).
  apply follows_for_fold; [exact _|]. intros b x. apply verify_explicit_hash_arg_kept.
Qed.



(** *** What a run of verify_file that returns has checked *)

Lemma verify_size_returns (path : string) (st st' : state) (text : string) :
  args_size = Some text -> text <> EmptyString ->
  verify_size path st = (Return tt, st') ->
  fs st' = fs st /\
  exists data,
    fs st !! path = Some data /\
    int_of_str (PyStr.replace "," EmptyString text)
    = Some (Z.of_nat (String.length data)).
Proof.
  intros Hsize Hne. unfold verify_size. rewrite Hsize.
  rewrite (proj2 (String.eqb_neq text EmptyString) Hne).
  destruct (prints_verbose "verify file size" st) as [o Ho].
  rewrite (bind_return _ _ _ _ _ Ho).
  destruct (int_of_str (PyStr.replace "," EmptyString text)) as [size|]; [|discriminate].
  unfold getsize. unfold bind at 1. unfold bind at 1. unfold get at 1.
  cbn [fs set_stdout].
  destruct (fs st !! path) as [data|] eqn:Hdata; [|discriminate].
  unfold ret at 1.
  destruct (Z.eqb_spec (Z.of_nat (String.length data)) size) as [<-|]; [|discriminate].
  destruct (prints_debug "verified file size" (set_stdout (fun _ => o) st)) as [o' Ho'].
  rewrite Ho'. intros [= <-]. split; [reflexivity|].
  exists data. split; reflexivity.
Qed.

Lemma verify_file_checked (st st' : state) :
  cache_sound localpath st ->
  verify_file localpath st = (Return tt, st') ->
  (forall entry, entry ∈ args_hash ->
                 hash_entry_of_target localpath st st' entry) /\
  (args_signedhash <> [] ->
   exists entry,
     entry ∈ args_signedhash /\ signed_digest_of_target localpath st st' entry) /\
  (forall text,
      args_size = Some text -> text <> EmptyString ->
      exists data,
        fs st !! localpath = Some data /\ fs st' !! localpath = Some data /\
        int_of_str (PyStr.replace "," EmptyString text)
        = Some (Z.of_nat (String.length data))).
Proof.
  intros Hsound H.
  assert (Hkept : target_kept localpath st st')
    by exact (follows_run _ _ _ _ _ verify_file_kept H).
  unfold verify_file in H.
  apply bind_inv in H as ([] & s1 & H1 & H).
  apply bind_inv in H as ([] & s2 & H2 & H).
  apply bind_inv in H as ([] & s3 & H3 & H).
  apply bind_inv in H as ([] & s4 & H4 & H).
  apply bind_inv in H as ([] & s5 & H5 & H).
  apply bind_inv in H as ([] & s6 & H6 & H).
  apply bind_inv in H as ([] & s7 & H7 & H).
  assert (E1 : extends st s1) by exact (follows_run _ _ _ _ _ (notice_extends _) H1).
  assert (E2 : extends s1 s2) by exact (follows_run _ _ _ _ _ (verbose_extends _) H2).
  assert (E3 : extends s2 s3).
  { refine (follows_run _ _ _ _ _ _ H3).
    destruct args_signedmsg, args_signedhash, args_sig; follows_tac. }
  assert (E4 : extends s3 s4)
    by exact (follows_run _ _ _ _ _ (verify_signatures_extends _) H4).
  assert (E5 : extends s4 s5)
    by exact (follows_run _ _ _ _ _ (verify_signed_hashes_extends _) H5).
  assert (E6 : extends s5 s6)
    by exact (follows_run _ _ _ _ _ (verify_explicit_hashes_extends _) H6).
  assert (E7 : extends s6 s7)
    by exact (follows_run _ _ _ _ _ (verify_size_extends _) H7).
  assert (E8 : extends s7 st' /\ fs st' = fs s7).
  { destruct args_after, args_run; unfold notice, print, modify in H;
      injection H as <-; split; try reflexivity; split; auto. }
  destruct E8 as [E8 Hfs].
  assert (E04 : extends st s4).
  { transitivity s1; [exact E1|]. transitivity s2; [exact E2|].
    transitivity s3; [exact E3|exact E4]. }
  assert (E05 : extends st s5) by (transitivity s4; assumption).
  assert (E68 : extends s6 st') by (transitivity s7; assumption).
  assert (E58 : extends s5 st') by (transitivity s6; assumption).
  split; [|split].
  - intros entry Hin.
    apply (explicit_hash_matched_of_target st st' entry Hsound Hkept).
    eapply explicit_hash_matched_wider; [exact E05|exact E68|].
    eapply verify_explicit_hashes_matched; eassumption.
  - intros Hne.
    destruct (verify_signed_hashes_evidence _ _ _ Hne H5)
      as (entry & Hin & algo & source & Hparse & Hd).
    exists entry. split; [exact Hin|].
    apply (signed_hash_evidence_of_target st st st' entry Hsound Hkept).
    exists algo, source. split; [exact Hparse|].
    eapply digest_found_later; [exact E58|].
    eapply digest_found_earlier; [exact E04|exact Hd].
  - intros text Hsize Hne.
    destruct (verify_size_returns _ _ _ _ Hsize Hne H7) as (Hfs7 & data & Hdata & Hint).
    assert (Hend : fs st' !! localpath = Some data) by (rewrite Hfs, Hfs7; exact Hdata).
    exists data. split; [|split; [exact Hend|exact Hint]].
    rewrite <- (proj1 Hkept). exact Hend.
Qed.

(** X17: what verify_file has checked when it returns, for a target that is
    not a temporary file, subprocesses that leave it and the temporary files
    alone, and a cache that holds only digests of the target.  Every entry
    of --hash matched the digest of the target; if --signedhash was given,
    some entry of it has a signed message that gpg accepted during the run
    and whose text, as clean_gpg_data renormalized it again before the
    search, holds the digest of the target; and if --size was given, the
    target has exactly that many bytes (commas in the number ignored),
    before and after the run. *)
Theorem verify_file_sound (st st' : state) :
  cache_sound localpath st ->
  verify_file localpath st = (Return tt, st') ->
  (forall entry, entry ∈ args_hash ->
                 hash_entry_of_target localpath st st' entry) /\
  (args_signedhash <> [] ->
   exists entry,
     entry ∈ args_signedhash /\ signed_digest_of_target localpath st st' entry) /\
  (forall text,
      args_size = Some text -> text <> EmptyString ->
      exists data,
        fs st !! localpath = Some data /\ fs st' !! localpath = Some data /\
        int_of_str (PyStr.replace "," EmptyString text)
        = Some (Z.of_nat (String.length data))).
Proof. exact (verify_file_checked st st'). Qed.


End Target.

(** *** A run of start_safeget that ends normally *)

#[export] Instance same_cache_preorder : PreOrder same_cache.
Proof.
  split.
  - intros s. reflexivity.
  - intros s1 s2 s3 H12 H23. unfold same_cache in *. congruence.
Qed.

Hint Extern 1 (same_cache _ _) => exact eq_refl : follows.

Lemma print_same_cache msg : follows same_cache (print msg).
Proof. unfold print. follows_tac. Qed.

Lemma notice_same_cache msg : follows same_cache (notice msg).
Proof. unfold notice. follows_tac. Qed.

Hint Resolve print_same_cache notice_same_cache : follows.

Lemma verbose_same_cache msg : follows same_cache (verbose msg).
Proof. unfold verbose. follows_tac. Qed.

Lemma debug_same_cache msg : follows same_cache (debug msg).
Proof. unfold debug. follows_tac. Qed.

Lemma warn_same_cache msg : follows same_cache (warn msg).
Proof. unfold warn. follows_tac. Qed.

Lemma exists_same_cache path : follows same_cache (exists_ path).
Proof. unfold exists_. follows_tac. Qed.

Lemma write_bytes_same_cache path data : follows same_cache (write_bytes path data).
Proof. unfold write_bytes. follows_tac. Qed.

Hint Resolve verbose_same_cache debug_same_cache warn_same_cache exists_same_cache
  write_bytes_same_cache : follows.

Lemma verify_source_same_cache source : follows same_cache (verify_source source).
Proof.
  intros st. unfold same_cache, verify_source. unfold_m.
  destruct (is_url source).
  - unfold urlparse_parts.
    destruct (urlparse source) as [scheme netloc|msg] eqn:Hparse; [|reflexivity].
    unfold ret at 1. cbn [fst snd].
    destruct (bool_decide (scheme ∈ SAFE_PROTOCOLS)); simpl; [|reflexivity].
    rewrite parse_host_eq, Hparse.
    repeat (case_match; simpl in *; simplify_eq); reflexivity.
  - destruct (target_host st) eqn:E; reflexivity.
Qed.

Lemma input_same_cache prompt : follows same_cache (input prompt).
Proof. unfold input. follows_tac. Qed.

Hint Resolve verify_source_same_cache input_same_cache : follows.

Lemma ok_to_write_same_cache path : follows same_cache (ok_to_write path).
Proof. unfold ok_to_write. follows_tac. Qed.

Lemma download_url_same_cache url path : follows same_cache (download_url url path).
Proof. unfold download_url. follows_tac. Qed.

Lemma get_details_for_failure_same_cache url attempts reason :
  follows same_cache (get_details_for_failure url attempts reason).
Proof. unfold get_details_for_failure. follows_tac. Qed.

Hint Resolve ok_to_write_same_cache download_url_same_cache
  get_details_for_failure_same_cache : follows.

Lemma download_loop_same_cache url path n :
  forall ok reason attempts,
    follows same_cache (download_loop n url path ok reason attempts).
Proof. induction n as [|n IH]; intros; simpl; follows_tac. Qed.

Hint Resolve download_loop_same_cache : follows.

Lemma download_same_cache url path : follows same_cache (download url path).
Proof. unfold download. follows_tac. Qed.

Lemma verify_args_same_cache : follows same_cache verify_args.
Proof. unfold verify_args. follows_tac. Qed.

Hint Resolve download_same_cache verify_args_same_cache : follows.

(** up to the call of verify_file only the collaborators could touch the
    cache of digests *)
Lemma obtain_local_target_same_cache :
  follows same_cache install_dependencies ->
  follows same_cache verify_safeget_itself ->
  follows same_cache obtain_local_target.
Proof. intros H1 H2. unfold obtain_local_target. follows_tac. Qed.

Lemma verify_args_returns (st st' : state) :
  verify_args st = (Return tt, st') -> options_ok = true.
Proof.
  unfold options_ok, verify_args, truthy.
  destruct (nonempty args_sig), (nonempty args_signedhash), (nonempty args_hash),
    (nonempty args_pubkey), (nonempty args_signedmsg);
    cbn [orb andb negb];
    rewrite ?andb_false_r; unfold fail, bind, raise, ret; cbn iota beta;
    intros H; try reflexivity; discriminate H.
Qed.

(** the local target that the run obtains is a file, and is the one that
    the options name *)
Lemma obtain_local_target_returns (st : state) (lt : string) (s : state) :
  obtain_local_target st = (Return lt, s) ->
  options_ok = true /\ lt = local_target_of_args /\ is_Some (fs s !! lt).
Proof.
  unfold obtain_local_target. intros H.
  apply bind_inv in H as ([] & s1 & Hargs & H).
  apply bind_inv in H as ([] & s2 & _ & H).
  apply bind_inv in H as ([] & s3 & _ & H).
  apply bind_inv in H as ([] & s4 & _ & Htarget).
  split; [exact (verify_args_returns _ _ Hargs)|].
  unfold local_target_of_args.
  destruct (is_url args_target).
  - apply bind_inv in Htarget as ([] & t1 & _ & H).
    apply bind_inv in H as (t2 & t3 & Hget & H).
    unfold get in Hget. injection Hget as <- <-.
    apply bind_inv in H as (present & t4 & Hpresent & H).
    unfold exists_, bind, get, ret in Hpresent. injection Hpresent as <- <-.
    apply bind_inv in H as ([] & t5 & Hdl & H).
    unfold ret in H. injection H as <- <-.
    split; [reflexivity|].
    destruct (testing t1 && bool_decide (is_Some (fs t1 !! PyStr.basename args_target)))
      eqn:Hskip.
    + unfold ret in Hdl. injection Hdl as <-.
      apply andb_true_iff in Hskip as [_ Hp].
      now apply bool_decide_eq_true in Hp.
    + destruct (download_returns _ _ _ _ Hdl) as (i & data & _ & _ & Hfile).
      rewrite Hfile. eauto.
  - apply bind_inv in Htarget as (present & t1 & Hpresent & H).
    unfold exists_, bind, get, ret in Hpresent. injection Hpresent as <- <-.
    destruct (bool_decide (is_Some (fs s4 !! args_target))) eqn:Hp.
    2:{ cbn [negb] in H. unfold fail, raise, bind in H. discriminate. }
    cbn [negb] in H. unfold bind, ret in H. injection H as <- <-.
    split; [reflexivity|].
    now apply bool_decide_eq_true in Hp.
Qed.

(** a run that ends normally went through its three parts *)
Lemma start_safeget_returns (st st' : state) :
  start_safeget st = (Return tt, st') ->
  exists lt s s',
    obtain_local_target st = (Return lt, s) /\
    verify_file lt s = (Return tt, s') /\
    finish_run s' = (Return tt, st').
Proof.
  unfold start_safeget, try_except.
  match goal with
  | |- (match ?body st with _ => _ end) = _ -> _ =>
      destruct (body st) as [[[]|e] s9] eqn:Hbody
  end.
  2:{ destruct e; try discriminate.
      destruct args_debug; [discriminate|].
      unfold_m. discriminate. }
  intros [= <-].
  apply bind_inv in Hbody as ([] & s1 & H1 & H).
  apply bind_inv in H as ([] & s2 & H2 & H).
  apply bind_inv in H as ([] & s3 & H3 & H).
  apply bind_inv in H as ([] & s4 & H4 & H).
  apply bind_inv in H as (lt & s5 & H5 & H).
  apply bind_inv in H as ([] & s6 & H6 & H).
  exists lt, s5, s6. split; [|split; [exact H6|exact H]].
  unfold obtain_local_target.
  rewrite (bind_return _ _ _ _ _ H1).
  rewrite (bind_return _ _ _ _ _ H2).
  rewrite (bind_return _ _ _ _ _ H3).
  rewrite (bind_return _ _ _ _ _ H4).
  exact H5.
Qed.

(** X23: start_safeget ends normally only after verification.  If the run
    returns, then the options passed the checks of verify_args, the first
    part of the run obtained the local target, which was a file at that
    point, verify_file was called on it in the state that part left and
    returned, and the rest of the run started in the state verify_file
    left.  If moreover no digest was cached for the target when the run
    began, the installation of dependencies and the check of safeget itself
    leave the cache alone, the target is not a temporary file and the
    subprocesses leave it and the temporary files alone, then every entry
    of --hash matched the digest of the target, and if --signedhash was
    given some entry of it has a signed message that gpg accepted and whose
    text, renormalized again before the search, holds that digest. *)
Theorem start_safeget_returns_verified (st st' : state) :
  start_safeget st = (Return tt, st') ->
  options_ok = true /\
  exists s s',
    obtain_local_target st = (Return local_target_of_args, s) /\
    is_Some (fs s !! local_target_of_args) /\
    verify_file local_target_of_args s = (Return tt, s') /\
    finish_run s' = (Return tt, st') /\
    (uncached local_target_of_args st ->
     follows same_cache install_dependencies ->
     follows same_cache verify_safeget_itself ->
     is_tmp local_target_of_args = false ->
     subprocesses_keep (fun path => is_tmp path = true) ->
     subprocesses_keep (fun path => path = local_target_of_args) ->
     (forall entry,
         entry ∈ args_hash ->
         hash_entry_of_target local_target_of_args s s' entry) /\
     (args_signedhash <> [] ->
      exists entry,
        entry ∈ args_signedhash /\
        signed_digest_of_target local_target_of_args s s' entry)).
Proof.
  intros Hrun.
  destruct (start_safeget_returns _ _ Hrun) as (lt & s & s' & Hpre & Hverify & Hrest).
  destruct (obtain_local_target_returns _ _ _ Hpre) as (Hopts & -> & Hfile).
  split; [exact Hopts|].
  exists s, s'. split; [exact Hpre|]. split; [exact Hfile|].
  split; [exact Hverify|]. split; [exact Hrest|].
  intros Hun Hdeps Hself Hout Htmp Htarget.
  assert (Hsound : cache_sound local_target_of_args s).
  { intros algo digest Hc.
    pose proof (follows_run _ _ _ _ _
                  (obtain_local_target_same_cache Hdeps Hself) Hpre) as Hsame.
    unfold same_cache in Hsame. rewrite Hsame, Hun in Hc. discriminate. }
  destruct (verify_file_checked local_target_of_args Hout Htmp Htarget s s'
              Hsound Hverify) as (Hhash & Hsigned & _).
  split; assumption.
Qed.



End Properties.


(** ** Runs on the concrete platform *)

Import Example.

(** C1: with --sig as the only tier and a signature that gpg rejects
    (exit status 1 for every --verify), verify_file returns and prints that
    the target is verified, and start_safeget ends normally: a rejected
    signature does not make the run fail. *)
Theorem verify_file_reports_rejected_signature :
  let P := platform unreachable gpg_rejects in
  let st := start signature_files [] in
  (forall n sigpath stdin_data files,
      gpg_rejects n ["gpg"; "--verify"; sigpath; "app.bin"] stdin_data files
      = Exited 1 EmptyString "gpg: BAD signature" files) /\
  fst (@verify_file signature_args P "app.bin" st) = Return tt /\
  stdout (snd (@verify_file signature_args P "app.bin" st))
  = ["Verify... "; "Verified app.bin" +:+ PyStr.newline] /\
  spawned (snd (@verify_file signature_args P "app.bin" st)) = 2%nat /\
  fst (@start_safeget signature_args P no_others st) = Return tt.
Proof.
  cbv zeta. split; [reflexivity|].
  split; [vm_compute; reflexivity|].
  split; [vm_compute; reflexivity|].
  split; vm_compute; reflexivity.
Qed.

(** C8: an extracted block of more than 100 bytes whose text holds two
    backslashes followed by [rn] still holds a backslash followed by [n]
    after the replacements, so the assertion of clean_gpg_data fails: the
    function raises AssertionError and the run of verify_file ends with it. *)
Theorem clean_gpg_data_assertion_fails :
  let P := platform unreachable gpg_rejects in
  let st := start (<["/tmp/safeget.k3/sig" := escaped_block]> ∅) [] in
  (100 < String.length escaped_block)%nat /\
  PyStr.contains "\n" (normalize escaped_block) = true /\
  @clean_gpg_data signature_args P "/tmp/safeget.k3/sig" st = (Raise AssertionError, st) /\
  fst (@verify_file signature_args P "app.bin" (start escaped_files []))
  = Raise AssertionError.
Proof.
  cbv zeta. split; [vm_compute; lia|].
  split; [vm_compute; reflexivity|].
  split; vm_compute; reflexivity.
Qed.


(** C4, counterexample: with the URL target not yet validated, validating the
    local path key.asc returns normally and sets target_host to the target
    string. *)
Lemma local_source_before_target :
  let P := platform unreachable gpg_rejects in
  let st := start ∅ [] in
  "key.asc" <> @args_target url_args /\
  target_host st = None /\
  @verify_source url_args P "key.asc" st
  = (Return tt, set_target_host (Some target_url) st).
Proof.
  cbv zeta. split; [discriminate|]. split; reflexivity.
Qed.

(** C6, counterexample: with --tries 3 and a network that always fails with
    an error that download_url traps, the download makes three requests and
    fails with a message in which the number of attempts does not occur.
    With --tries 3 and a connection that is closed while the answer is read,
    the download makes one request and ends with that exception. *)
Lemma download_message_lacks_attempts :
  let P := platform unreachable gpg_rejects in
  let r := @download url_args P target_url "app.bin" (start ∅ []) in
  let r' := @download url_args (platform drops gpg_rejects) target_url "app.bin"
              (start ∅ []) in
  (exists msg,
      fst r = Raise (SafegetException msg) /\
      requests (snd r) = 3%nat /\
      PyStr.contains (PyStr.of_nat 3) msg = false) /\
  @args_tries url_args = 3%Z /\
  fst r' = Raise (OSError "Connection reset by peer") /\
  requests (snd r') = 1%nat.
Proof.
  cbv zeta. split; [|split; [|split]].
  - eexists. split; [vm_compute; reflexivity|].
    split; vm_compute; reflexivity.
  - reflexivity.
  - vm_compute. reflexivity.
  - vm_compute. reflexivity.
Qed.


(** C10, counterexample: the network location of https://[abc/y has no
    colon, and parse_host does not return it: urlparse refuses the URL and
    parse_host ends with its ValueError. *)
Lemma parse_host_refuses_bracket :
  let P := platform unreachable gpg_rejects in
  netloc_of "https://[abc/y" = "[abc" /\
  PyStr.count colon (netloc_of "https://[abc/y") = 0%nat /\
  @parse_host P "https://[abc/y" (start ∅ [])
  = (Raise (ValueError "Invalid IPv6 URL"), start ∅ []).
Proof.
  cbv zeta. repeat split; vm_compute; reflexivity.
Qed.

(** an IPv6 literal with a port as the host of the target: the run ends with
    the ValueError of parse_host, which start_safeget does not catch *)
Example ipv6_target_value_error :
  let a := run_args "https://[::1]:8443/app.bin" ["sha256:" +:+ digest_f] [] [] [] 20 in
  let P := platform unreachable gpg_rejects in
  netloc_of "https://[::1]:8443/app.bin" = "[::1]:8443" /\
  fst (@start_safeget a P no_others (start ∅ []))
  = Raise (ValueError "too many values to unpack (expected 2)").
Proof. cbv zeta. split; vm_compute; reflexivity. Qed.

(** ** The statements at concrete inputs *)

Lemma verify_args_needs_a_tier_witness :
  let a := run_args "app.bin" [] [] [] [] 20 in
  let P := platform unreachable gpg_rejects in
  let st := start target_files [] in
  @verify_args a P st = (Raise (SafegetException no_tier_message), st) /\
  (exists e, fst (@start_safeget a P no_others st) = Raise e) /\
  requests (snd (@start_safeget a P no_others st)) = requests st /\
  fs (snd (@start_safeget a P no_others st)) = fs st.
Proof.
  cbv zeta.
  apply (@verify_args_needs_a_tier (run_args "app.bin" [] [] [] [] 20)
           (platform unreachable gpg_rejects) no_others (start target_files []));
    reflexivity.
Defined.

Lemma not_yes : PyStr.lower "n" ∉ ["y"; "yes"].
Proof.
  intros H. apply elem_of_cons in H. destruct H as [H|H]; [discriminate|].
  apply elem_of_cons in H. destruct H as [H|H]; [discriminate|].
  inversion H.
Qed.

Lemma ok_to_write_never_false_witness :
  let P := platform unreachable gpg_rejects in
  let st := start target_files ["n"] in
  @ok_to_write url_args P "new.bin" st = (Return true, st) /\
  exists st',
    @ok_to_write url_args P "app.bin" st
    = (Raise (SafegetException ("Failed: did not replace " +:+ "/home/user/app.bin")), st').
Proof.
  cbv zeta. split.
  - apply (proj1 (proj2 (@ok_to_write_never_false url_args
                           (platform unreachable gpg_rejects) "new.bin"
                           (start target_files ["n"])))).
    left. reflexivity.
  - apply (proj2 (proj2 (@ok_to_write_never_false url_args
                           (platform unreachable gpg_rejects) "app.bin"
                           (start target_files ["n"])))
             "payload" "n" []);
      [reflexivity|discriminate|reflexivity|reflexivity|exact not_yes].
Defined.

Lemma http_not_safe : "http" ∉ SAFE_PROTOCOLS.
Proof.
  intros H. repeat (apply elem_of_cons in H; destruct H as [H|H]; [discriminate|]).
  inversion H.
Qed.

Lemma https_safe : "https" ∈ SAFE_PROTOCOLS.
Proof. apply elem_of_cons. left. reflexivity. Qed.

Lemma verify_source_scheme_and_host_witness :
  let P := platform unreachable gpg_rejects in
  @verify_source url_args P "http://example.org/app.sig" anchored
  = (Raise (SafegetException (unsafe_protocol_message "http://example.org/app.sig")),
     anchored) /\
  @verify_source url_args P "https://example.org/app.sig" anchored
  = (Return tt,
     set_stdout
       (fun o => (o ++ @same_host_warning url_args "https://example.org/app.sig")%list)
       anchored).
Proof.
  cbv zeta. split.
  - apply (proj1 (@verify_source_scheme_and_host url_args
                    (platform unreachable gpg_rejects))
             "http://example.org/app.sig" "http" "example.org" anchored);
      [reflexivity|reflexivity|exact http_not_safe].
  - apply (proj2 (@verify_source_scheme_and_host url_args
                    (platform unreachable gpg_rejects))
             "https://example.org/app.sig" "https" "example.org" "example.org" anchored);
      [reflexivity|reflexivity|exact https_safe|discriminate|reflexivity|reflexivity].
Defined.

Lemma target_host_set_once_witness :
  let P := platform unreachable gpg_rejects in
  target_host (snd (@verify_source url_args P "https://mirror.example.net/app.sig" anchored))
  = Some "example.org" /\
  (exists anchor,
      target_host (snd (@verify_source url_args P target_url (start ∅ []))) = Some anchor /\
      ((is_url target_url = true /\ target_url = @args_target url_args /\
        @parse_host P (@args_target url_args) (start ∅ []) = (Return anchor, start ∅ [])) \/
       (is_url target_url = false /\ anchor = @args_target url_args))) /\
  (exists e,
      @verify_source url_args P "https://mirror.example.net/app.sig" (start ∅ [])
      = (Raise e, start ∅ [])) /\
  target_host (snd (@download url_args P target_url "app.bin" anchored))
  = Some "example.org" /\
  target_host (snd (@verify_file url_args P "app.bin" anchored)) = Some "example.org".
Proof.
  cbv zeta. split; [|split; [|split]].
  - apply (proj1 (@target_host_set_once url_args (platform unreachable gpg_rejects))).
    reflexivity.
  - apply (proj1 (proj2 (@target_host_set_once url_args
                           (platform unreachable gpg_rejects))));
      reflexivity.
  - apply (proj1 (proj2 (proj2 (@target_host_set_once url_args
                                  (platform unreachable gpg_rejects)))));
      [reflexivity|reflexivity|discriminate].
  - apply (proj2 (proj2 (proj2 (@target_host_set_once url_args
                                  (platform unreachable gpg_rejects))))).
    reflexivity.
Defined.

Lemma download_exhausts_tries_witness :
  let P := platform unreachable gpg_rejects in
  let Q := platform drops gpg_rejects in
  (exists st' last msg,
      unreachable 2 target_url = TransportError last /\
      msg = ("Unable to safely get " +:+ target_url +:+ ".") +:+ PyStr.newline +:+
            PyStr.tab +:+ shown_reason last +:+ PyStr.newline +:+ PyStr.tab +:+
            suggestions /\
      @download debug_args P target_url "app.bin" (start ∅ [])
      = (Raise (SafegetException ("Failed: " +:+ msg)), st') /\
      requests st' = 3%nat /\
      fs st' = ∅ /\
      PyStr.contains target_url msg = true /\
      PyStr.contains (shown_reason last) msg = true /\
      PyStr.contains suggestions msg = true /\
      (true = true ->
       exists o,
         stdout st' = (o ++ ["Attempted to download 3 time(s)" +:+ PyStr.newline])%list)) /\
  exists st',
    @download url_args Q target_url "app.bin" (start ∅ [])
    = (Raise (OSError "Connection reset by peer"), st') /\
    requests st' = 1%nat /\
    fs st' = ∅.
Proof.
  cbv zeta. split.
  - apply (proj1 (@download_exhausts_tries debug_args (platform unreachable gpg_rejects)
                    target_url "app.bin" (start ∅ [])
                    (snd (@verbose debug_args
                            ("download " +:+ target_url +:+ " to " +:+ "/home/user/app.bin")
                            (start ∅ [])))
                    (set_target_host (Some "example.org")
                       (snd (@verbose debug_args
                               ("download " +:+ target_url +:+ " to " +:+
                                "/home/user/app.bin")
                               (start ∅ []))))
                    ltac:(simpl; lia) eq_refl eq_refl)).
    intros i _. exists "timed out". reflexivity.
  - apply (proj2 (@download_exhausts_tries url_args (platform drops gpg_rejects)
                    target_url "app.bin" (start ∅ []) (start ∅ []) anchored
                    ltac:(simpl; lia) eq_refl eq_refl)
             0%nat "Connection reset by peer" None).
    + simpl. lia.
    + intros i Hi. lia.
    + reflexivity.
Defined.

(** the subprocesses of the examples leave every file as it is *)
Lemma gpg_accepts_keeps net kept : @subprocesses_keep (platform net gpg_accepts) kept.
Proof.
  intros n argv stdin_data files rc out err files' H path _.
  change (Exited 0 EmptyString EmptyString files = Exited rc out err files') in H.
  injection H as _ _ _ <-. reflexivity.
Qed.

Lemma gpg_rejects_keeps net kept : @subprocesses_keep (platform net gpg_rejects) kept.
Proof.
  intros n argv stdin_data files rc out err files' H path _.
  change (gpg_rejects n argv stdin_data files = Exited rc out err files') in H.
  unfold gpg_rejects in H.
  repeat case_match; injection H as _ _ _ <-; reflexivity.
Qed.

(** no digest is cached when a run starts *)
Lemma start_cache_sound `{Platform} localpath files answers :
  cache_sound localpath (start files answers).
Proof.
  intros algo digest Hc.
  change ((∅ : gmap string string) !! (algo +:+ ":" +:+ localpath) = Some digest) in Hc.
  rewrite lookup_empty in Hc. discriminate Hc.
Qed.



(** ** Further statements at concrete inputs *)

(** the digest of app.bin is still returned from the cache after the file
    has been removed *)
Lemma hash_data_memoized_witness :
  let P := platform unreachable gpg_rejects in
  let st1 := snd (@hash_data P "sha256" "app.bin" (start target_files [])) in
  let st2 := set_fs (fun _ => ∅) st1 in
  @hash_data P "sha256" "app.bin" st2 = (Return (PyStr.lower digest_a), st2).
Proof.
  cbv zeta.
  apply (@hash_data_memoized (platform unreachable gpg_rejects) "sha256" "app.bin"
           (start target_files [])
           (snd (@hash_data (platform unreachable gpg_rejects) "sha256" "app.bin"
                   (start target_files [])))).
  - vm_compute. reflexivity.
  - split; simpl; auto.
Defined.


Lemma parse_hash_normalizes_witness :
  (exists rest,
      "SHA256:AB CD" = "SHA256" +:+ String colon rest /\
      "abcd" = PyStr.replace " " EmptyString (PyStr.lower rest)) /\
  exists msg, fst (parse_hash "abcd" (start ∅ [])) = Raise (SafegetException msg).
Proof.
  split.
  - destruct (proj1 (proj2 (parse_hash_normalizes "SHA256:AB CD" (start ∅ [])))
               "sha256" "abcd" eq_refl)
      as (rest & Htext & _ & _ & _ & _ & _ & _ & Hvalue).
    exists rest. split; [exact Htext|].
    assert (Hrest : rest = "AB CD") by (injection Htext as <-; reflexivity).
    rewrite Hrest in Hvalue |- *. exact (proj1 Hvalue).
  - apply (proj2 (proj2 (parse_hash_normalizes "abcd" (start ∅ [])))).
    reflexivity.
Defined.

Lemma get_run_args_plain_witness :
  let P := platform unreachable gpg_rejects in
  @get_run_args P ∅ ["gpg"; "--verify"; "'*.sig'"] = ["gpg"; "--verify"; "'*.sig'"].
Proof.
  cbv zeta.
  apply (@get_run_args_plain (platform unreachable gpg_rejects)).
  repeat constructor; reflexivity.
Defined.

Lemma clean_gpg_data_result_witness :
  let P := platform unreachable gpg_rejects in
  let st := start signature_files [] in
  let st' := snd (@clean_gpg_data signature_args P "app.sig" st) in
  exists data,
    fs st !! "app.sig" = Some data /\
    true = (100 <? String.length data)%nat /\
    exists text,
      @decode P data = Some text /\
      fs st' = <["app.sig" := @encode P (normalize text)]> (fs st) /\
      PyStr.contains "\n" (normalize text) = false /\
      PyStr.contains "<p>" (normalize text) = false /\
      PyStr.contains "<br>" (normalize text) = false.
Proof.
  cbv zeta.
  apply (@clean_gpg_data_result signature_args (platform unreachable gpg_rejects)
           "app.sig" (start signature_files []) true).
  vm_compute. reflexivity.
Defined.

Lemma extract_patterns_one_file_per_match_witness :
  let P := platform unreachable gpg_rejects in
  let st := start signature_files [] in
  let st' := snd (@extract_patterns signature_args P SIG_PATTERN "app.sig" st) in
  let paths := ["/tmp/safeget.k3/ABCDEFGH"] in
  exists data text,
    fs st !! "app.sig" = Some data /\ @decode P data = Some text /\
    List.length paths = List.length (@findall P SIG_PATTERN text) /\
    (forall p, p ∈ paths ->
               PyStr.startswith p (@TMP_DIR P +:+ "/") = true /\
               exists m, m ∈ @findall P SIG_PATTERN text /\
                         fs st' !! p = Some (@encode P m)) /\
    (forall q, q ∉ paths -> fs st' !! q = fs st !! q).
Proof.
  cbv zeta.
  apply (@extract_patterns_one_file_per_match signature_args
           (platform unreachable gpg_rejects) SIG_PATTERN "app.sig"
           (start signature_files [])).
  vm_compute. reflexivity.
Defined.

Lemma save_patterns_source_local_witness :
  let P := platform unreachable gpg_rejects in
  let st := start signature_files [] in
  @save_patterns_source signature_args P SIG_PATTERN ([], []) "gone.sig" st
  = (Raise (SafegetException "Failed: file not found: gone.sig"), st).
Proof.
  cbv zeta.
  exact (@save_patterns_source_local signature_args (platform unreachable gpg_rejects)
           SIG_PATTERN "gone.sig" [] [] (start signature_files []) eq_refl).
Defined.

Lemma verify_args_accepts_witness :
  let P := platform unreachable gpg_rejects in
  let st := start target_files [] in
  @verify_args (hash_args digest_f) P st = @verify_source (hash_args digest_f) P "app.bin" st /\
  exists msg,
    @verify_args (run_args "app.bin" ["sha256:" +:+ digest_f] ["key.asc"] [] [] 20) P st
    = (Raise (SafegetException msg), st).
Proof.
  cbv zeta. split.
  - apply (proj1 (@verify_args_accepts (hash_args digest_f)
                    (platform unreachable gpg_rejects) (start target_files []))).
    reflexivity.
  - apply (proj1 (proj2 (@verify_args_accepts
                           (run_args "app.bin" ["sha256:" +:+ digest_f] ["key.asc"] [] [] 20)
                           (platform unreachable gpg_rejects) (start target_files [])))).
    reflexivity.
Defined.

Lemma download_stops_at_first_success_witness :
  let P := platform flaky gpg_rejects in
  exists st',
    @download url_args P target_url "app.bin" (start ∅ []) = (Return tt, st') /\
    requests st' = 3%nat /\
    fs st' = <["app.bin" := "payload"]> ∅.
Proof.
  cbv zeta.
  apply (@download_stops_at_first_success url_args (platform flaky gpg_rejects)
           target_url "app.bin" (start ∅ []) (start ∅ []) anchored 2 "payload").
  - reflexivity.
  - reflexivity.
  - simpl. lia.
  - intros i Hi. exists "timed out".
    destruct i as [|[|i]]; [reflexivity|reflexivity|lia].
  - reflexivity.
Defined.

Lemma download_without_tries_witness :
  let P := platform unreachable gpg_rejects in
  exists st',
    @download no_tries_args P target_url "app.bin" (start ∅ []) =
    (Raise (SafegetException
              ("Failed: " +:+ ("Unable to safely get " +:+ target_url +:+ ".") +:+
               PyStr.newline +:+ PyStr.tab +:+ "None" +:+ PyStr.newline +:+
               PyStr.tab +:+ suggestions)), st') /\
    requests st' = 0%nat /\ fs st' = ∅.
Proof.
  cbv zeta.
  apply (@download_without_tries no_tries_args (platform unreachable gpg_rejects)
           target_url "app.bin" (start ∅ []) (start ∅ []) anchored).
  - simpl. lia.
  - reflexivity.
  - reflexivity.
Defined.

Lemma get_details_for_failure_reason_witness :
  fst (@get_details_for_failure url_args target_url 20
         (Some "[Errno 53] Unable to reach server.") (start ∅ []))
  = Return (("Unable to safely get " +:+ target_url +:+ ".") +:+ PyStr.newline +:+
            PyStr.tab +:+ "Error: Unable to reach server." +:+ PyStr.newline +:+
            PyStr.tab +:+ suggestions) /\
  fst (@get_details_for_failure url_args target_url 20 (Some "timed out") (start ∅ []))
  = Return (("Unable to safely get " +:+ target_url +:+ ".") +:+ PyStr.newline +:+
            PyStr.tab +:+ "timed out" +:+ PyStr.newline +:+ PyStr.tab +:+ suggestions).
Proof.
  split.
  - apply (proj1 (@get_details_for_failure_reason url_args target_url 20 (start ∅ []))
             "53" "Unable to reach server.");
      [discriminate|reflexivity|reflexivity].
  - apply (proj2 (@get_details_for_failure_reason url_args target_url 20 (start ∅ []))
             "timed out").
    reflexivity.
Defined.

Lemma ok_to_write_prompts_witness :
  let P := platform unreachable gpg_rejects in
  let st := start target_files ["Yes"; "n"] in
  exists st',
    @ok_to_write url_args P "app.bin" st = (Return true, st') /\
    stdin st' = ["n"] /\ fs st' = target_files.
Proof.
  cbv zeta.
  apply (@ok_to_write_prompts url_args (platform unreachable gpg_rejects) "app.bin"
           (start target_files ["Yes"; "n"]) "payload");
    [reflexivity|discriminate|reflexivity].
Defined.

Lemma verify_file_sound_witness :
  let P := platform unreachable gpg_accepts in
  let st := start signedhash_files [] in
  let st' := snd (@verify_file sized_args P "app.bin" st) in
  @hash_entry_of_target P "app.bin" st st' ("sha256:" +:+ digest_a) /\
  (exists entry,
      entry ∈ @args_signedhash sized_args /\
      @signed_digest_of_target P "app.bin" st st' entry) /\
  exists data,
    fs st !! "app.bin" = Some data /\ fs st' !! "app.bin" = Some data /\
    parse_int (PyStr.replace "," EmptyString "7") = Some (Z.of_nat (String.length data)).
Proof.
  cbv zeta.
  destruct (@verify_file_sound sized_args (platform unreachable gpg_accepts) "app.bin"
              eq_refl (gpg_accepts_keeps _ _) (gpg_accepts_keeps _ _)
              (start signedhash_files [])
              (snd (@verify_file sized_args (platform unreachable gpg_accepts) "app.bin"
                      (start signedhash_files [])))
              (start_cache_sound _ _ _))
    as (Hhash & Hsigned & Hsize).
  - vm_compute. reflexivity.
  - split; [|split].
    + apply Hhash. apply elem_of_cons. left. reflexivity.
    + apply Hsigned. discriminate.
    + apply (Hsize "7"); [reflexivity|discriminate].
Defined.

Lemma verify_explicit_hash_arg_url_mismatch_witness :
  let P := platform (serves "no digest here") gpg_accepts in
  let entry := "sha256:" +:+ hash_url in
  @verify_explicit_hash_arg hash_url_args P "app.bin" ["sha256"; "md5"] None entry
    anchored_with_target
  = (Raise (UnboundLocalError "actual_hash"),
     snd (@fetch_and_search hash_url_args P "app.bin" "sha256" hash_url
            anchored_with_target)).
Proof.
  cbv zeta.
  apply (@verify_explicit_hash_arg_url_mismatch hash_url_args
           (platform (serves "no digest here") gpg_accepts) "app.bin"
           ["sha256"; "md5"] None ("sha256:" +:+ hash_url) anchored_with_target
           (snd (@fetch_and_search hash_url_args
                   (platform (serves "no digest here") gpg_accepts) "app.bin" "sha256"
                   hash_url anchored_with_target))
           "sha256" hash_url).
  - vm_compute. reflexivity.
  - apply elem_of_cons. left. reflexivity.
  - reflexivity.
  - vm_compute. reflexivity.
Defined.

Lemma verify_signed_messages_only_accepted_witness :
  let P := platform unreachable gpg_accepts in
  let st := start signedhash_files [] in
  @verified_file P st (snd (@verify_signed_messages signedhash_args P "sums.asc" st))
    "/tmp/safeget.k3/ABCDEFGH".
Proof.
  cbv zeta.
  apply (@verify_signed_messages_only_accepted signedhash_args
           (platform unreachable gpg_accepts) (gpg_accepts_keeps _ _)
           "sums.asc" (start signedhash_files [])
           ["/tmp/safeget.k3/ABCDEFGH"]).
  - vm_compute. reflexivity.
  - apply elem_of_cons. left. reflexivity.
Defined.

Lemma verify_signature_path_ignores_verdict_witness :
  let P := platform unreachable gpg_rejects in
  let st := start signature_files [] in
  let s1 := snd (@clean_gpg_data signature_args P "app.sig" st) in
  exists st',
    @verify_signature_path signature_args P "app.bin" "app.sig" st = (Return tt, st') /\
    spawned st' = S (spawned s1) /\
    fs st' = fs s1.
Proof.
  cbv zeta.
  apply (@verify_signature_path_ignores_verdict signature_args
           (platform unreachable gpg_rejects) "app.bin" "app.sig"
           (start signature_files []) true).
  vm_compute. reflexivity.
Defined.

Lemma remove_online_removes_witness :
  let st := start target_files [] in
  (exists st',
      @remove_online url_args ["app.bin"] st = (Return tt, st') /\
      forall q, fs st' !! q
                = if bool_decide (q ∈ ["app.bin"]) then None else fs st !! q) /\
  @remove_online url_args ["gone.tmp"; "app.bin"] st
  = (Raise (FileNotFoundError "gone.tmp"), st).
Proof.
  cbv zeta. split.
  - apply (proj1 (proj2 (@remove_online_removes url_args ["app.bin"]
                           (start target_files []))));
      [reflexivity|apply NoDup_singleton|].
    intros p Hp. apply elem_of_cons in Hp as [->|Hp]; [|inversion Hp].
    exists "payload". reflexivity.
  - apply (proj2 (proj2 (@remove_online_removes url_args ["gone.tmp"; "app.bin"]
                           (start target_files [])))
             eq_refl "gone.tmp" ["app.bin"]);
      reflexivity.
Defined.

Lemma import_pubkey_outcomes_witness :
  let P := platform unreachable gpg_broken in
  let Q := platform unreachable gpg_key_ring in
  let st := start signature_files [] in
  let s1 := snd (@clean_gpg_data signature_args P "key.asc" st) in
  (exists st',
      @import_pubkey signature_args P "key.asc" st
      = (Raise (CalledProcessError 2 ["gpg"; "--import"; "key.asc"]), st') /\
      spawned st' = S (spawned s1) /\
      fs st' = fs s1) /\
  exists st',
    @import_pubkey signature_args Q "key.asc" st = (Return tt, st') /\
    spawned st' = S (spawned s1) /\
    fs st' = <["/home/user/.gnupg/pubring.kbx" := "keys"]> (fs s1).
Proof.
  cbv zeta. split.
  - apply (@import_pubkey_outcomes signature_args (platform unreachable gpg_broken)
             "key.asc" (start signature_files []) true
             (snd (@clean_gpg_data signature_args (platform unreachable gpg_broken)
                     "key.asc" (start signature_files [])))).
    vm_compute. reflexivity.
  - apply (@import_pubkey_outcomes signature_args (platform unreachable gpg_key_ring)
             "key.asc" (start signature_files []) true
             (snd (@clean_gpg_data signature_args (platform unreachable gpg_key_ring)
                     "key.asc" (start signature_files [])))).
    vm_compute. reflexivity.
Defined.

Lemma start_safeget_returns_verified_witness :
  let P := platform unreachable gpg_accepts in
  let a := hash_args digest_a in
  @options_ok a = true /\
  exists s s',
    @obtain_local_target a P no_others (start target_files []) = (Return "app.bin", s) /\
    is_Some (fs s !! "app.bin") /\
    @verify_file a P "app.bin" s = (Return tt, s') /\
    @finish_run a no_others s'
    = (Return tt, snd (@start_safeget a P no_others (start target_files []))) /\
    @hash_entry_of_target P "app.bin" s s' ("sha256:" +:+ digest_a).
Proof.
  cbv zeta.
  destruct (@start_safeget_returns_verified (hash_args digest_a)
              (platform unreachable gpg_accepts) no_others (start target_files [])
              (snd (@start_safeget (hash_args digest_a) (platform unreachable gpg_accepts)
                      no_others (start target_files []))))
    as (Hopts & s & s' & Hpre & Hfile & Hverify & Hfinish & Hsound).
  - vm_compute. reflexivity.
  - split; [exact Hopts|].
    exists s, s'. split; [exact Hpre|]. split; [exact Hfile|].
    split; [exact Hverify|]. split; [exact Hfinish|].
    apply Hsound.
    + intros algo.
      change ((∅ : gmap string string) !! (algo +:+ ":" +:+ "app.bin") = None).
      apply lookup_empty.
    + intros st. reflexivity.
    + intros st. reflexivity.
    + reflexivity.
    + apply gpg_accepts_keeps.
    + apply gpg_accepts_keeps.
    + apply elem_of_cons. left. reflexivity.
Defined.
